(** * BestRX submission pipeline: payload mapping, response normalisation
      and the refill / transfer submission hooks

    A shallow embedding of [src/lib/bestrx.ts] and of the two BestRX hooks of
    [src/lib/hooks.ts].  The first part gives the ECMAScript operations the
    code relies on, the second the functions of the repository under their
    own names, the last part the properties proved about them. *)

From Stdlib Require Import List NArith ZArith Bool Ascii String Lia.
From Stdlib Require Import Floats.PrimFloat Floats.FloatOps Floats.SpecFloat.
Import ListNotations.

Set Warnings "-register-all,-inexact-float".

(* ================================================================== *)
(** * Part I.  The ECMAScript operations used by the code             *)
(* ================================================================== *)

Module Js.

(** ** Strings

    A JavaScript string is a sequence of UTF-16 code units.  [split],
    [trim] and a [replace] with a non-unicode regular expression all work
    code unit by code unit. *)

Definition CodeUnit := N.
Definition JsString := list CodeUnit.

(** An ASCII literal as a JavaScript string. *)
Definition str (s : string) : JsString :=
  map N_of_ascii (list_ascii_of_string s).
Arguments str s%_string.

Fixpoint string_eqb (a b : JsString) : bool :=
  match a, b with
  | [], [] => true
  | x :: a', y :: b' => N.eqb x y && string_eqb a' b'
  | _, _ => false
  end.

(** Truthiness of a string: [!!s]. *)
Definition nonempty (s : JsString) : bool :=
  match s with [] => false | _ :: _ => true end.

(** [s || d] for a value that is a string or [undefined]. *)
Definition or_string (s : option JsString) (d : JsString) : JsString :=
  match s with
  | Some (c :: s') => c :: s'
  | _ => d
  end.

(** [\d] and [\D] of a regular expression without the [u] flag. *)
Definition is_digit (c : CodeUnit) : bool := (48 <=? c)%N && (c <=? 57)%N.
Definition is_non_digit (c : CodeUnit) : bool := negb (is_digit c).

(** WhiteSpace and LineTerminator code points, the set [trim] strips. *)
Definition is_white_space (c : CodeUnit) : bool :=
  ((9 <=? c) && (c <=? 13) || (c =? 32) || (c =? 160) || (c =? 5760)
   || (8192 <=? c) && (c <=? 8202) || (c =? 8232) || (c =? 8233)
   || (c =? 8239) || (c =? 8287) || (c =? 12288) || (c =? 65279))%N.

Fixpoint drop_while (p : CodeUnit -> bool) (s : JsString) : JsString :=
  match s with
  | [] => []
  | c :: s' => if p c then drop_while p s' else s
  end.

(** [String.prototype.trim]. *)
Definition trim (s : JsString) : JsString :=
  rev (drop_while is_white_space (rev (drop_while is_white_space s))).

(** [s.split(sep)] for a separator of one code unit: the pieces between
    the occurrences of [sep], in order; never an empty array. *)
Fixpoint split (sep : CodeUnit) (s : JsString) : list JsString :=
  match s with
  | [] => [[]]
  | c :: s' =>
      if (c =? sep)%N then [] :: split sep s'
      else match split sep s' with
           | [] => [[c]]
           | piece :: pieces => (c :: piece) :: pieces
           end
  end.

(** [s.replace(/C/g, by)] for a pattern [C] that matches one code unit:
    every match, left to right, gives way to the replacement text. *)
Fixpoint replace_all (pat : CodeUnit -> bool) (by_ : JsString) (s : JsString)
  : JsString :=
  match s with
  | [] => []
  | c :: s' =>
      (if pat c then by_ else [c]) ++ replace_all pat by_ s'
  end.

(** [a.pop()] as a value: the last element, [undefined] on an empty array. *)
Fixpoint pop {A : Type} (a : list A) : option A :=
  match a with
  | [] => None
  | [x] => Some x
  | _ :: a' => pop a'
  end.

(** [a.map((x, index) => f x index)]. *)
Fixpoint map_indexed_from {A B : Type} (f : A -> nat -> B) (i : nat)
  (a : list A) : list B :=
  match a with
  | [] => []
  | x :: a' => f x i :: map_indexed_from f (S i) a'
  end.

Definition map_indexed {A B : Type} (f : A -> nat -> B) (a : list A) : list B :=
  map_indexed_from f 0 a.

Definition comma : CodeUnit := 44%N.
Definition space : CodeUnit := 32%N.
Definition line_feed : CodeUnit := 10%N.
Definition tab : CodeUnit := 9%N.
Definition colon : CodeUnit := 58%N.
Definition letter_T : CodeUnit := 84%N.

(** ** Numbers

    A Number is an IEEE 754 binary64 value; [===] on two Numbers is the
    IEEE comparison ([NaN] differs from itself, the two zeros are equal). *)

Definition JsNumber := float.

Definition number_equals (x y : JsNumber) : bool := PrimFloat.eqb x y.

(** Truthiness of a Number: every value but the zeros and [NaN]. *)
Definition number_truthy (x : JsNumber) : bool :=
  negb (PrimFloat.eqb x 0%float) && PrimFloat.eqb x x.

(** *** [Number::toString] in radix 10

    The digits are the shortest decimal numeral that reads back as the
    same Number, the closest such numeral when there are several, with an
    even last digit on a tie.  [r / s] is the part still to print, [mp / s]
    and [mm / s] half the distance to the next Number above and below. *)

Local Open Scope Z_scope.

Fixpoint generate_digits (fuel : nat) (inclusive : bool) (r s mp mm : Z)
  : list Z :=
  match fuel with
  | O => []
  | S fuel' =>
      let d := (r * 10) / s in
      let r' := (r * 10) mod s in
      let mp' := mp * 10 in
      let mm' := mm * 10 in
      let low_ok := if inclusive then r' <=? mm' else r' <? mm' in
      let high_ok := if inclusive then s <=? r' + mp' else s <? r' + mp' in
      if low_ok then
        if high_ok then
          (if r' * 2 <? s then [d]
           else if (r' * 2 =? s) && Z.even d then [d]
           else [d + 1])
        else [d]
      else
        if high_ok then [d + 1]
        else d :: generate_digits fuel' inclusive r' s mp' mm'
  end.

Definition scale_by (k : Z) (r s mp mm : Z) : Z * Z * Z * Z :=
  if 0 <=? k then (r, s * 10 ^ k, mp, mm)
  else let t := 10 ^ (- k) in (r * t, s, mp * t, mm * t).

Definition below_power (inclusive : bool) (k : Z) (r s mp mm : Z) : bool :=
  let '(r', s', mp', _) := scale_by k r s mp mm in
  if inclusive then r' + mp' <? s' else r' + mp' <=? s'.

Fixpoint find_exponent (fuel : nat) (inclusive : bool) (k : Z) (r s mp mm : Z)
  : Z :=
  match fuel with
  | O => k
  | S fuel' =>
      if below_power inclusive k r s mp mm then k
      else find_exponent fuel' inclusive (k + 1) r s mp mm
  end.

(** The digits [d1 ... dk] and the exponent [n] with
    [m * 2^e = 0.d1...dk * 10^n]. *)
Definition shortest_digits (m : positive) (e : Z) : list Z * Z :=
  let f := Zpos m in
  let inclusive := Z.even f in
  let narrow_below := (f =? 2 ^ 52) && negb (e =? -1074) in
  let '(r, s, mp, mm) :=
    if 0 <=? e then
      let be := 2 ^ e in
      if narrow_below then (f * be * 4, 4, 2 * be, be)
      else (f * be * 2, 2, be, be)
    else
      if narrow_below then (f * 4, 2 ^ (- e) * 4, 2, 1)
      else (f * 2, 2 ^ (- e) * 2, 1, 1) in
  let estimate := ((Z.log2 f + e) * 30103) / 100000 in
  let n := find_exponent 8 inclusive (estimate - 2) r s mp mm in
  let '(r', s', mp', mm') := scale_by n r s mp mm in
  (generate_digits 400 inclusive r' s' mp' mm', n).

Definition digit_unit (d : Z) : CodeUnit := Z.to_N (48 + d).

Fixpoint decimal_from (fuel : nat) (n : Z) (acc : JsString) : JsString :=
  match fuel with
  | O => acc
  | S fuel' =>
      let acc' := digit_unit (n mod 10) :: acc in
      if n / 10 =? 0 then acc' else decimal_from fuel' (n / 10) acc'
  end.

Definition decimal (n : Z) : JsString := decimal_from 30 n [].

Definition zeros (n : Z) : JsString := repeat 48%N (Z.to_nat n).

Definition format_number (digits : list Z) (n : Z) : JsString :=
  let k := Z.of_nat (List.length digits) in
  let ds := map digit_unit digits in
  if (k <=? n) && (n <=? 21) then ds ++ zeros (n - k)
  else if (0 <? n) && (n <=? 21) then
    firstn (Z.to_nat n) ds ++ str "." ++ skipn (Z.to_nat n) ds
  else if (-6 <? n) && (n <=? 0) then
    str "0." ++ zeros (- n) ++ ds
  else
    let sign := if 0 <=? n - 1 then str "e+" else str "e-" in
    match ds with
    | [] => []
    | [d] => [d] ++ sign ++ decimal (Z.abs (n - 1))
    | d :: more => [d] ++ str "." ++ more ++ sign ++ decimal (Z.abs (n - 1))
    end.

Local Close Scope Z_scope.

Definition NumberToString (x : JsNumber) : JsString :=
  match Prim2SF x with
  | S754_nan => str "NaN"
  | S754_zero _ => str "0"
  | S754_infinity negative =>
      (if negative then str "-" else []) ++ str "Infinity"
  | S754_finite negative m e =>
      let '(digits, n) := shortest_digits m e in
      (if negative then str "-" else []) ++ format_number digits n
  end.

(** ** Values

    [Json] is what [response.json()] can produce.  A value the code
    handles is [undefined], a JSON value, or one of the objects every
    object literal inherits from [Object.prototype]. *)

Inductive Json : Type :=
| JNull
| JBool (b : bool)
| JNum (x : JsNumber)
| JStr (s : JsString)
| JArr (items : list Json)
| JObj (props : list (JsString * Json)).

Inductive Builtin : Type :=
| BObject                      (* the [Object] constructor *)
| BObjectPrototype             (* [Object.prototype] itself *)
| BMethod (name : JsString).   (* the method [Object.prototype.name] *)

Inductive JsValue : Type :=
| VUndefined
| VJson (j : Json)
| VBuiltin (b : Builtin).

Definition VNull : JsValue := VJson JNull.
Definition VStr (s : JsString) : JsValue := VJson (JStr s).
Definition VBool (b : bool) : JsValue := VJson (JBool b).
Definition VNum (x : JsNumber) : JsValue := VJson (JNum x).

(** Own properties of an object: the first binding of a name is the
    property (an object has one property per name). *)
Fixpoint lookup {V : Type} (key : JsString) (props : list (JsString * V))
  : option V :=
  match props with
  | [] => None
  | (name, v) :: props' =>
      if string_eqb name key then Some v else lookup key props'
  end.

(** [ToBoolean]. *)
Definition truthy (v : JsValue) : bool :=
  match v with
  | VUndefined => false
  | VJson JNull => false
  | VJson (JBool b) => b
  | VJson (JNum x) => number_truthy x
  | VJson (JStr s) => nonempty s
  | VJson (JArr _) => true
  | VJson (JObj _) => true
  | VBuiltin _ => true
  end.

Definition typeof (v : JsValue) : JsString :=
  match v with
  | VUndefined => str "undefined"
  | VJson JNull => str "object"
  | VJson (JBool _) => str "boolean"
  | VJson (JNum _) => str "number"
  | VJson (JStr _) => str "string"
  | VJson (JArr _) => str "object"
  | VJson (JObj _) => str "object"
  | VBuiltin BObjectPrototype => str "object"
  | VBuiltin _ => str "function"
  end.

Definition isArray (v : JsValue) : bool :=
  match v with
  | VJson (JArr _) => true
  | _ => false
  end.

(** [v === 'literal'], [v === true] and [v === null]. *)
Definition strict_equals_string (v : JsValue) (s : JsString) : bool :=
  match v with
  | VJson (JStr t) => string_eqb t s
  | _ => false
  end.

Definition strict_equals_true (v : JsValue) : bool :=
  match v with
  | VJson (JBool true) => true
  | _ => false
  end.

Definition is_null (v : JsValue) : bool :=
  match v with
  | VJson JNull => true
  | _ => false
  end.

(** [a || b]. *)
Definition or_value (a b : JsValue) : JsValue := if truthy a then a else b.

(** ** Exceptions *)

(** What a [throw] carries: an instance of [Error] (or of a subclass),
    with its class name and message, or any other value. *)
Inductive Thrown : Type :=
| ThrownError (name message : JsString)
| ThrownOther (v : JsValue).

Inductive Completion (A : Type) : Type :=
| Normal (a : A)
| Throw (t : Thrown).
Arguments Normal {A} a.
Arguments Throw {A} t.

Definition bind {A B : Type} (c : Completion A) (k : A -> Completion B)
  : Completion B :=
  match c with
  | Normal a => k a
  | Throw t => Throw t
  end.

Notation "x <- c ;; k" := (bind c (fun x => k))
  (at level 61, c at next level, right associativity).

(** The wording of an engine's own error messages is not fixed by the
    language; these are V8's. *)
Definition not_primitive : Thrown :=
  ThrownError (str "TypeError") (str "Cannot convert object to primitive value").

Definition invalid_character : Thrown :=
  ThrownError (str "InvalidCharacterError")
    (str "Failed to execute 'btoa' on 'Window': The string to be encoded contains characters outside of the Latin1 range.").

(** ** [ToString]

    An array prints as its elements joined by commas, [null] elements as
    nothing.  A plain object prints through the inherited [toString]
    unless it has a [toString] property of its own; a JSON value is never
    callable, so neither that property nor [valueOf] yields a primitive,
    and the conversion throws. *)

Fixpoint json_ToString (j : Json) : Completion JsString :=
  match j with
  | JNull => Normal (str "null")
  | JBool true => Normal (str "true")
  | JBool false => Normal (str "false")
  | JNum x => Normal (NumberToString x)
  | JStr s => Normal s
  | JArr items =>
      (fix join (l : list Json) : Completion JsString :=
         match l with
         | [] => Normal []
         | x :: l' =>
             first <- match x with
                      | JNull => Normal []
                      | _ => json_ToString x
                      end ;;
             match l' with
             | [] => Normal first
             | _ :: _ => more <- join l' ;; Normal (first ++ comma :: more)
             end
         end) items
  | JObj props =>
      match lookup (str "toString") props with
      | Some _ => Throw not_primitive
      | None => Normal (str "[object Object]")
      end
  end.

(** The source text of a built-in function, as V8 prints it. *)
Definition native_function (name : JsString) : JsString :=
  str "function " ++ name ++ str "() { [native code] }".

Definition ToString (v : JsValue) : Completion JsString :=
  match v with
  | VUndefined => Normal (str "undefined")
  | VJson j => json_ToString j
  | VBuiltin BObject => Normal (native_function (str "Object"))
  | VBuiltin BObjectPrototype => Normal (str "[object Object]")
  | VBuiltin (BMethod name) => Normal (native_function name)
  end.

(** [new Error(message)]: the message is [ToString(message)], and empty
    when the argument is [undefined]. *)
Definition new_Error (message : JsValue) : Completion Thrown :=
  match message with
  | VUndefined => Normal (ThrownError (str "Error") [])
  | _ => m <- ToString message ;; Normal (ThrownError (str "Error") m)
  end.

(** ** Property reads on an object literal

    [o[key]] finds an own property first and then what [Object.prototype]
    provides under that name. *)

Definition object_prototype_methods : list JsString :=
  [ str "hasOwnProperty"; str "isPrototypeOf"; str "propertyIsEnumerable";
    str "toLocaleString"; str "toString"; str "valueOf";
    str "__defineGetter__"; str "__defineSetter__";
    str "__lookupGetter__"; str "__lookupSetter__" ].

Definition object_prototype_get (key : JsString) : option Builtin :=
  if string_eqb key (str "constructor") then Some BObject
  else if string_eqb key (str "__proto__") then Some BObjectPrototype
  else if existsb (string_eqb key) object_prototype_methods
       then Some (BMethod key)
  else None.

Definition literal_get (own : list (JsString * JsString)) (key : JsString)
  : JsValue :=
  match lookup key own with
  | Some s => VStr s
  | None =>
      match object_prototype_get key with
      | Some b => VBuiltin b
      | None => VUndefined
      end
  end.

(** ** [btoa]

    Base64 of a string whose code units are all below 256; any other
    string is refused with an [InvalidCharacterError]. *)

Definition base64_unit (n : N) : CodeUnit :=
  (if n <? 26 then 65 + n
   else if n <? 52 then 97 + (n - 26)
   else if n <? 62 then 48 + (n - 52)
   else if n =? 62 then 43
   else 47)%N.

Fixpoint base64 (s : JsString) : JsString :=
  match s with
  | [] => []
  | [a] =>
      [ base64_unit (a / 4); base64_unit ((a mod 4) * 16); 61; 61 ]%N
  | [a; b] =>
      [ base64_unit (a / 4); base64_unit ((a mod 4) * 16 + b / 16);
        base64_unit ((b mod 16) * 4); 61 ]%N
  | a :: b :: c :: s' =>
      [ base64_unit (a / 4); base64_unit ((a mod 4) * 16 + b / 16);
        base64_unit ((b mod 16) * 4 + c / 64); base64_unit (c mod 64) ]%N
      ++ base64 s'
  end.

Definition btoa (s : JsString) : Completion JsString :=
  if forallb (fun c => (c <? 256)%N) s then Normal (base64 s)
  else Throw invalid_character.

End Js.

(* ================================================================== *)
(** * Part II.  [src/lib/bestrx.ts] and [src/lib/hooks.ts]            *)
(* ================================================================== *)

Module BestRx.
Import Js.

(** ** Form data ([schemas.ts]) *)

Record RefillFormData := {
  patientName : JsString;
  dob : JsString;
  phone : JsString;
  email : option JsString;
  prescriptionNumbers : JsString;
  medicationNames : JsString;
  preferredService : JsString;
  notes : option JsString;
  consent : bool
}.

(** ** Payload mapper *)

Definition formatPhoneForBestRX (phone : JsString) : JsString :=
  replace_all is_non_digit [] phone.

Record RxInRefillRequestItem := {
  RxNumber : JsString;
  MedicationName : JsString
}.

Record RefillPayload := {
  userName : JsString;
  APIKey : JsString;
  PharmacyNumber : JsString;
  LastName : JsString;
  DOB : JsString;
  Phone : JsString;
  DeliveryOption : JsString;
  RxInRefillRequest : list RxInRefillRequestItem
}.

Definition buildRefillRequestPayload (formData : RefillFormData)
  (pharmacyNumber apiKey username : JsString) : RefillPayload :=
  let rxNumbers :=
    filter nonempty (map trim (split comma (prescriptionNumbers formData))) in
  let medications :=
    filter nonempty (map trim (split comma (medicationNames formData))) in
  let rxInRefillRequest :=
    map_indexed
      (fun rxNumber index =>
         {| RxNumber := rxNumber;
            MedicationName := or_string (nth_error medications index) [] |})
      rxNumbers in
  {| userName := username;
     APIKey := apiKey;
     PharmacyNumber := pharmacyNumber;
     LastName :=
       or_string (pop (split space (patientName formData)))
                 (patientName formData);
     DOB := dob formData;
     Phone := formatPhoneForBestRX (phone formData);
     DeliveryOption := or_string (Some (preferredService formData)) (str "Pickup");
     RxInRefillRequest := rxInRefillRequest |}.

(** ** Transfer form and payload *)

Module Transfer.

Record TransferFormData := {
  rxNumber : JsString;
  rxFillDate : JsString;
  transferToPharmacyName : JsString;
  transferToPharmacyAddress1 : JsString;
  transferToPharmacyAddress2 : option JsString;
  transferToPharmacyCity : JsString;
  transferToPharmacyState : JsString;
  transferToPharmacyZip : JsString;
  transferToPharmacyPhone : JsString;
  transferToPharmacyNCPDP : option JsString;
  transferRxRemark : option JsString;
  consent : bool
}.

Record PharmacyAddress := {
  Name : JsString;
  Address : JsString;
  Address2 : JsString;
  City : JsString;
  State : JsString;
  Zip : JsString;
  Phone : JsString;
  NCPDP : JsString
}.

Record TransferPayload := {
  PharmacyNumber : JsString;
  RxNo : JsString;
  RxFillDate : JsString;
  TransferToPharmacy : PharmacyAddress;
  TransferDate : JsString;
  Comments : JsString
}.

End Transfer.

(** [now] is what [new Date().toISOString()] returns at the call.  [split]
    never returns an empty array, so element [0] is always there. *)
Definition buildTransferRequestPayload (now : JsString)
  (formData : Transfer.TransferFormData) (pharmacyNumber : JsString)
  : Transfer.TransferPayload :=
  let transferDate := hd [] (split letter_T now) in
  {| Transfer.PharmacyNumber := pharmacyNumber;
     Transfer.RxNo := Transfer.rxNumber formData;
     Transfer.RxFillDate := Transfer.rxFillDate formData;
     Transfer.TransferToPharmacy :=
       {| Transfer.Name := Transfer.transferToPharmacyName formData;
          Transfer.Address := Transfer.transferToPharmacyAddress1 formData;
          Transfer.Address2 :=
            or_string (Transfer.transferToPharmacyAddress2 formData) [];
          Transfer.City := Transfer.transferToPharmacyCity formData;
          Transfer.State := Transfer.transferToPharmacyState formData;
          Transfer.Zip := Transfer.transferToPharmacyZip formData;
          Transfer.Phone :=
            formatPhoneForBestRX (Transfer.transferToPharmacyPhone formData);
          Transfer.NCPDP :=
            or_string (Transfer.transferToPharmacyNCPDP formData) [] |};
     Transfer.TransferDate := transferDate;
     Transfer.Comments := or_string (Transfer.transferRxRemark formData) [] |}.

Definition buildBasicAuthHeader (username password : JsString)
  : Completion JsString :=
  let credentials := username ++ colon :: password in
  encoded <- btoa credentials ;;
  Normal (str "Basic " ++ encoded).

(** ** Response / error normaliser *)

Definition BESTRX_ERROR_CODES : list (JsString * JsString) :=
  [ (str "ERROR_INVALID_PHARMACY",
     str "Invalid pharmacy number. Please verify your pharmacy details.");
    (str "ERROR_INVALID_PATIENT",
     str "Patient information not found. Please verify your name and date of birth.");
    (str "ERROR_RX_NOT_FOUND",
     str "One or more prescription numbers were not found. Please verify the numbers.");
    (str "ERROR_RX_INACTIVE",
     str "One or more prescriptions are no longer active. Please contact us for assistance.");
    (str "ERROR_RX_REFILLED",
     str "One or more prescriptions have already been refilled recently.");
    (str "ERROR_GENERIC",
     str "An error occurred while processing your request. Please try again.");
    (str "ERROR0027",
     str "Prescription not found. Please verify the prescription number.");
    (str "ERROR0069",
     str "Prescription cannot be transferred. Please contact the pharmacy.");
    (str "ERROR0070", str "Invalid destination pharmacy information.");
    (str "ERROR0080", str "Patient not found in system.");
    (str "ERROR0003", str "Patient date of birth does not match.");
    (str "ERROR0082", str "Transfer limit exceeded. Please try again later.") ].

(** [httpStatus === n] for an optional Number. *)
Definition status_is (httpStatus : option JsNumber) (n : JsNumber) : bool :=
  match httpStatus with
  | Some x => number_equals x n
  | None => false
  end.

(** The parameter is declared [string | undefined]; [extractTransferErrorMessage]
    passes whatever the response carries, so the code is a value here. *)
Definition mapBestRXError (errorCode : JsValue) (httpStatus : option JsNumber)
  : Completion JsValue :=
  if negb (truthy errorCode) then
    if status_is httpStatus 400%float then
      Normal (VStr (str "Invalid request. Please check your information and try again."))
    else if status_is httpStatus 403%float then
      Normal (VStr (str "Authentication failed. Please contact support."))
    else if status_is httpStatus 500%float then
      Normal (VStr (str "Service temporarily unavailable. Please try again later."))
    else Normal (literal_get BESTRX_ERROR_CODES (str "ERROR_GENERIC"))
  else
    key <- ToString errorCode ;;
    Normal (or_value (literal_get BESTRX_ERROR_CODES key)
                     (literal_get BESTRX_ERROR_CODES (str "ERROR_GENERIC"))).

(** The properties the code reads off a response.  None of these names is
    an array index, [length], or a member of a built-in prototype, so a
    read yields the own property of a plain object and [undefined] on any
    other value.  Every read in the code is behind a guard that excludes
    [null] and [undefined]. *)
Inductive ResponseField :=
| F_RxInRefillResponse | F_Status | F_ErrorCode | F_ErrorMessage
| F_IsValid | F_RxTransferred.

Definition field_name (f : ResponseField) : JsString :=
  match f with
  | F_RxInRefillResponse => str "RxInRefillResponse"
  | F_Status => str "Status"
  | F_ErrorCode => str "ErrorCode"
  | F_ErrorMessage => str "ErrorMessage"
  | F_IsValid => str "IsValid"
  | F_RxTransferred => str "RxTransferred"
  end.

Definition get_field (v : JsValue) (f : ResponseField) : JsValue :=
  match v with
  | VJson (JObj props) =>
      match lookup (field_name f) props with
      | Some j => VJson j
      | None => VUndefined
      end
  | _ => VUndefined
  end.

Definition array_items (v : JsValue) : list JsValue :=
  match v with
  | VJson (JArr items) => map VJson items
  | _ => []
  end.

(** [!response || typeof response !== 'object'] *)
Definition not_an_object (response : JsValue) : bool :=
  negb (truthy response) || negb (string_eqb (typeof response) (str "object")).

Definition validateRefillResponse (response : JsValue) : bool :=
  if not_an_object response then false
  else
    let rxResponses := get_field response F_RxInRefillResponse in
    if negb (isArray rxResponses) then false
    else
      existsb
        (fun rx =>
           string_eqb (typeof rx) (str "object")
           && negb (is_null rx)
           && strict_equals_string (get_field rx F_Status) (str "OK"))
        (array_items rxResponses).

Definition validateTransferResponse (response : JsValue) : bool :=
  if not_an_object response then false
  else
    strict_equals_true (get_field response F_IsValid)
    && strict_equals_true (get_field response F_RxTransferred).

Definition extractRefillErrorMessage (response : JsValue)
  : Completion JsValue :=
  if not_an_object response then Normal VNull
  else
    let rxResponses := get_field response F_RxInRefillResponse in
    if isArray rxResponses && (0 <? List.length (array_items rxResponses))%nat
    then
      let firstError :=
        match
          find
            (fun rx =>
               string_eqb (typeof rx) (str "object")
               && negb (is_null rx)
               && negb (strict_equals_string (get_field rx F_Status) (str "OK")))
            (array_items rxResponses)
        with
        | Some rx => rx
        | None => VUndefined
        end in
      if truthy firstError && string_eqb (typeof firstError) (str "object")
      then
        let errorCode := get_field firstError F_ErrorCode in
        let errorMessage := get_field firstError F_ErrorMessage in
        if truthy errorCode then
          code <- ToString errorCode ;;
          mapBestRXError (VStr code) None
        else if truthy errorMessage then
          text <- ToString errorMessage ;;
          Normal (VStr text)
        else Normal VNull
      else Normal VNull
    else Normal VNull.

Definition extractTransferErrorMessage (response : JsValue)
  : Completion JsValue :=
  if not_an_object response then Normal VNull
  else
    let errorCode := get_field response F_ErrorCode in
    let errorMessage := get_field response F_ErrorMessage in
    if truthy errorCode then mapBestRXError errorCode None
    else if truthy errorMessage then Normal errorMessage
    else mapBestRXError VUndefined None.

(** ** The outside world

    What a submission touches outside the program: the process
    configuration, the network ([fetch] and the Supabase client) and the
    clock.  A request body is kept as the payload that [JSON.stringify]
    receives. *)

Inductive Payload : Type :=
| RefillBody (p : RefillPayload)
| TransferBody (p : Transfer.TransferPayload).

Record Request := {
  url : JsString;
  method : JsString;
  headers : list (JsString * JsString);
  body : Payload
}.

(** A [Response]: [ok], [status], and what [response.json()] settles to. *)
Record Response := {
  ok : bool;
  status : JsNumber;
  json : Completion Json
}.

Record RpcCall := {
  rpc_function : JsString;
  rpc_arguments : list (JsString * JsValue)
}.

(** What [supabase.rpc] resolves to: [{ data, error }]. *)
Record RpcResult := {
  rpc_data : JsValue;
  rpc_error : JsValue
}.

Record ProcessEnv := {
  BESTRX_USERNAME : option JsString;
  BESTRX_API_KEY : option JsString;
  BESTRX_PASSWORD : option JsString;
  BESTRX_PHARMACY_NUMBER : option JsString
}.

Record World := {
  env : ProcessEnv;
  fetch : Request -> Completion Response;
  rpc : RpcCall -> Completion RpcResult;
  clock : JsString
}.

Inductive Event : Type :=
| Fetch (r : Request)
| Rpc (c : RpcCall)
| ConsoleError (label : JsString) (t : Thrown)
| ConsoleWarn (label : JsString) (t : Thrown).

Definition is_network_call (e : Event) : bool :=
  match e with
  | Fetch _ | Rpc _ => true
  | _ => false
  end.

Definition network_calls (events : list Event) : nat :=
  List.length (filter is_network_call events).

(** ** Tasks: state, effects and exceptions

    The state of a hook ([status] and [error] of [useState]) and the
    effects performed so far, oldest first. *)

Inductive SubmissionStatus :=
| StatusIdle | StatusSubmitting | StatusSuccess | StatusError.

Record Store := {
  hook_status : SubmissionStatus;
  hook_error : option JsString;
  events : list Event
}.

Definition initial : Store :=
  {| hook_status := StatusIdle; hook_error := None; events := [] |}.

Definition Task (A : Type) : Type := Store -> Completion A * Store.

Definition ret {A : Type} (a : A) : Task A := fun st => (Normal a, st).

Definition throw {A : Type} (t : Thrown) : Task A := fun st => (Throw t, st).

Definition lift {A : Type} (c : Completion A) : Task A := fun st => (c, st).

Definition and_then {A B : Type} (t : Task A) (k : A -> Task B) : Task B :=
  fun st =>
    match t st with
    | (Normal a, st') => k a st'
    | (Throw e, st') => (Throw e, st')
    end.

(** [try { t } catch (e) { handler e }] *)
Definition try_catch {A : Type} (t : Task A) (handler : Thrown -> Task A)
  : Task A :=
  fun st =>
    match t st with
    | (Normal a, st') => (Normal a, st')
    | (Throw e, st') => handler e st'
    end.

(** The store after one more effect. *)
Definition logged (st : Store) (e : Event) : Store :=
  {| hook_status := hook_status st;
     hook_error := hook_error st;
     events := events st ++ [e] |}.

Definition emit (e : Event) : Task unit := fun st => (Normal tt, logged st e).

Definition setStatus (s : SubmissionStatus) : Task unit :=
  fun st =>
    (Normal tt,
     {| hook_status := s; hook_error := hook_error st; events := events st |}).

Definition setError (e : option JsString) : Task unit :=
  fun st =>
    (Normal tt,
     {| hook_status := hook_status st; hook_error := e; events := events st |}).

Notation "x <~ t ;; k" := (and_then t (fun x => k))
  (at level 61, t at next level, right associativity).
Notation "t ;;; k" := (and_then t (fun _ => k))
  (at level 61, right associativity).

(** ** Primary call *)

Definition BESTRX_ENDPOINTS_refill : JsString :=
  str "https://webservice.bcsbestrx.com/bcswebservice/v2/webrefillservice/SendRefillRequest".

Definition BESTRX_ENDPOINTS_transfer : JsString :=
  str "https://dataservice.bestrxconnect.com/prescription/submitrxtransferrequest".

Record SubmissionResult := {
  success : bool;
  message : JsValue;
  data : JsValue
}.

Definition connection_failure : SubmissionResult :=
  {| success := false;
     message := VStr (str "Unable to connect to pharmacy service. Please try again later.");
     data := VUndefined |}.

(** The arguments of the [fetch] call of [submitRefillToBestRX]. *)
Definition refill_request (payload : RefillPayload) : Request :=
  {| url := BESTRX_ENDPOINTS_refill;
     method := str "POST";
     headers := [ (str "Content-Type", str "application/json") ];
     body := RefillBody payload |}.

Definition submitRefillToBestRX (w : World) (payload : RefillPayload)
  : Task SubmissionResult :=
  let request := refill_request payload in
  try_catch
    (emit (Fetch request) ;;;
     response <~ lift (fetch w request) ;;
     parsed <~ lift (json response) ;;
     let responseData := VJson parsed in
     if negb (ok response) then
       errorMessage <~ lift (extractRefillErrorMessage responseData) ;;
       text <~ lift (if truthy errorMessage then Normal errorMessage
                     else mapBestRXError VUndefined (Some (status response))) ;;
       ret {| success := false; message := text; data := VUndefined |}
     else if negb (validateRefillResponse responseData) then
       errorMessage <~ lift (extractRefillErrorMessage responseData) ;;
       ret {| success := false;
              message :=
                or_value errorMessage
                  (VStr (str "Unable to process refill request. Please try again."));
              data := VUndefined |}
     else
       ret {| success := true;
              message := VStr (str "Refill request submitted successfully");
              data := responseData |})
    (fun caught =>
       emit (ConsoleError (str "BestRX Refill Error:") caught) ;;;
       ret connection_failure).

(** The arguments of the [fetch] call of [submitTransferToBestRX]. *)
Definition transfer_request (payload : Transfer.TransferPayload)
  (basicAuthHeader : JsString) : Request :=
  {| url := BESTRX_ENDPOINTS_transfer;
     method := str "POST";
     headers := [ (str "Content-Type", str "application/json");
                  (str "Authorization", basicAuthHeader) ];
     body := TransferBody payload |}.

Definition submitTransferToBestRX (w : World)
  (payload : Transfer.TransferPayload) (basicAuthHeader : JsString)
  : Task SubmissionResult :=
  let request := transfer_request payload basicAuthHeader in
  try_catch
    (emit (Fetch request) ;;;
     response <~ lift (fetch w request) ;;
     parsed <~ lift (json response) ;;
     let responseData := VJson parsed in
     if negb (ok response) then
       errorMessage <~ lift (extractTransferErrorMessage responseData) ;;
       text <~ lift (if truthy errorMessage then Normal errorMessage
                     else mapBestRXError VUndefined (Some (status response))) ;;
       ret {| success := false; message := text; data := VUndefined |}
     else if negb (validateTransferResponse responseData) then
       errorMessage <~ lift (extractTransferErrorMessage responseData) ;;
       ret {| success := false;
              message :=
                or_value errorMessage
                  (VStr (str "Unable to process transfer request. Please try again."));
              data := VUndefined |}
     else
       ret {| success := true;
              message := VStr (str "Transfer request submitted successfully");
              data := responseData |})
    (fun caught =>
       emit (ConsoleError (str "BestRX Transfer Error:") caught) ;;;
       ret connection_failure).

End BestRx.

(** ** [src/lib/hooks.ts] *)

Module Hooks.
Import Js BestRx.

Definition not_configured : JsString :=
  str "Pharmacy service is not properly configured. Please contact support.".

(** [!v] for a configuration value, a string or [undefined]. *)
Definition missing (v : option JsString) : bool :=
  match v with
  | Some (_ :: _) => false
  | _ => true
  end.

(** A configuration value that passed the guard, as the string it is. *)
Definition configured (v : option JsString) : JsString :=
  match v with
  | Some s => s
  | None => []
  end.

(** [err instanceof Error ? err.message : "Submission failed"] *)
Definition message_of (err : Thrown) : JsString :=
  match err with
  | ThrownError _ m => m
  | ThrownOther _ => str "Submission failed"
  end.

(** The [catch] block shared by the hooks. *)
Definition fail_with {A : Type} (err : Thrown) : Task A :=
  let errorMessage := message_of err in
  setError (Some errorMessage) ;;;
  setStatus StatusError ;;;
  throw err.

Module useRefillFormSubmission.

Definition audit_call (data : RefillFormData) : RpcCall :=
  {| rpc_function := str "submit_refill_request";
     rpc_arguments :=
       [ (str "p_patient_name", VStr (patientName data));
         (str "p_dob", VStr (dob data));
         (str "p_phone", VStr (phone data));
         (str "p_email", VStr (or_string (email data) []));
         (str "p_prescription_numbers", VStr (prescriptionNumbers data));
         (str "p_medication_names", VStr (medicationNames data));
         (str "p_preferred_service", VStr (preferredService data));
         (str "p_notes", VStr (or_string (notes data) []));
         (str "p_consent", VBool (consent data)) ] |}.

Definition submit (w : World) (data : RefillFormData) : Task JsValue :=
  setStatus StatusSubmitting ;;;
  setError None ;;;
  try_catch
    (let username := BESTRX_USERNAME (env w) in
     let apiKey := BESTRX_API_KEY (env w) in
     let pharmacyNumber := BESTRX_PHARMACY_NUMBER (env w) in
     if missing username || missing apiKey || missing pharmacyNumber then
       err <~ lift (new_Error (VStr not_configured)) ;;
       throw err
     else
       let payload :=
         buildRefillRequestPayload data (configured pharmacyNumber)
           (configured apiKey) (configured username) in
       result <~ submitRefillToBestRX w payload ;;
       if negb (success result) then
         err <~ lift (new_Error (message result)) ;;
         throw err
       else
         try_catch
           (emit (Rpc (audit_call data)) ;;;
            lift (rpc w (audit_call data)) ;;;
            ret tt)
           (fun supabaseError =>
              emit (ConsoleWarn (str "Failed to save refill request to database:")
                      supabaseError)) ;;;
         setStatus StatusSuccess ;;;
         ret (BestRx.data result))
    (fun err => fail_with err).

End useRefillFormSubmission.

Module useTransferFormSubmission.

Definition audit_call (data : Transfer.TransferFormData) : RpcCall :=
  {| rpc_function := str "submit_transfer_request";
     rpc_arguments :=
       [ (str "p_rx_number", VStr (Transfer.rxNumber data));
         (str "p_rx_fill_date", VStr (Transfer.rxFillDate data));
         (str "p_transfer_to_pharmacy_name",
          VStr (Transfer.transferToPharmacyName data));
         (str "p_transfer_to_pharmacy_address1",
          VStr (Transfer.transferToPharmacyAddress1 data));
         (str "p_transfer_to_pharmacy_address2",
          VStr (or_string (Transfer.transferToPharmacyAddress2 data) []));
         (str "p_transfer_to_pharmacy_city",
          VStr (Transfer.transferToPharmacyCity data));
         (str "p_transfer_to_pharmacy_state",
          VStr (Transfer.transferToPharmacyState data));
         (str "p_transfer_to_pharmacy_zip",
          VStr (Transfer.transferToPharmacyZip data));
         (str "p_transfer_to_pharmacy_phone",
          VStr (Transfer.transferToPharmacyPhone data));
         (str "p_transfer_to_pharmacy_ncpdp",
          VStr (or_string (Transfer.transferToPharmacyNCPDP data) []));
         (str "p_transfer_rx_remark",
          VStr (or_string (Transfer.transferRxRemark data) []));
         (str "p_consent", VBool (Transfer.consent data)) ] |}.

Definition submit (w : World) (data : Transfer.TransferFormData)
  : Task JsValue :=
  setStatus StatusSubmitting ;;;
  setError None ;;;
  try_catch
    (let username := BESTRX_USERNAME (env w) in
     let password := BESTRX_PASSWORD (env w) in
     let pharmacyNumber := BESTRX_PHARMACY_NUMBER (env w) in
     if missing username || missing password || missing pharmacyNumber then
       err <~ lift (new_Error (VStr not_configured)) ;;
       throw err
     else
       let payload :=
         buildTransferRequestPayload (clock w) data (configured pharmacyNumber) in
       authHeader <~
         lift (buildBasicAuthHeader (configured username) (configured password)) ;;
       result <~ submitTransferToBestRX w payload authHeader ;;
       if negb (success result) then
         err <~ lift (new_Error (message result)) ;;
         throw err
       else
         try_catch
           (emit (Rpc (audit_call data)) ;;;
            lift (rpc w (audit_call data)) ;;;
            ret tt)
           (fun supabaseError =>
              emit (ConsoleWarn (str "Failed to save transfer request to database:")
                      supabaseError)) ;;;
         setStatus StatusSuccess ;;;
         ret (BestRx.data result))
    (fun err => fail_with err).

End useTransferFormSubmission.

End Hooks.

(** ** The specification's own notions *)

Module Spec.
Import Js.

(** The non-empty, trimmed, comma-separated tokens of a free-text field. *)
Definition comma_tokens (s : JsString) : list JsString :=
  filter nonempty (map trim (split comma s)).

(** What splitting on the comma only means, said without [split]:
    a text without a comma is one token, its trimmed text, or no token
    when nothing is left of it; the tokens of a text with a comma are
    those of what stands before the comma followed by those of what
    stands after it.  No other character takes part. *)
Inductive separated_by_commas : JsString -> list JsString -> Prop :=
| one_token :
    forall s, ~ In comma s -> trim s <> [] -> separated_by_commas s [trim s]
| no_token :
    forall s, ~ In comma s -> trim s = [] -> separated_by_commas s []
| at_comma :
    forall before after tokens_before tokens_after,
      separated_by_commas before tokens_before ->
      separated_by_commas after tokens_after ->
      separated_by_commas (before ++ comma :: after)
        (tokens_before ++ tokens_after).

Fixpoint take_while (p : CodeUnit -> bool) (s : JsString) : JsString :=
  match s with
  | [] => []
  | c :: s' => if p c then c :: take_while p s' else []
  end.

(** The final whitespace-separated token of a string: its last maximal
    run of characters that are not white space. *)
Definition final_whitespace_token (s : JsString) : JsString :=
  rev (take_while (fun c => negb (is_white_space c))
         (drop_while is_white_space (rev s))).

(** [BESTRX_ERROR_CODES['ERROR_GENERIC']] *)
Definition generic_message : JsString :=
  str "An error occurred while processing your request. Please try again.".

End Spec.

(** ** Sample inputs *)

Module Samples.
Import Js BestRx.

Definition refill_form (name numbers medications : JsString)
  : RefillFormData :=
  {| patientName := name;
     dob := str "1980-02-29";
     phone := str "(614) 555-1234";
     email := None;
     prescriptionNumbers := numbers;
     medicationNames := medications;
     preferredService := str "pickup";
     notes := None;
     consent := true |}.

Definition transfer_form : Transfer.TransferFormData :=
  {| Transfer.rxNumber := str "7001234";
     Transfer.rxFillDate := str "2025-01-02";
     Transfer.transferToPharmacyName := str "Main Street Pharmacy";
     Transfer.transferToPharmacyAddress1 := str "1 Main Street";
     Transfer.transferToPharmacyAddress2 := None;
     Transfer.transferToPharmacyCity := str "Columbus";
     Transfer.transferToPharmacyState := str "OH";
     Transfer.transferToPharmacyZip := str "43004";
     Transfer.transferToPharmacyPhone := str "(614) 555-0100";
     Transfer.transferToPharmacyNCPDP := None;
     Transfer.transferRxRemark := None;
     Transfer.consent := true |}.

Definition refill_accepted : Json :=
  JObj [ (str "RxInRefillResponse",
          JArr [ JObj [ (str "RxNumber", JStr (str "111"));
                        (str "Status", JStr (str "OK")) ] ]) ].

Definition transfer_accepted : Json :=
  JObj [ (str "IsValid", JBool true); (str "RxTransferred", JBool true) ].

(** A world in which BestRX answers every request with [answer] and the
    given status, and every Supabase call settles as [audit]. *)
Definition world (configuration : ProcessEnv) (httpOk : bool)
  (httpStatus : JsNumber) (answer : Json) (audit : Completion RpcResult)
  : World :=
  {| env := configuration;
     fetch := fun _ =>
       Normal {| ok := httpOk; status := httpStatus; json := Normal answer |};
     rpc := fun _ => audit;
     clock := str "2025-01-15T10:30:00.000Z" |}.

Definition complete : ProcessEnv :=
  {| BESTRX_USERNAME := Some (str "elevated");
     BESTRX_API_KEY := Some (str "api-key");
     BESTRX_PASSWORD := Some (str "secret");
     BESTRX_PHARMACY_NUMBER := Some (str "PH1") |}.

Definition without_api_key : ProcessEnv :=
  {| BESTRX_USERNAME := Some (str "elevated");
     BESTRX_API_KEY := None;
     BESTRX_PASSWORD := Some (str "secret");
     BESTRX_PHARMACY_NUMBER := Some (str "PH1") |}.

Definition without_password : ProcessEnv :=
  {| BESTRX_USERNAME := Some (str "elevated");
     BESTRX_API_KEY := Some (str "api-key");
     BESTRX_PASSWORD := None;
     BESTRX_PHARMACY_NUMBER := Some (str "PH1") |}.

(** The Supabase client failing in its two ways: the call throws, or it
    resolves with an [error]. *)
Definition audit_throws : Completion RpcResult :=
  Throw (ThrownError (str "TypeError") (str "Failed to fetch")).

Definition audit_errors : Completion RpcResult :=
  Normal {| rpc_data := VNull;
            rpc_error :=
              VJson (JObj [ (str "message", JStr (str "permission denied")) ]) |}.

End Samples.

(** ** The hooks that only write to Supabase ([hooks.ts]) *)

Module FormHooks.
Import Js BestRx Hooks.

(** [rpcError.message]: [message] is no member of a built-in prototype,
    so the read finds the own property of a plain object and is
    [undefined] on every other truthy value. *)
Definition error_message (rpcError : JsValue) : JsValue :=
  match rpcError with
  | VJson (JObj props) =>
      match lookup (str "message") props with
      | Some j => VJson j
      | None => VUndefined
      end
  | _ => VUndefined
  end.

(** The body the three hooks share, written out in each of them:
    [const { data: id, error: rpcError } = await supabase.rpc(...)],
    the test of [rpcError], and the [catch] block of the file. *)
Module useContactFormSubmission.

Record ContactFormData := {
  name : JsString;
  phone : JsString;
  email : JsString;
  reason : JsString;
  message : JsString;
  consent : bool
}.

Definition call (data : ContactFormData) : RpcCall :=
  {| rpc_function := str "submit_contact_form";
     rpc_arguments :=
       [ (str "p_name", VStr (name data));
         (str "p_phone", VStr (phone data));
         (str "p_email", VStr (email data));
         (str "p_reason", VStr (reason data));
         (str "p_message", VStr (message data));
         (str "p_consent", VBool (consent data)) ] |}.

Definition submit (w : World) (data : ContactFormData) : Task JsValue :=
  setStatus StatusSubmitting ;;;
  setError None ;;;
  try_catch
    (emit (Rpc (call data)) ;;;
     result <~ lift (rpc w (call data)) ;;
     let id := rpc_data result in
     let rpcError := rpc_error result in
     if truthy rpcError then
       err <~ lift (new_Error (error_message rpcError)) ;;
       throw err
     else
       setStatus StatusSuccess ;;;
       ret id)
    (fun err => fail_with err).

End useContactFormSubmission.

Module useWaitlistFormSubmission.

Record WaitlistFormData := {
  name : JsString;
  email : JsString;
  phone : JsString
}.

Definition call (data : WaitlistFormData) : RpcCall :=
  {| rpc_function := str "submit_waitlist_entry";
     rpc_arguments :=
       [ (str "p_name", VStr (name data));
         (str "p_email", VStr (email data));
         (str "p_phone", VStr (phone data)) ] |}.

Definition submit (w : World) (data : WaitlistFormData) : Task JsValue :=
  setStatus StatusSubmitting ;;;
  setError None ;;;
  try_catch
    (emit (Rpc (call data)) ;;;
     result <~ lift (rpc w (call data)) ;;
     let id := rpc_data result in
     let rpcError := rpc_error result in
     if truthy rpcError then
       err <~ lift (new_Error (error_message rpcError)) ;;
       throw err
     else
       setStatus StatusSuccess ;;;
       ret id)
    (fun err => fail_with err).

End useWaitlistFormSubmission.

Module useSplashModalFormSubmission.

Record SplashModalFormData := {
  email : JsString
}.

Definition call (data : SplashModalFormData) : RpcCall :=
  {| rpc_function := str "submit_splash_modal_signup";
     rpc_arguments := [ (str "p_email", VStr (email data)) ] |}.

Definition submit (w : World) (data : SplashModalFormData) : Task JsValue :=
  setStatus StatusSubmitting ;;;
  setError None ;;;
  try_catch
    (emit (Rpc (call data)) ;;;
     result <~ lift (rpc w (call data)) ;;
     let id := rpc_data result in
     let rpcError := rpc_error result in
     if truthy rpcError then
       err <~ lift (new_Error (error_message rpcError)) ;;
       throw err
     else
       setStatus StatusSuccess ;;;
       ret id)
    (fun err => fail_with err).

End useSplashModalFormSubmission.

End FormHooks.

(** ** Reference notions for the properties of Part IV *)

Module Reference.
Import Js BestRx.

(** The value of a Base64 digit (RFC 4648, the standard alphabet);
    nothing for any other code unit, the padding sign included. *)
Definition base64_value (c : CodeUnit) : option N :=
  (if (65 <=? c) && (c <=? 90) then Some (c - 65)
   else if (97 <=? c) && (c <=? 122) then Some (c - 97 + 26)
   else if (48 <=? c) && (c <=? 57) then Some (c - 48 + 52)
   else if c =? 43 then Some 62
   else if c =? 47 then Some 63
   else None)%N.

(** Strict Base64 decoding: the text is a sequence of groups of four
    digits; only the last group may end in one or two padding signs, and
    the bits it then leaves unused must be zero.  Every other text, one
    with a foreign character or of another length, is refused. *)
Fixpoint base64_decode (s : JsString) : option JsString :=
  match s with
  | [] => Some []
  | a :: b :: c :: d :: s' =>
      match base64_value a, base64_value b with
      | Some va, Some vb =>
          if (d =? 61)%N then
            match s' with
            | [] =>
                if (c =? 61)%N then
                  if (vb mod 16 =? 0)%N then Some [ va * 4 + vb / 16 ]%N
                  else None
                else
                  match base64_value c with
                  | Some vc =>
                      if (vc mod 4 =? 0)%N then
                        Some [ va * 4 + vb / 16; (vb mod 16) * 16 + vc / 4 ]%N
                      else None
                  | None => None
                  end
            | _ :: _ => None
            end
          else
            match base64_value c, base64_value d, base64_decode s' with
            | Some vc, Some vd, Some rest =>
                Some (va * 4 + vb / 16 :: (vb mod 16) * 16 + vc / 4
                      :: (vc mod 4) * 64 + vd :: rest)%N
            | _, _, _ => None
            end
      | _, _ => None
      end
  | _ => None
  end.

(** A string [btoa] accepts: every code unit below 256. *)
Definition latin1 (s : JsString) : Prop := Forall (fun c => (c < 256)%N) s.

(** The number of occurrences of a code unit. *)
Definition occurrences (c : CodeUnit) (s : JsString) : nat :=
  List.length (filter (N.eqb c) s).

(** A text made of separators and white space only. *)
Definition blank (s : JsString) : Prop :=
  Forall (fun c => c = comma \/ is_white_space c = true) s.

(** [s] without the longest suffix of code units that satisfy [p]. *)
Fixpoint drop_trailing (p : CodeUnit -> bool) (s : JsString) : JsString :=
  match s with
  | [] => []
  | c :: s' =>
      match drop_trailing p s' with
      | [] => if p c then [] else [c]
      | kept => c :: kept
      end
  end.

(** The message [mapBestRXError] gives when there is no error code. *)
Definition status_message (httpStatus : option JsNumber) : JsString :=
  if status_is httpStatus 400%float then
    str "Invalid request. Please check your information and try again."
  else if status_is httpStatus 403%float then
    str "Authentication failed. Please contact support."
  else if status_is httpStatus 500%float then
    str "Service temporarily unavailable. Please try again later."
  else Spec.generic_message.

(** A failure result with the given message. *)
Definition failed (text : JsValue) : SubmissionResult :=
  {| success := false; message := text; data := VUndefined |}.

(** The store after a primary call that ended in the [catch] block. *)
Definition caught_in (st : Store) (request : Request) (label : JsString)
  (thrown : Thrown) : Store :=
  logged (logged st (Fetch request)) (ConsoleError label thrown).

(** The runs of a hook, as a relation between the effects it added and
    how it ended: rejected without a network call; rejected after the
    primary call, with or without a [console.error]; resolved after the
    primary call and the audit write, with or without a [console.warn]. *)
Inductive hook_run (request : Request) (audit : RpcCall)
  : Completion JsValue -> SubmissionStatus -> option JsString -> list Event
    -> Prop :=
| run_refused :
    forall t,
      hook_run request audit (Throw t) StatusError (Some (Hooks.message_of t)) []
| run_failed :
    forall t,
      hook_run request audit (Throw t) StatusError (Some (Hooks.message_of t))
        [ Fetch request ]
| run_failed_logged :
    forall t label caught,
      hook_run request audit (Throw t) StatusError (Some (Hooks.message_of t))
        [ Fetch request; ConsoleError label caught ]
| run_resolved :
    forall v,
      hook_run request audit (Normal v) StatusSuccess None
        [ Fetch request; Rpc audit ]
| run_resolved_warned :
    forall v label caught,
      hook_run request audit (Normal v) StatusSuccess None
        [ Fetch request; Rpc audit; ConsoleWarn label caught ].

(** An entry of [RxInRefillResponse] that did not go through, as data: an
    object (an array is one) whose [Status] is not the string ["OK"]. *)
Definition reports_failure (rx : Json) : bool :=
  match rx with
  | JObj entry =>
      match lookup (str "Status") entry with
      | Some (JStr s) => negb (string_eqb s (str "OK"))
      | _ => true
      end
  | JArr _ => true
  | _ => false
  end.

Definition is_fetch (e : Event) : bool :=
  match e with Fetch _ => true | _ => false end.

Definition is_rpc (e : Event) : bool :=
  match e with Rpc _ => true | _ => false end.

End Reference.

(** ** Further sample inputs *)

Module Scenarios.
Import Js BestRx.

(** A world in which every [fetch] settles as [answer] and every Supabase
    call as [audit]. *)
Definition world_of (configuration : ProcessEnv)
  (answer : Completion Response) (audit : Completion RpcResult) : World :=
  {| env := configuration;
     fetch := fun _ => answer;
     rpc := fun _ => audit;
     clock := str "2025-01-15T10:30:00.000Z" |}.

Definition network_down : Thrown :=
  ThrownError (str "TypeError") (str "Failed to fetch").

Definition saved (id : JsString) : Completion RpcResult :=
  Normal {| rpc_data := VStr id; rpc_error := VNull |}.

Definition refused (text : JsString) : Completion RpcResult :=
  Normal {| rpc_data := VNull;
            rpc_error := VJson (JObj [ (str "message", JStr text) ]) |}.

Definition answer (httpOk : bool) (httpStatus : JsNumber) (content : Json)
  : Completion Response :=
  Normal {| ok := httpOk; status := httpStatus; json := Normal content |}.

(** A refill answer whose only entry failed with the given code. *)
Definition refill_rejected (code : Json) : Json :=
  JObj [ (str "RxInRefillResponse",
          JArr [ JObj [ (str "RxNumber", JStr (str "111"));
                        (str "Status", JStr (str "ERROR"));
                        (str "ErrorCode", code) ] ]) ].

(** A refill answer whose first entry failed with the given code and
    whose second entry went through. *)
Definition refill_accepted_in_part (code : JsString) : Json :=
  JObj [ (str "RxInRefillResponse",
          JArr [ JObj [ (str "RxNumber", JStr (str "111"));
                        (str "Status", JStr (str "ERROR"));
                        (str "ErrorCode", JStr code) ];
                 JObj [ (str "RxNumber", JStr (str "222"));
                        (str "Status", JStr (str "OK")) ] ]) ].

Definition transfer_rejected (code : JsString) : Json :=
  JObj [ (str "IsValid", JBool false);
         (str "RxTransferred", JBool false);
         (str "ErrorCode", JStr code) ].

(** A configuration whose password [btoa] cannot encode (it holds the
    euro sign, U+20AC). *)
Definition euro_password : ProcessEnv :=
  {| BESTRX_USERNAME := Some (str "elevated");
     BESTRX_API_KEY := Some (str "api-key");
     BESTRX_PASSWORD := Some (str "secret" ++ [8364%N]);
     BESTRX_PHARMACY_NUMBER := Some (str "PH1") |}.

End Scenarios.

(* ================================================================== *)
(** * Part III.  Properties                                           *)
(* ================================================================== *)

Import Js BestRx Hooks.

(** ** Strings *)

Lemma string_eqb_eq : forall a b, string_eqb a b = true <-> a = b.
Proof.
  induction a as [|x a IH]; destruct b as [|y b]; simpl; split; intro H;
    try reflexivity; try discriminate.
  - apply andb_true_iff in H. destruct H as [Hx Hab].
    apply N.eqb_eq in Hx. apply IH in Hab. subst. reflexivity.
  - injection H as -> ->. rewrite N.eqb_refl. simpl. apply IH. reflexivity.
Qed.

Lemma string_eqb_refl : forall a, string_eqb a a = true.
Proof. intro a. apply string_eqb_eq. reflexivity. Qed.

Lemma string_eqb_neq : forall a b, string_eqb a b = false <-> a <> b.
Proof.
  intros a b. split.
  - intros H E. apply string_eqb_eq in E. congruence.
  - intro H. destruct (string_eqb a b) eqn:E; [|reflexivity].
    apply string_eqb_eq in E. contradiction.
Qed.

Lemma split_not_nil : forall sep s, split sep s <> [].
Proof.
  intros sep s. destruct s as [|c s]; simpl; [discriminate|].
  destruct (c =? sep)%N; [discriminate|].
  destruct (split sep s); discriminate.
Qed.

Lemma split_without_separator :
  forall sep s, ~ In sep s -> split sep s = [s].
Proof.
  intros sep s. induction s as [|c s IH]; intro H; simpl; [reflexivity|].
  destruct (c =? sep)%N eqn:E.
  - apply N.eqb_eq in E. subst. exfalso. apply H. left. reflexivity.
  - rewrite IH; [reflexivity|]. intro Hin. apply H. right. exact Hin.
Qed.

Lemma split_at_separator :
  forall sep p t, split sep (p ++ sep :: t) = split sep p ++ split sep t.
Proof.
  intros sep p t. induction p as [|c p IH]; simpl.
  - rewrite N.eqb_refl. reflexivity.
  - destruct (c =? sep)%N; [rewrite IH; reflexivity|].
    rewrite IH. destruct (split sep p) eqn:E; [|reflexivity].
    exfalso. exact (split_not_nil _ _ E).
Qed.

Lemma pop_app : forall (A : Type) (l1 l2 : list A),
  l2 <> [] -> pop (l1 ++ l2) = pop l2.
Proof.
  intros A l1 l2 H. induction l1 as [|x l1 IH]; [reflexivity|].
  simpl. destruct (l1 ++ l2) eqn:E; [|exact IH].
  apply app_eq_nil in E. destruct E as [_ E]. contradiction.
Qed.

Lemma drop_while_app :
  forall p a t, (exists c, In c a /\ p c = false) ->
  drop_while p (a ++ t) = drop_while p a ++ t.
Proof.
  intros p a t. induction a as [|x a IH]; intros [c [Hin Hc]].
  - destruct Hin.
  - simpl. destruct (p x) eqn:E; [|reflexivity].
    apply IH. destruct Hin as [-> | Hin]; [congruence|].
    exists c. split; assumption.
Qed.

Lemma drop_while_keeps :
  forall p a c, In c a -> p c = false -> In c (drop_while p a).
Proof.
  intros p a c. induction a as [|x a IH]; intros Hin Hc; [destruct Hin|].
  simpl. destruct (p x) eqn:E; [|exact Hin].
  apply IH; [|exact Hc]. destruct Hin as [-> | Hin]; [congruence | exact Hin].
Qed.

(** Trimming a text that has visible characters on both sides of [c]
    keeps [c]. *)
Lemma trim_keeps_inner :
  forall a b c,
    (exists x, In x a /\ is_white_space x = false) ->
    (exists y, In y b /\ is_white_space y = false) ->
    In c (trim (a ++ c :: b)).
Proof.
  intros a b c Ha [y [Hy Hwy]]. unfold trim.
  rewrite (drop_while_app _ _ _ Ha).
  rewrite rev_app_distr. simpl. rewrite <- app_assoc.
  rewrite drop_while_app.
  - rewrite <- in_rev. apply in_or_app. right. simpl. left. reflexivity.
  - exists y. split; [|exact Hwy]. apply in_rev. rewrite rev_involutive.
    exact Hy.
Qed.

Lemma trim_nonempty :
  forall s, (exists x, In x s /\ is_white_space x = false) ->
  nonempty (trim s) = true.
Proof.
  intros s [x [Hx Hw]]. unfold trim.
  assert (H : In x (drop_while is_white_space
                 (rev (drop_while is_white_space s)))).
  { apply drop_while_keeps; [|exact Hw]. apply in_rev. rewrite rev_involutive.
    apply drop_while_keeps; assumption. }
  apply in_rev in H.
  destruct (rev (drop_while is_white_space
                   (rev (drop_while is_white_space s)))); [destruct H|].
  reflexivity.
Qed.

(** ** Conversions *)

Example NumberToString_examples :
  NumberToString 403%float = str "403"
  /\ NumberToString 0.1%float = str "0.1"
  /\ NumberToString (-1.5)%float = str "-1.5"
  /\ NumberToString 123456789012345680000%float = str "123456789012345680000"
  /\ NumberToString 1e21%float = str "1e+21"
  /\ NumberToString 0.000001%float = str "0.000001"
  /\ NumberToString 1.5e-7%float = str "1.5e-7"
  /\ NumberToString 5e-324%float = str "5e-324"
  /\ NumberToString nan = str "NaN"
  /\ NumberToString neg_infinity = str "-Infinity".
Proof. vm_compute. repeat split. Qed.

Example ToString_examples :
  ToString
    (VJson (JArr [ JNum 27%float; JNull; JStr (str "x");
                   JArr [ JBool true; JNum 1.5%float ] ]))
  = Normal (str "27,,x,true,1.5")
  /\ ToString (VJson (JObj [ (str "ErrorCode", JNum 27%float) ]))
     = Normal (str "[object Object]")
  /\ ToString (VJson (JObj [ (str "toString", JNull) ])) = Throw not_primitive
  /\ ToString (VJson (JArr [])) = Normal [].
Proof. vm_compute. repeat split. Qed.

Example buildBasicAuthHeader_examples :
  buildBasicAuthHeader (str "Aladdin") (str "open sesame")
  = Normal (str "Basic QWxhZGRpbjpvcGVuIHNlc2FtZQ==")
  /\ buildBasicAuthHeader (str "user") [960%N] = Throw invalid_character.
Proof. vm_compute. repeat split. Qed.

(** ** Payload mapper *)

Lemma formatPhoneForBestRX_filter :
  forall text, formatPhoneForBestRX text = filter is_digit text.
Proof.
  unfold formatPhoneForBestRX, is_non_digit.
  induction text as [|c text IH]; [reflexivity|].
  simpl. rewrite IH. destruct (is_digit c); reflexivity.
Qed.

Lemma filter_idempotent :
  forall (A : Type) (p : A -> bool) (l : list A),
    filter p (filter p l) = filter p l.
Proof.
  intros A p l. induction l as [|x l IH]; [reflexivity|].
  simpl. destruct (p x) eqn:E; [|exact IH].
  simpl. rewrite E, IH. reflexivity.
Qed.

(** C9.  [formatPhoneForBestRX] returns its argument with every character
    that is not a decimal digit removed; on ["(614) 555-1234"] this is
    ["6145551234"]; applying it twice gives the same as applying it once. *)
Theorem formatPhoneForBestRX_strips_non_digits :
  (forall text, formatPhoneForBestRX text = filter is_digit text)
  /\ formatPhoneForBestRX (str "(614) 555-1234") = str "6145551234"
  /\ (forall text,
        formatPhoneForBestRX (formatPhoneForBestRX text)
        = formatPhoneForBestRX text).
Proof.
  split; [exact formatPhoneForBestRX_filter|].
  split; [reflexivity|].
  intro text. rewrite !formatPhoneForBestRX_filter.
  apply filter_idempotent.
Qed.

Lemma map_indexed_from_length :
  forall (A B : Type) (f : A -> nat -> B) (a : list A) (i : nat),
    List.length (map_indexed_from f i a) = List.length a.
Proof.
  intros A B f a. induction a as [|x a IH]; intro i; [reflexivity|].
  simpl. rewrite IH. reflexivity.
Qed.

Lemma map_indexed_from_nth :
  forall (A B : Type) (f : A -> nat -> B) (a : list A) (i k : nat) (x : A),
    nth_error a k = Some x ->
    nth_error (map_indexed_from f i a) k = Some (f x (i + k)).
Proof.
  intros A B f a. induction a as [|y a IH]; intros i k x H.
  - destruct k; discriminate.
  - destruct k as [|k]; simpl in *.
    + injection H as ->. rewrite Nat.add_0_r. reflexivity.
    + rewrite (IH (S i) k x H). f_equal. f_equal. lia.
Qed.

Lemma or_string_nth_error :
  forall (l : list JsString) (i : nat),
    or_string (nth_error l i) [] = nth i l [].
Proof.
  induction l as [|s l IH]; intro i; destruct i as [|i]; simpl;
    try reflexivity.
  - destruct s; reflexivity.
  - apply IH.
Qed.

(** C2.  The [RxInRefillRequest] array has one entry per non-empty,
    trimmed, comma-separated token of [prescriptionNumbers], however many
    medication tokens there are; entry [i] pairs the [i]-th prescription
    token with the [i]-th medication token, or with the empty string when
    there is none.  ["111, 222"] with ["Drug A"] gives
    [{111, Drug A}; {222, empty}]. *)
Theorem buildRefillRequestPayload_pairs_by_index :
  (forall formData pharmacyNumber apiKey username,
     let items :=
       RxInRefillRequest
         (buildRefillRequestPayload formData pharmacyNumber apiKey username) in
     let numbers := Spec.comma_tokens (prescriptionNumbers formData) in
     let medications := Spec.comma_tokens (medicationNames formData) in
     List.length items = List.length numbers
     /\ forall i, i < List.length numbers ->
          nth_error items i
          = Some {| RxNumber := nth i numbers [];
                    MedicationName := nth i medications [] |})
  /\ (forall formData pharmacyNumber apiKey username,
        prescriptionNumbers formData = str "111, 222" ->
        medicationNames formData = str "Drug A" ->
        RxInRefillRequest
          (buildRefillRequestPayload formData pharmacyNumber apiKey username)
        = [ {| RxNumber := str "111"; MedicationName := str "Drug A" |};
            {| RxNumber := str "222"; MedicationName := [] |} ]).
Proof.
  split.
  - intros formData pharmacyNumber apiKey username. cbv zeta.
    unfold buildRefillRequestPayload, Spec.comma_tokens, map_indexed. simpl.
    split; [apply map_indexed_from_length|].
    intros i Hi.
    destruct (nth_error
                (filter nonempty
                   (map trim (split comma (prescriptionNumbers formData)))) i)
      as [x|] eqn:E.
    + erewrite map_indexed_from_nth by exact E. simpl.
      rewrite or_string_nth_error.
      f_equal. f_equal. symmetry. apply nth_error_nth. exact E.
    + apply nth_error_None in E. lia.
  - intros formData pharmacyNumber apiKey username Hn Hm.
    unfold buildRefillRequestPayload. simpl. rewrite Hn, Hm. reflexivity.
Qed.

(** The theorem at a form with two prescription numbers and one
    medication name. *)
Lemma buildRefillRequestPayload_pairs_by_index_witness :
  RxInRefillRequest
    (buildRefillRequestPayload
       (Samples.refill_form (str "Jane Doe") (str "111, 222") (str "Drug A"))
       (str "PH1") (str "key") (str "user"))
  = [ {| RxNumber := str "111"; MedicationName := str "Drug A" |};
      {| RxNumber := str "222"; MedicationName := [] |} ].
Proof.
  apply (proj2 buildRefillRequestPayload_pairs_by_index); reflexivity.
Defined.

Lemma LastName_unfold :
  forall formData pharmacyNumber apiKey username,
    LastName (buildRefillRequestPayload formData pharmacyNumber apiKey username)
    = or_string (pop (split space (patientName formData)))
        (patientName formData).
Proof. reflexivity. Qed.

Lemma last_occurrence :
  forall (c : CodeUnit) s,
    In c s -> exists before after, s = before ++ c :: after /\ ~ In c after.
Proof.
  intros c s. induction s as [|x s IH]; intro H; [destruct H|].
  destruct (in_dec N.eq_dec c s) as [Hin | Hout].
  - destruct (IH Hin) as [before [after [-> Hafter]]].
    exists (x :: before), after. split; [reflexivity | exact Hafter].
  - destruct H as [-> | H]; [|contradiction].
    exists [], s. split; [reflexivity | exact Hout].
Qed.

Lemma take_while_until :
  forall p s x t,
    (forall c, In c s -> p c = true) -> p x = false ->
    Spec.take_while p (s ++ x :: t) = s.
Proof.
  intros p s x t Hs Hx. induction s as [|c s IH]; simpl.
  - rewrite Hx. reflexivity.
  - rewrite (Hs c (or_introl eq_refl)). f_equal.
    apply IH. intros c' Hc'. apply Hs. right. exact Hc'.
Qed.

Lemma take_while_whole :
  forall p s, (forall c, In c s -> p c = true) -> Spec.take_while p s = s.
Proof.
  intros p s Hs. induction s as [|c s IH]; simpl; [reflexivity|].
  rewrite (Hs c (or_introl eq_refl)). f_equal.
  apply IH. intros c' Hc'. apply Hs. right. exact Hc'.
Qed.

Lemma drop_while_nothing :
  forall p s, (forall c, In c s -> p c = false) -> drop_while p s = s.
Proof.
  intros p s Hs. destruct s as [|c s]; simpl; [reflexivity|].
  rewrite (Hs c (or_introl eq_refl)). reflexivity.
Qed.

(** The final whitespace-separated token of a text without white space
    is the text. *)
Lemma final_whitespace_token_plain :
  forall s,
    (forall c, In c s -> is_white_space c = false) ->
    Spec.final_whitespace_token s = s.
Proof.
  intros s Hs. unfold Spec.final_whitespace_token.
  assert (Hrev : forall c, In c (rev s) -> is_white_space c = false).
  { intros c Hc. apply Hs. apply in_rev. exact Hc. }
  rewrite (drop_while_nothing _ _ Hrev).
  rewrite take_while_whole; [apply rev_involutive|].
  intros c Hc. rewrite (Hrev c Hc). reflexivity.
Qed.

(** The final whitespace-separated token of a text that ends in a space
    followed by a word is that word. *)
Lemma final_whitespace_token_after_space :
  forall before after,
    (forall c, In c after -> is_white_space c = false) -> after <> [] ->
    Spec.final_whitespace_token (before ++ space :: after) = after.
Proof.
  intros before after Hafter Hne. unfold Spec.final_whitespace_token.
  assert (Hrev : forall c, In c (rev after) -> is_white_space c = false).
  { intros c Hc. apply Hafter. apply in_rev. exact Hc. }
  rewrite rev_app_distr. cbn [rev]. rewrite <- app_assoc. cbn [app].
  rewrite drop_while_app.
  - rewrite (drop_while_nothing _ _ Hrev).
    rewrite take_while_until; [apply rev_involutive | | reflexivity].
    intros c Hc. rewrite (Hrev c Hc). reflexivity.
  - destruct (rev after) as [|c r] eqn:E.
    + apply (f_equal (@rev CodeUnit)) in E. rewrite rev_involutive in E.
      contradiction.
    + exists c. split; [left; reflexivity|]. apply Hrev. left. reflexivity.
Qed.

(** C8, as the code has it by design.  The separator is the space
    character (U+0020), not white space in general: [LastName] is the
    text after the last space of [patientName] when the name does not end
    in a space, and the whole [patientName] when it has no space.  Where
    the white space of such a name is made of spaces only, this is the
    final whitespace-separated token.  Nothing is said here about a name
    that ends in a space. *)
Theorem LastName_after_last_space :
  forall formData pharmacyNumber apiKey username,
    let name := patientName formData in
    let lastName :=
      LastName
        (buildRefillRequestPayload formData pharmacyNumber apiKey username) in
    (~ In space name -> lastName = name)
    /\ (forall before after,
          name = before ++ space :: after -> ~ In space after ->
          after <> [] -> lastName = after)
    /\ ((forall c, In c name -> is_white_space c = true -> c = space) ->
        (forall before, name <> before ++ [space]) ->
        lastName = Spec.final_whitespace_token name).
Proof.
  intros formData pharmacyNumber apiKey username. cbv zeta.
  rewrite LastName_unfold.
  assert (Hplain : ~ In space (patientName formData) ->
                   or_string (pop (split space (patientName formData)))
                     (patientName formData)
                   = patientName formData).
  { intro H. rewrite (split_without_separator _ _ H). simpl.
    destruct (patientName formData); reflexivity. }
  assert (Hafter : forall before after,
             patientName formData = before ++ space :: after ->
             ~ In space after -> after <> [] ->
             or_string (pop (split space (patientName formData)))
               (patientName formData)
             = after).
  { intros before after Hname Hafter Hne. rewrite Hname.
    rewrite split_at_separator.
    rewrite pop_app by apply split_not_nil.
    rewrite (split_without_separator _ _ Hafter). simpl.
    destruct after; [contradiction | reflexivity]. }
  split; [exact Hplain|]. split; [exact Hafter|].
  intros Hspace Hend.
  destruct (in_dec N.eq_dec space (patientName formData)) as [Hin | Hout].
  - destruct (last_occurrence _ _ Hin) as [before [after [Hname Hlast]]].
    assert (Hne : after <> []).
    { intros ->. exact (Hend before Hname). }
    rewrite (Hafter before after Hname Hlast Hne).
    rewrite Hname. symmetry.
    apply final_whitespace_token_after_space; [|exact Hne].
    intros c Hc. destruct (is_white_space c) eqn:E; [|reflexivity].
    exfalso. apply Hlast.
    rewrite <- (Hspace c); [exact Hc | | exact E].
    rewrite Hname. apply in_or_app. right. right. exact Hc.
  - rewrite (Hplain Hout). symmetry.
    apply final_whitespace_token_plain.
    intros c Hc. destruct (is_white_space c) eqn:E; [|reflexivity].
    exfalso. apply Hout. rewrite <- (Hspace c Hc E). exact Hc.
Qed.

(** The theorem at ["Jane Doe"]: the last name is ["Doe"]. *)
Lemma LastName_after_last_space_witness :
  LastName
    (buildRefillRequestPayload
       (Samples.refill_form (str "Jane Doe") (str "111") (str "Drug A"))
       (str "PH1") (str "key") (str "user"))
  = str "Doe".
Proof.
  apply (proj1 (proj2 (LastName_after_last_space
                         (Samples.refill_form (str "Jane Doe") (str "111")
                            (str "Drug A"))
                         (str "PH1") (str "key") (str "user")))
           (str "Jane")).
  - reflexivity.
  - vm_compute. intros [H | [H | [H | H]]]; try discriminate H. exact H.
  - discriminate.
Defined.

(** C8 as stated fails where the white space of the name is not a space:
    the final whitespace-separated token of ["Mary<TAB>Jones"] is
    ["Jones"], the payload's [LastName] is the whole name. *)
Lemma LastName_other_white_space_counterexample :
  LastName
    (buildRefillRequestPayload
       (Samples.refill_form (str "Mary" ++ tab :: str "Jones") (str "111")
          (str "Drug A"))
       (str "PH1") (str "key") (str "user"))
  = str "Mary" ++ tab :: str "Jones"
  /\ is_white_space tab = true
  /\ Spec.final_whitespace_token (str "Mary" ++ tab :: str "Jones")
     = str "Jones"
  /\ str "Mary" ++ tab :: str "Jones" <> str "Jones".
Proof.
  repeat split; try reflexivity. discriminate.
Qed.

(** A name typed with a space at its end.  The last piece of the split
    is empty, so the fallback takes over and the payload carries the whole
    name, trailing space included, where the last name is ["Smith"]: the
    line computes the last name and misses it for want of a trim, which
    the same function does apply to the tokens of the two free-text
    fields. *)
Lemma LastName_with_trailing_space :
  LastName
    (buildRefillRequestPayload
       (Samples.refill_form (str "John Smith ") (str "111") (str "Drug A"))
       (str "PH1") (str "key") (str "user"))
  = str "John Smith "
  /\ Spec.final_whitespace_token (str "John Smith ") = str "Smith".
Proof. split; reflexivity. Qed.

Lemma comma_tokens_without_comma :
  forall s,
    ~ In comma s ->
    Spec.comma_tokens s = if nonempty (trim s) then [trim s] else [].
Proof.
  intros s H. unfold Spec.comma_tokens.
  rewrite (split_without_separator _ _ H). reflexivity.
Qed.

Lemma comma_tokens_at_comma :
  forall before after,
    Spec.comma_tokens (before ++ comma :: after)
    = Spec.comma_tokens before ++ Spec.comma_tokens after.
Proof.
  intros before after. unfold Spec.comma_tokens.
  rewrite split_at_separator, map_app, filter_app. reflexivity.
Qed.

Lemma separated_without_comma :
  forall s,
    ~ In comma s ->
    Spec.separated_by_commas s (if nonempty (trim s) then [trim s] else []).
Proof.
  intros s H. destruct (nonempty (trim s)) eqn:E.
  - apply Spec.one_token; [exact H|]. intro He. rewrite He in E. discriminate E.
  - apply Spec.no_token; [exact H|]. destruct (trim s); [reflexivity|].
    discriminate E.
Qed.

(** The relation holds of the tokens the code computes... *)
Lemma separated_by_commas_tokens :
  forall s, Spec.separated_by_commas s (Spec.comma_tokens s).
Proof.
  assert (H : forall n s, List.length s <= n ->
                          Spec.separated_by_commas s (Spec.comma_tokens s)).
  { induction n as [|n IH]; intros s Hlen;
      (destruct (in_dec N.eq_dec comma s) as [Hin | Hout];
       [ destruct (last_occurrence _ _ Hin) as [before [after [-> Hafter]]]
       | rewrite (comma_tokens_without_comma _ Hout);
         apply separated_without_comma; exact Hout ]).
    - rewrite length_app in Hlen. simpl in Hlen. lia.
    - rewrite comma_tokens_at_comma. apply Spec.at_comma.
      + apply IH. rewrite length_app in Hlen. simpl in Hlen. lia.
      + rewrite (comma_tokens_without_comma _ Hafter).
        apply separated_without_comma. exact Hafter. }
  intro s. apply (H (List.length s)). apply le_n.
Qed.

(** ... and of no other list. *)
Lemma separated_by_commas_unique :
  forall s tokens,
    Spec.separated_by_commas s tokens -> tokens = Spec.comma_tokens s.
Proof.
  intros s tokens H. induction H as [s Hs Hne | s Hs He | a b ta tb _ IHa _ IHb].
  - rewrite (comma_tokens_without_comma _ Hs).
    destruct (trim s); [contradiction | reflexivity].
  - rewrite (comma_tokens_without_comma _ Hs). rewrite He. reflexivity.
  - rewrite comma_tokens_at_comma, IHa, IHb. reflexivity.
Qed.

Lemma RxInRefillRequest_by_index :
  forall formData pharmacyNumber apiKey username,
    let items :=
      RxInRefillRequest
        (buildRefillRequestPayload formData pharmacyNumber apiKey username) in
    let numbers := Spec.comma_tokens (prescriptionNumbers formData) in
    let medications := Spec.comma_tokens (medicationNames formData) in
    List.length items = List.length numbers
    /\ forall i, i < List.length numbers ->
         nth_error items i
         = Some {| RxNumber := nth i numbers [];
                   MedicationName := nth i medications [] |}.
Proof.
  intros formData pharmacyNumber apiKey username. cbv zeta.
  unfold buildRefillRequestPayload, Spec.comma_tokens, map_indexed. simpl.
  split; [apply map_indexed_from_length|].
  intros i Hi.
  destruct (nth_error
              (filter nonempty
                 (map trim (split comma (prescriptionNumbers formData)))) i)
    as [x|] eqn:E.
  - erewrite map_indexed_from_nth by exact E. simpl.
    rewrite or_string_nth_error.
    f_equal. f_equal. symmetry. apply nth_error_nth. exact E.
  - apply nth_error_None in E. lia.
Qed.

Lemma without_comma_around :
  forall (separator : CodeUnit) first second,
    separator <> comma -> ~ In comma first -> ~ In comma second ->
    ~ In comma (first ++ separator :: second).
Proof.
  intros separator first second Hsep Hfirst Hsecond H.
  apply in_app_or in H. destruct H as [H | [H | H]]; [tauto | | tauto].
  exact (Hsep H).
Qed.

(** C10.  Both free-text fields are split on the comma and on nothing
    else.  The entries pair, by index, the tokens of [prescriptionNumbers]
    with those of [medicationNames], where the tokens of a field are what
    [Spec.separated_by_commas] says, and that relation leaves no choice.
    In particular no other character separates: when two visible entries
    of [prescriptionNumbers] stand on two lines and the field has no
    comma, there is one entry, whose [RxNumber] is the trimmed field with
    the line feed inside; and two medication names on two lines are one
    [MedicationName], that of the first entry. *)
Theorem buildRefillRequestPayload_splits_on_comma_only :
  (forall formData pharmacyNumber apiKey username,
     let items :=
       RxInRefillRequest
         (buildRefillRequestPayload formData pharmacyNumber apiKey username) in
     exists numbers medications,
       Spec.separated_by_commas (prescriptionNumbers formData) numbers
       /\ Spec.separated_by_commas (medicationNames formData) medications
       /\ List.length items = List.length numbers
       /\ forall i, i < List.length numbers ->
            nth_error items i
            = Some {| RxNumber := nth i numbers [];
                      MedicationName := nth i medications [] |})
  /\ (forall s tokens tokens',
        Spec.separated_by_commas s tokens ->
        Spec.separated_by_commas s tokens' -> tokens = tokens')
  /\ (forall formData pharmacyNumber apiKey username separator first second,
        separator <> comma ->
        prescriptionNumbers formData = first ++ separator :: second ->
        ~ In comma first -> ~ In comma second ->
        (exists c, In c first /\ is_white_space c = false) ->
        (exists c, In c second /\ is_white_space c = false) ->
        exists item,
          RxInRefillRequest
            (buildRefillRequestPayload formData pharmacyNumber apiKey username)
          = [item]
          /\ RxNumber item = trim (prescriptionNumbers formData)
          /\ In separator (RxNumber item))
  /\ (forall formData pharmacyNumber apiKey username separator first second
             item others,
        separator <> comma ->
        medicationNames formData = first ++ separator :: second ->
        ~ In comma first -> ~ In comma second ->
        (exists c, In c first /\ is_white_space c = false) ->
        (exists c, In c second /\ is_white_space c = false) ->
        RxInRefillRequest
          (buildRefillRequestPayload formData pharmacyNumber apiKey username)
        = item :: others ->
        MedicationName item = trim (medicationNames formData)
        /\ In separator (MedicationName item)
        /\ forall other, In other others -> MedicationName other = []).
Proof.
  split; [|split; [|split]].
  - intros formData pharmacyNumber apiKey username. cbv zeta.
    exists (Spec.comma_tokens (prescriptionNumbers formData)),
           (Spec.comma_tokens (medicationNames formData)).
    split; [apply separated_by_commas_tokens|].
    split; [apply separated_by_commas_tokens|].
    apply RxInRefillRequest_by_index.
  - intros s tokens tokens' H H'.
    rewrite (separated_by_commas_unique _ _ H).
    rewrite (separated_by_commas_unique _ _ H'). reflexivity.
  - intros formData pharmacyNumber apiKey username separator first second
      Hsep Hfield Hfirst Hsecond Hvis1 Hvis2.
    assert (Hcomma : ~ In comma (prescriptionNumbers formData)).
    { rewrite Hfield. apply without_comma_around; assumption. }
    assert (Hne : nonempty (trim (prescriptionNumbers formData)) = true).
    { apply trim_nonempty. rewrite Hfield. destruct Hvis1 as [c [Hc Hw]].
      exists c. split; [apply in_or_app; left; exact Hc | exact Hw]. }
    unfold buildRefillRequestPayload. simpl.
    rewrite (split_without_separator _ _ Hcomma). simpl. rewrite Hne.
    eexists. split; [reflexivity|]. simpl. split; [reflexivity|].
    rewrite Hfield. apply trim_keeps_inner; assumption.
  - intros formData pharmacyNumber apiKey username separator first second
      item others Hsep Hfield Hfirst Hsecond Hvis1 Hvis2 Hitems.
    assert (Hcomma : ~ In comma (medicationNames formData)).
    { rewrite Hfield. apply without_comma_around; assumption. }
    assert (Hne : nonempty (trim (medicationNames formData)) = true).
    { apply trim_nonempty. rewrite Hfield. destruct Hvis1 as [c [Hc Hw]].
      exists c. split; [apply in_or_app; left; exact Hc | exact Hw]. }
    assert (Hinside : In separator (trim (medicationNames formData))).
    { rewrite Hfield. apply trim_keeps_inner; assumption. }
    pose proof (RxInRefillRequest_by_index formData pharmacyNumber apiKey
                  username) as [Hlen Hnth].
    cbv zeta in Hlen, Hnth. rewrite Hitems in Hlen, Hnth.
    rewrite (comma_tokens_without_comma _ Hcomma), Hne in Hnth.
    assert (Hfirst_item : MedicationName item = trim (medicationNames formData)).
    { specialize (Hnth 0). cbn [List.length] in Hlen. rewrite <- Hlen in Hnth.
      specialize (Hnth (Nat.lt_0_succ _)). cbn [nth_error nth] in Hnth.
      injection Hnth as ->. reflexivity. }
    split; [exact Hfirst_item|]. split; [rewrite Hfirst_item; exact Hinside|].
    intros other Hother. apply In_nth_error in Hother.
    destruct Hother as [k Hk].
    assert (Hbound : S k < List.length (item :: others)).
    { cbn [List.length]. apply -> Nat.succ_lt_mono.
      apply nth_error_Some. rewrite Hk. discriminate. }
    rewrite Hlen in Hbound. specialize (Hnth (S k) Hbound).
    cbn [nth_error] in Hnth. rewrite Hk in Hnth. injection Hnth as ->.
    cbn [MedicationName nth]. destruct k; reflexivity.
Qed.

(** The theorem at the field ["111\n222"]. *)
Lemma buildRefillRequestPayload_splits_on_comma_only_witness :
  exists item,
    RxInRefillRequest
      (buildRefillRequestPayload
         (Samples.refill_form (str "Jane Doe")
            (str "111" ++ line_feed :: str "222") (str "Drug A"))
         (str "PH1") (str "key") (str "user"))
    = [item]
    /\ RxNumber item = str "111" ++ line_feed :: str "222"
    /\ In line_feed (RxNumber item).
Proof.
  apply (proj1 (proj2 (proj2 buildRefillRequestPayload_splits_on_comma_only))
           (Samples.refill_form (str "Jane Doe")
              (str "111" ++ line_feed :: str "222") (str "Drug A"))
           (str "PH1") (str "key") (str "user") line_feed
           (str "111") (str "222")).
  - discriminate.
  - reflexivity.
  - vm_compute. intros [H | [H | [H | H]]]; try discriminate H. exact H.
  - vm_compute. intros [H | [H | [H | H]]]; try discriminate H. exact H.
  - exists 49%N. split; [left; reflexivity | reflexivity].
  - exists 50%N. split; [left; reflexivity | reflexivity].
Defined.

(** ** Response validators *)

Lemma not_an_object_plain : forall props,
  not_an_object (VJson (JObj props)) = false.
Proof. reflexivity. Qed.

(** The values that pass the guard [!response || typeof response !==
    'object']: plain objects, arrays and [Object.prototype]. *)
Lemma not_an_object_false : forall v,
  not_an_object v = false ->
  (exists props, v = VJson (JObj props))
  \/ (exists items, v = VJson (JArr items))
  \/ v = VBuiltin BObjectPrototype.
Proof.
  intros v H. unfold not_an_object in H.
  apply orb_false_iff in H. destruct H as [Htruthy H].
  destruct v as [|j|b].
  - discriminate H.
  - destruct j as [|b|x|s|items|props]; try discriminate H.
    + discriminate Htruthy.
    + right. left. exists items. reflexivity.
    + left. exists props. reflexivity.
  - destruct b; try discriminate H. right. right. reflexivity.
Qed.

Lemma get_field_plain : forall props f,
  get_field (VJson (JObj props)) f
  = match lookup (field_name f) props with
    | Some j => VJson j
    | None => VUndefined
    end.
Proof. reflexivity. Qed.

(** An array entry counts as processed exactly when it is a plain object
    whose own [Status] is the string ["OK"]. *)
Lemma entry_ok_iff : forall rx,
  string_eqb (typeof rx) (str "object") && negb (is_null rx)
  && strict_equals_string (get_field rx F_Status) (str "OK") = true
  <-> exists entry,
        rx = VJson (JObj entry)
        /\ lookup (str "Status") entry = Some (JStr (str "OK")).
Proof.
  intro rx. split.
  - intro H. apply andb_true_iff in H. destruct H as [_ H].
    destruct rx as [|j|b]; try discriminate H.
    destruct j as [| | | |items|entry]; try discriminate H.
    exists entry. split; [reflexivity|].
    rewrite get_field_plain in H. change (field_name F_Status) with (str "Status") in H.
    destruct (lookup (str "Status") entry) as [j|]; [|discriminate H].
    destruct j as [| | |s| |]; try discriminate H.
    apply string_eqb_eq in H. subst s. reflexivity.
  - intros [entry [-> Hstatus]]. rewrite get_field_plain.
    change (field_name F_Status) with (str "Status"). rewrite Hstatus.
    reflexivity.
Qed.

(** C6.  [validateRefillResponse] holds exactly of the plain objects whose
    [RxInRefillResponse] is an array with at least one plain-object entry
    whose [Status] is ["OK"].  A missing field, a field that is not an
    array, an empty array and an array without an OK entry are rejected;
    an array mixing failed and OK entries is accepted. *)
Theorem validateRefillResponse_iff :
  (forall response,
     validateRefillResponse response = true
     <-> exists props items entry,
           response = VJson (JObj props)
           /\ lookup (str "RxInRefillResponse") props = Some (JArr items)
           /\ In (JObj entry) items
           /\ lookup (str "Status") entry = Some (JStr (str "OK")))
  /\ validateRefillResponse (VJson (JObj [])) = false
  /\ validateRefillResponse
       (VJson (JObj [ (str "RxInRefillResponse", JStr (str "OK")) ])) = false
  /\ validateRefillResponse
       (VJson (JObj [ (str "RxInRefillResponse", JArr []) ])) = false
  /\ validateRefillResponse
       (VJson (JObj [ (str "RxInRefillResponse",
                       JArr [ JObj [ (str "Status", JStr (str "ERROR")) ] ]) ]))
     = false
  /\ validateRefillResponse
       (VJson (JObj [ (str "RxInRefillResponse",
                       JArr [ JObj [ (str "Status", JStr (str "ERROR")) ];
                              JObj [ (str "Status", JStr (str "OK")) ] ]) ]))
     = true.
Proof.
  split; [|repeat split; reflexivity].
  intro response. unfold validateRefillResponse. split.
  - intro H.
    destruct (not_an_object response) eqn:Hguard; [discriminate H|].
    apply not_an_object_false in Hguard.
    destruct Hguard as [[props ->] | [[items ->] | ->]];
      try discriminate H.
    rewrite get_field_plain in H.
    change (field_name F_RxInRefillResponse)
      with (str "RxInRefillResponse") in H.
    destruct (lookup (str "RxInRefillResponse") props) as [j|] eqn:E;
      [|discriminate H].
    destruct j as [| | | |items|]; try discriminate H.
    simpl in H. apply existsb_exists in H. destruct H as [rx [Hin Hrx]].
    apply entry_ok_iff in Hrx. destruct Hrx as [entry [-> Hstatus]].
    apply in_map_iff in Hin. destruct Hin as [j [Hj Hin]].
    injection Hj as ->.
    exists props, items, entry. repeat split; assumption.
  - intros [props [items [entry [-> [Hfield [Hin Hstatus]]]]]].
    rewrite not_an_object_plain, get_field_plain.
    change (field_name F_RxInRefillResponse) with (str "RxInRefillResponse").
    rewrite Hfield. simpl. apply existsb_exists.
    exists (VJson (JObj entry)). split.
    + apply in_map. exact Hin.
    + apply entry_ok_iff. exists entry. split; [reflexivity | exact Hstatus].
Qed.

Lemma strict_equals_true_iff : forall v,
  strict_equals_true v = true <-> v = VJson (JBool true).
Proof.
  intro v. split.
  - destruct v as [|j|b]; try discriminate.
    destruct j as [|b| | | |]; try discriminate.
    destruct b; [reflexivity | discriminate].
  - intros ->. reflexivity.
Qed.

(** C7.  [validateTransferResponse] holds exactly of the plain objects
    whose [IsValid] and [RxTransferred] are both the boolean [true].  A
    flag that is missing, falsy, or truthy without being a boolean (the
    number 1, the string ["true"]) is rejected. *)
Theorem validateTransferResponse_iff :
  (forall response,
     validateTransferResponse response = true
     <-> exists props,
           response = VJson (JObj props)
           /\ lookup (str "IsValid") props = Some (JBool true)
           /\ lookup (str "RxTransferred") props = Some (JBool true))
  /\ validateTransferResponse
       (VJson (JObj [ (str "IsValid", JBool true) ])) = false
  /\ validateTransferResponse
       (VJson (JObj [ (str "IsValid", JBool true);
                      (str "RxTransferred", JBool false) ])) = false
  /\ validateTransferResponse
       (VJson (JObj [ (str "IsValid", JNum 1%float);
                      (str "RxTransferred", JBool true) ])) = false
  /\ validateTransferResponse
       (VJson (JObj [ (str "IsValid", JBool true);
                      (str "RxTransferred", JStr (str "true")) ])) = false
  /\ validateTransferResponse
       (VJson (JObj [ (str "IsValid", JBool true);
                      (str "RxTransferred", JBool true) ])) = true.
Proof.
  split; [|repeat split; reflexivity].
  intro response. unfold validateTransferResponse. split.
  - intro H.
    destruct (not_an_object response) eqn:Hguard; [discriminate H|].
    apply not_an_object_false in Hguard.
    destruct Hguard as [[props ->] | [[items ->] | ->]];
      try discriminate H.
    rewrite !get_field_plain in H.
    change (field_name F_IsValid) with (str "IsValid") in H.
    change (field_name F_RxTransferred) with (str "RxTransferred") in H.
    apply andb_true_iff in H. destruct H as [H1 H2].
    apply strict_equals_true_iff in H1, H2.
    exists props. split; [reflexivity|]. split.
    + destruct (lookup (str "IsValid") props); [|discriminate H1].
      injection H1 as ->. reflexivity.
    + destruct (lookup (str "RxTransferred") props); [|discriminate H2].
      injection H2 as ->. reflexivity.
  - intros [props [-> [H1 H2]]].
    rewrite not_an_object_plain, !get_field_plain.
    change (field_name F_IsValid) with (str "IsValid").
    change (field_name F_RxTransferred) with (str "RxTransferred").
    rewrite H1, H2. reflexivity.
Qed.

(** ** Error messages *)

Lemma generic_entry :
  literal_get BESTRX_ERROR_CODES (str "ERROR_GENERIC")
  = VStr Spec.generic_message.
Proof. reflexivity. Qed.

(** Every key and every message of the table is a non-empty string, and
    no key is a name inherited from [Object.prototype]. *)
Lemma table_entry : forall code text,
  lookup code BESTRX_ERROR_CODES = Some text ->
  nonempty code = true /\ nonempty text = true.
Proof.
  intros code text H. unfold BESTRX_ERROR_CODES in H.
  cbn [lookup] in H.
  repeat
    (match type of H with
     | (if string_eqb ?k code then _ else _) = _ =>
         destruct (string_eqb k code) eqn:E;
         [ apply string_eqb_eq in E; subst code; injection H as <-;
           split; reflexivity
         | clear E ]
     end).
  discriminate H.
Qed.

Lemma mapBestRXError_of_string : forall code httpStatus,
  nonempty code = true ->
  mapBestRXError (VStr code) httpStatus
  = Normal (or_value (literal_get BESTRX_ERROR_CODES code)
                     (VStr Spec.generic_message)).
Proof.
  intros code httpStatus H. unfold mapBestRXError, VStr at 1 2.
  cbn [truthy]. rewrite H. cbn [negb ToString json_ToString bind].
  rewrite generic_entry. reflexivity.
Qed.

Lemma mapBestRXError_without_code : forall errorCode httpStatus,
  truthy errorCode = false ->
  mapBestRXError errorCode httpStatus
  = Normal
      (VStr
         (if status_is httpStatus 400%float then
            str "Invalid request. Please check your information and try again."
          else if status_is httpStatus 403%float then
            str "Authentication failed. Please contact support."
          else if status_is httpStatus 500%float then
            str "Service temporarily unavailable. Please try again later."
          else Spec.generic_message)).
Proof.
  intros errorCode httpStatus H. unfold mapBestRXError. rewrite H.
  cbn [negb]. rewrite generic_entry.
  destruct (status_is httpStatus 400%float); [reflexivity|].
  destruct (status_is httpStatus 403%float); [reflexivity|].
  destruct (status_is httpStatus 500%float); reflexivity.
Qed.

(** A name inherited from [Object.prototype] is not empty and is not a
    key of the table. *)
Lemma inherited_name : forall key b,
  object_prototype_get key = Some b ->
  nonempty key = true /\ lookup key BESTRX_ERROR_CODES = None.
Proof.
  intros key b H. unfold object_prototype_get in H.
  destruct (string_eqb key (str "constructor")) eqn:E1.
  { apply string_eqb_eq in E1. subst key. split; reflexivity. }
  destruct (string_eqb key (str "__proto__")) eqn:E2.
  { apply string_eqb_eq in E2. subst key. split; reflexivity. }
  destruct (existsb (string_eqb key) object_prototype_methods) eqn:E3;
    [|discriminate H].
  apply existsb_exists in E3. destruct E3 as [name [Hin Hname]].
  apply string_eqb_eq in Hname. subst name.
  unfold object_prototype_methods in Hin. simpl in Hin.
  repeat (destruct Hin as [Hin | Hin]; [subst key; split; reflexivity|]).
  destruct Hin.
Qed.

(** C4.  [mapBestRXError] returns a non-empty string for an absent code
    and for every string code except the names an object literal inherits
    from [Object.prototype]: the table's message for a code of the table;
    with no code (absent, or empty: the guard is [!errorCode]) the message
    of status 400, 403 or 500 and otherwise that of [ERROR_GENERIC]; for
    any other code the message of [ERROR_GENERIC].  For an inherited name
    such as ["constructor"] the lookup finds the inherited object, and
    that object, not a string, is what the function returns. *)
Theorem mapBestRXError_messages :
  (forall code httpStatus text,
     lookup code BESTRX_ERROR_CODES = Some text ->
     mapBestRXError (VStr code) httpStatus = Normal (VStr text))
  /\ (forall errorCode httpStatus,
        errorCode = VUndefined \/ errorCode = VStr [] ->
        mapBestRXError errorCode httpStatus
        = Normal
            (VStr
               (if status_is httpStatus 400%float then
                  str "Invalid request. Please check your information and try again."
                else if status_is httpStatus 403%float then
                  str "Authentication failed. Please contact support."
                else if status_is httpStatus 500%float then
                  str "Service temporarily unavailable. Please try again later."
                else Spec.generic_message)))
  /\ (forall code httpStatus,
        code <> [] ->
        lookup code BESTRX_ERROR_CODES = None ->
        object_prototype_get code = None ->
        mapBestRXError (VStr code) httpStatus
        = Normal (VStr Spec.generic_message))
  /\ (forall errorCode httpStatus,
        errorCode = VUndefined
        \/ (exists code,
              errorCode = VStr code /\ object_prototype_get code = None) ->
        exists text,
          mapBestRXError errorCode httpStatus = Normal (VStr text)
          /\ nonempty text = true)
  /\ (forall code inherited httpStatus,
        object_prototype_get code = Some inherited ->
        mapBestRXError (VStr code) httpStatus = Normal (VBuiltin inherited))
  /\ mapBestRXError (VStr (str "constructor")) None
     = Normal (VBuiltin BObject).
Proof.
  assert (Hknown : forall code httpStatus text,
             lookup code BESTRX_ERROR_CODES = Some text ->
             mapBestRXError (VStr code) httpStatus = Normal (VStr text)).
  { intros code httpStatus text H.
    destruct (table_entry _ _ H) as [Hcode Htext].
    rewrite (mapBestRXError_of_string _ _ Hcode).
    unfold literal_get. rewrite H. unfold or_value, VStr at 1 2.
    cbn [truthy]. rewrite Htext. reflexivity. }
  assert (Hnone : forall errorCode,
             errorCode = VUndefined \/ errorCode = VStr [] ->
             truthy errorCode = false).
  { intros errorCode [-> | ->]; reflexivity. }
  assert (Hother : forall code httpStatus,
             code <> [] ->
             lookup code BESTRX_ERROR_CODES = None ->
             object_prototype_get code = None ->
             mapBestRXError (VStr code) httpStatus
             = Normal (VStr Spec.generic_message)).
  { intros code httpStatus Hne Htable Hproto.
    rewrite mapBestRXError_of_string by (destruct code; [contradiction | reflexivity]).
    unfold literal_get. rewrite Htable, Hproto. reflexivity. }
  split; [exact Hknown|]. split; [|split; [exact Hother|split; [|split]]].
  - intros errorCode httpStatus H.
    apply mapBestRXError_without_code. exact (Hnone _ H).
  - intros errorCode httpStatus [-> | [code [-> Hproto]]].
    + rewrite mapBestRXError_without_code by reflexivity.
      eexists. split; [reflexivity|].
      destruct (status_is httpStatus 400%float); [reflexivity|].
      destruct (status_is httpStatus 403%float); [reflexivity|].
      destruct (status_is httpStatus 500%float); reflexivity.
    + destruct code as [|c code].
      * rewrite mapBestRXError_without_code by reflexivity.
        eexists. split; [reflexivity|].
        destruct (status_is httpStatus 400%float); [reflexivity|].
        destruct (status_is httpStatus 403%float); [reflexivity|].
        destruct (status_is httpStatus 500%float); reflexivity.
      * destruct (lookup (c :: code) BESTRX_ERROR_CODES) as [text|] eqn:E.
        -- exists text. split; [exact (Hknown _ httpStatus _ E)|].
           exact (proj2 (table_entry _ _ E)).
        -- exists Spec.generic_message. split; [|reflexivity].
           apply Hother; [discriminate | exact E | exact Hproto].
  - intros code inherited httpStatus H.
    destruct (inherited_name _ _ H) as [Hcode Htable].
    rewrite (mapBestRXError_of_string _ _ Hcode).
    unfold literal_get. rewrite Htable, H. reflexivity.
  - reflexivity.
Qed.

(** The theorem at the transfer code [ERROR0027], at a missing code with
    status 403, at a code the table does not have, and at the inherited
    name ["toString"]. *)
Lemma mapBestRXError_messages_witness :
  mapBestRXError (VStr (str "ERROR0027")) None
  = Normal (VStr (str "Prescription not found. Please verify the prescription number."))
  /\ mapBestRXError VUndefined (Some 403%float)
     = Normal (VStr (str "Authentication failed. Please contact support."))
  /\ mapBestRXError (VStr (str "ERROR9999")) (Some 403%float)
     = Normal (VStr Spec.generic_message)
  /\ mapBestRXError (VStr (str "toString")) (Some 403%float)
     = Normal (VBuiltin (BMethod (str "toString"))).
Proof.
  split; [|split; [|split]].
  - apply (proj1 mapBestRXError_messages). reflexivity.
  - apply (proj1 (proj2 mapBestRXError_messages) VUndefined (Some 403%float)).
    left. reflexivity.
  - apply (proj1 (proj2 (proj2 mapBestRXError_messages))).
    + discriminate.
    + reflexivity.
    + reflexivity.
  - apply (proj1 (proj2 (proj2 (proj2 (proj2 mapBestRXError_messages))))).
    reflexivity.
Defined.

(** The same defect one level up: an [ErrorCode] that names an inherited
    member makes [extractTransferErrorMessage] return that member. *)
Lemma extractTransferErrorMessage_inherited_name :
  extractTransferErrorMessage
    (VJson (JObj [ (str "ErrorCode", JStr (str "constructor")) ]))
  = Normal (VBuiltin BObject).
Proof. reflexivity. Qed.

(** C5.  What [extractTransferErrorMessage] does with a value: nothing to
    report for what is not an object; the mapped message for a truthy
    [ErrorCode]; else the raw truthy [ErrorMessage]; and, for an object
    that carries neither, not "absent" but the [ERROR_GENERIC] message. *)
Theorem extractTransferErrorMessage_cases :
  (forall response,
     not_an_object response = true ->
     extractTransferErrorMessage response = Normal VNull)
  /\ (forall response,
        not_an_object response = false ->
        truthy (get_field response F_ErrorCode) = true ->
        extractTransferErrorMessage response
        = mapBestRXError (get_field response F_ErrorCode) None)
  /\ (forall response,
        not_an_object response = false ->
        truthy (get_field response F_ErrorCode) = false ->
        truthy (get_field response F_ErrorMessage) = true ->
        extractTransferErrorMessage response
        = Normal (get_field response F_ErrorMessage))
  /\ (forall response,
        not_an_object response = false ->
        truthy (get_field response F_ErrorCode) = false ->
        truthy (get_field response F_ErrorMessage) = false ->
        extractTransferErrorMessage response
        = Normal (VStr Spec.generic_message))
  /\ (forall props,
        lookup (str "ErrorCode") props = None ->
        lookup (str "ErrorMessage") props = None ->
        extractTransferErrorMessage (VJson (JObj props))
        = Normal (VStr Spec.generic_message))
  /\ (forall items,
        extractTransferErrorMessage (VJson (JArr items))
        = Normal (VStr Spec.generic_message))
  /\ extractTransferErrorMessage (VJson (JObj []))
     = Normal (VStr Spec.generic_message).
Proof.
  unfold extractTransferErrorMessage.
  split; [|split; [|split; [|split; [|split; [|split]]]]].
  - intros response H. rewrite H. reflexivity.
  - intros response H Hcode. rewrite H, Hcode. reflexivity.
  - intros response H Hcode Htext. rewrite H, Hcode, Htext. reflexivity.
  - intros response H Hcode Htext. rewrite H, Hcode, Htext. reflexivity.
  - intros props Hcode Htext.
    rewrite not_an_object_plain, !get_field_plain.
    change (field_name F_ErrorCode) with (str "ErrorCode").
    change (field_name F_ErrorMessage) with (str "ErrorMessage").
    rewrite Hcode, Htext. reflexivity.
  - intro items. reflexivity.
  - reflexivity.
Qed.

(** The theorem at the empty object [{}]. *)
Lemma extractTransferErrorMessage_cases_witness :
  extractTransferErrorMessage (VJson (JObj []))
  = Normal (VStr Spec.generic_message).
Proof.
  apply (proj1 (proj2 (proj2 (proj2 (proj2 extractTransferErrorMessage_cases)))));
    reflexivity.
Defined.

(** The refill extractor reports nothing for the same body. *)
Lemma extractRefillErrorMessage_empty_object :
  extractRefillErrorMessage (VJson (JObj [])) = Normal VNull.
Proof. reflexivity. Qed.

(** ** Primary call *)

Lemma submitRefillToBestRX_success :
  forall w payload st response parsed,
    fetch w (refill_request payload) = Normal response ->
    ok response = true ->
    json response = Normal parsed ->
    validateRefillResponse (VJson parsed) = true ->
    submitRefillToBestRX w payload st
    = (Normal {| success := true;
                 message := VStr (str "Refill request submitted successfully");
                 data := VJson parsed |},
       logged st (Fetch (refill_request payload))).
Proof.
  intros w payload st response parsed Hfetch Hok Hjson Hvalid.
  unfold submitRefillToBestRX, try_catch, and_then, emit, lift. cbv zeta.
  rewrite Hfetch, Hjson, Hok, Hvalid. reflexivity.
Qed.

Lemma submitTransferToBestRX_success :
  forall w payload header st response parsed,
    fetch w (transfer_request payload header) = Normal response ->
    ok response = true ->
    json response = Normal parsed ->
    validateTransferResponse (VJson parsed) = true ->
    submitTransferToBestRX w payload header st
    = (Normal {| success := true;
                 message := VStr (str "Transfer request submitted successfully");
                 data := VJson parsed |},
       logged st (Fetch (transfer_request payload header))).
Proof.
  intros w payload header st response parsed Hfetch Hok Hjson Hvalid.
  unfold submitTransferToBestRX, try_catch, and_then, emit, lift. cbv zeta.
  rewrite Hfetch, Hjson, Hok, Hvalid. reflexivity.
Qed.

Ltac run_task :=
  cbv beta iota zeta
    delta [and_then try_catch setStatus setError ret throw lift emit logged
           fail_with];
  cbn [fst snd hook_status hook_error events success message data negb orb].

Ltac split_task :=
  repeat
    (run_task;
     match goal with
     | |- context [match ?c with Normal _ => _ | Throw _ => _ end] =>
         let E := fresh "E" in destruct c eqn:E
     | |- context [if ?b then _ else _] =>
         let E := fresh "E" in destruct b eqn:E
     end).

(** The primary call never rejects: every exception ends in the
    "unable to connect" result. *)
Lemma submitRefillToBestRX_never_throws :
  forall w payload st,
    exists r, fst (submitRefillToBestRX w payload st) = Normal r.
Proof.
  intros w payload st. unfold submitRefillToBestRX, connection_failure.
  split_task; eexists; reflexivity.
Qed.

Lemma submitTransferToBestRX_never_throws :
  forall w payload header st,
    exists r, fst (submitTransferToBestRX w payload header st) = Normal r.
Proof.
  intros w payload header st. unfold submitTransferToBestRX, connection_failure.
  split_task; eexists; reflexivity.
Qed.

(** A result with [success: true] comes from an OK response whose body
    validates, and carries that body. *)
Lemma submitRefillToBestRX_success_only :
  forall w payload st r,
    fst (submitRefillToBestRX w payload st) = Normal r ->
    success r = true ->
    exists response parsed,
      fetch w (refill_request payload) = Normal response
      /\ ok response = true
      /\ json response = Normal parsed
      /\ validateRefillResponse (VJson parsed) = true
      /\ data r = VJson parsed.
Proof.
  intros w payload st r H Hs.
  unfold submitRefillToBestRX, connection_failure in H.
  generalize dependent H.
  split_task; intro H; injection H as <-; try discriminate Hs;
    match goal with
    | Hok : negb (ok ?a) = false,
      Hvalid : negb (validateRefillResponse (VJson ?b)) = false |- _ =>
        apply negb_false_iff in Hok, Hvalid;
        exists a, b; repeat split; assumption
    end.
Qed.

Lemma submitTransferToBestRX_success_only :
  forall w payload header st r,
    fst (submitTransferToBestRX w payload header st) = Normal r ->
    success r = true ->
    exists response parsed,
      fetch w (transfer_request payload header) = Normal response
      /\ ok response = true
      /\ json response = Normal parsed
      /\ validateTransferResponse (VJson parsed) = true
      /\ data r = VJson parsed.
Proof.
  intros w payload header st r H Hs.
  unfold submitTransferToBestRX, connection_failure in H.
  generalize dependent H.
  split_task; intro H; injection H as <-; try discriminate Hs;
    match goal with
    | Hok : negb (ok ?a) = false,
      Hvalid : negb (validateTransferResponse (VJson ?b)) = false |- _ =>
        apply negb_false_iff in Hok, Hvalid;
        exists a, b; repeat split; assumption
    end.
Qed.

(** With HTTP 403 and the body [{}] the refill call reports the message of
    the status; the transfer call never gets to it, because its extractor
    has already answered with the generic message. *)
Lemma status_403_without_error_code :
  forall configuration audit payload transferPayload header st,
    let w := Samples.world configuration false 403%float (JObj []) audit in
    fst (submitRefillToBestRX w payload st)
    = Normal {| success := false;
                message := VStr (str "Authentication failed. Please contact support.");
                data := VUndefined |}
    /\ fst (submitTransferToBestRX w transferPayload header st)
       = Normal {| success := false;
                   message := VStr Spec.generic_message;
                   data := VUndefined |}.
Proof. intros. split; reflexivity. Qed.

(** ** Submission hooks *)

Lemma missing_absent : missing None = true.
Proof. reflexivity. Qed.

(** What the audit write adds to the log: the call, and a warning when
    the call throws. *)
Lemma audit_write_events :
  forall (w : World) (call : RpcCall) (label : JsString) (st : Store),
    try_catch
      (emit (Rpc call) ;;; lift (rpc w call) ;;; ret tt)
      (fun supabaseError => emit (ConsoleWarn label supabaseError)) st
    = (Normal tt,
       {| hook_status := hook_status st;
          hook_error := hook_error st;
          events :=
            events st
            ++ Rpc call
               :: match rpc w call with
                  | Normal _ => []
                  | Throw supabaseError => [ ConsoleWarn label supabaseError ]
                  end |}).
Proof.
  intros w call label st. run_task.
  destruct (rpc w call); run_task; rewrite <- ?app_assoc; reflexivity.
Qed.

Section RefillHook.

Variables (w : World) (data : RefillFormData) (st : Store).

Let username := BESTRX_USERNAME (env w).
Let apiKey := BESTRX_API_KEY (env w).
Let pharmacyNumber := BESTRX_PHARMACY_NUMBER (env w).

(** The refill hook with a credential its guard rejects. *)
Lemma refill_submit_not_configured :
  missing username || missing apiKey || missing pharmacyNumber = true ->
  useRefillFormSubmission.submit w data st
  = (Throw (ThrownError (str "Error") not_configured),
     {| hook_status := StatusError;
        hook_error := Some not_configured;
        events := events st |}).
Proof.
  unfold username, apiKey, pharmacyNumber. intro H.
  unfold useRefillFormSubmission.submit.
  unfold and_then at 1 2. unfold try_catch. cbv zeta. rewrite H.
  reflexivity.
Qed.

Section PrimarySucceeds.

Variables (response : Response) (parsed : Json).

Let request :=
  refill_request
    (buildRefillRequestPayload data (configured pharmacyNumber)
       (configured apiKey) (configured username)).

Hypothesis Husername : missing username = false.
Hypothesis HapiKey : missing apiKey = false.
Hypothesis HpharmacyNumber : missing pharmacyNumber = false.
Hypothesis Hfetch : fetch w request = Normal response.
Hypothesis Hok : ok response = true.
Hypothesis Hjson : json response = Normal parsed.
Hypothesis Hvalid : validateRefillResponse (VJson parsed) = true.

Lemma refill_submit_primary_success :
  useRefillFormSubmission.submit w data st
  = (Normal (VJson parsed),
     {| hook_status := StatusSuccess;
        hook_error := None;
        events :=
          events st
          ++ [ Fetch request; Rpc (useRefillFormSubmission.audit_call data) ]
          ++ match rpc w (useRefillFormSubmission.audit_call data) with
             | Normal _ => []
             | Throw supabaseError =>
                 [ ConsoleWarn
                     (str "Failed to save refill request to database:")
                     supabaseError ]
             end |}).
Proof.
  unfold request, username, apiKey, pharmacyNumber in *.
  unfold useRefillFormSubmission.submit. run_task.
  rewrite Husername, HapiKey, HpharmacyNumber. run_task.
  rewrite (submitRefillToBestRX_success _ _ _ _ _ Hfetch Hok Hjson Hvalid).
  run_task.
  destruct (rpc w (useRefillFormSubmission.audit_call data)); run_task;
    rewrite <- !app_assoc; reflexivity.
Qed.

End PrimarySucceeds.

End RefillHook.

Section TransferHook.

Variables (w : World) (data : Transfer.TransferFormData) (st : Store).

Let username := BESTRX_USERNAME (env w).
Let password := BESTRX_PASSWORD (env w).
Let pharmacyNumber := BESTRX_PHARMACY_NUMBER (env w).

(** The transfer hook with a credential its guard rejects. *)
Lemma transfer_submit_not_configured :
  missing username || missing password || missing pharmacyNumber = true ->
  useTransferFormSubmission.submit w data st
  = (Throw (ThrownError (str "Error") not_configured),
     {| hook_status := StatusError;
        hook_error := Some not_configured;
        events := events st |}).
Proof.
  unfold username, password, pharmacyNumber. intro H.
  unfold useTransferFormSubmission.submit.
  unfold and_then at 1 2. unfold try_catch. cbv zeta. rewrite H.
  reflexivity.
Qed.

Section PrimarySucceeds.

Variables (authHeader : JsString) (response : Response) (parsed : Json).

Let request :=
  transfer_request
    (buildTransferRequestPayload (clock w) data (configured pharmacyNumber))
    authHeader.

Hypothesis Husername : missing username = false.
Hypothesis Hpassword : missing password = false.
Hypothesis HpharmacyNumber : missing pharmacyNumber = false.
Hypothesis Hheader :
  buildBasicAuthHeader (configured username) (configured password)
  = Normal authHeader.
Hypothesis Hfetch : fetch w request = Normal response.
Hypothesis Hok : ok response = true.
Hypothesis Hjson : json response = Normal parsed.
Hypothesis Hvalid : validateTransferResponse (VJson parsed) = true.

Lemma transfer_submit_primary_success :
  useTransferFormSubmission.submit w data st
  = (Normal (VJson parsed),
     {| hook_status := StatusSuccess;
        hook_error := None;
        events :=
          events st
          ++ [ Fetch request;
               Rpc (useTransferFormSubmission.audit_call data) ]
          ++ match rpc w (useTransferFormSubmission.audit_call data) with
             | Normal _ => []
             | Throw supabaseError =>
                 [ ConsoleWarn
                     (str "Failed to save transfer request to database:")
                     supabaseError ]
             end |}).
Proof.
  unfold request, username, password, pharmacyNumber in *.
  unfold useTransferFormSubmission.submit. run_task.
  rewrite Husername, Hpassword, HpharmacyNumber. run_task.
  rewrite Hheader. run_task.
  rewrite (submitTransferToBestRX_success _ _ _ _ _ _ Hfetch Hok Hjson Hvalid).
  run_task.
  destruct (rpc w (useTransferFormSubmission.audit_call data)); run_task;
    rewrite <- !app_assoc; reflexivity.
Qed.

End PrimarySucceeds.

End TransferHook.

(** C3.  A refill submission with the username, the API key or the
    pharmacy number absent from the configuration, and a transfer
    submission with the username, the password or the pharmacy number
    absent, is rejected with an [Error] whose message is exactly
    "Pharmacy service is not properly configured. Please contact support.";
    the hook ends in the error state with that message, and no effect is
    performed: no [fetch], no Supabase call. *)
Theorem submit_without_credentials :
  (forall w data st,
     BESTRX_USERNAME (env w) = None \/ BESTRX_API_KEY (env w) = None
     \/ BESTRX_PHARMACY_NUMBER (env w) = None ->
     let run := useRefillFormSubmission.submit w data st in
     fst run
     = Throw (ThrownError (str "Error")
                (str "Pharmacy service is not properly configured. Please contact support."))
     /\ events (snd run) = events st
     /\ network_calls (events (snd run)) = network_calls (events st)
     /\ hook_status (snd run) = StatusError
     /\ hook_error (snd run)
        = Some (str "Pharmacy service is not properly configured. Please contact support."))
  /\ (forall w data st,
        BESTRX_USERNAME (env w) = None \/ BESTRX_PASSWORD (env w) = None
        \/ BESTRX_PHARMACY_NUMBER (env w) = None ->
        let run := useTransferFormSubmission.submit w data st in
        fst run
        = Throw (ThrownError (str "Error")
                   (str "Pharmacy service is not properly configured. Please contact support."))
        /\ events (snd run) = events st
        /\ network_calls (events (snd run)) = network_calls (events st)
        /\ hook_status (snd run) = StatusError
        /\ hook_error (snd run)
           = Some (str "Pharmacy service is not properly configured. Please contact support.")).
Proof.
  split; intros w data st H; cbv zeta.
  - rewrite refill_submit_not_configured.
    + repeat split; reflexivity.
    + destruct H as [H | [H | H]]; rewrite H; cbn [missing orb];
        rewrite ?orb_true_r; reflexivity.
  - rewrite transfer_submit_not_configured.
    + repeat split; reflexivity.
    + destruct H as [H | [H | H]]; rewrite H; cbn [missing orb];
        rewrite ?orb_true_r; reflexivity.
Qed.

(** The theorem at a configuration without [BESTRX_API_KEY] for a refill
    and without [BESTRX_PASSWORD] for a transfer: rejected, and not one
    network call made. *)
Lemma submit_without_credentials_witness :
  (let run :=
     useRefillFormSubmission.submit
       (Samples.world Samples.without_api_key true 200%float
          Samples.refill_accepted Samples.audit_throws)
       (Samples.refill_form (str "Jane Doe") (str "111") (str "Drug A"))
       initial in
   fst run = Throw (ThrownError (str "Error") not_configured)
   /\ network_calls (events (snd run)) = 0)
  /\ (let run :=
        useTransferFormSubmission.submit
          (Samples.world Samples.without_password true 200%float
             Samples.transfer_accepted Samples.audit_throws)
          Samples.transfer_form initial in
      fst run = Throw (ThrownError (str "Error") not_configured)
      /\ network_calls (events (snd run)) = 0).
Proof.
  split; cbv zeta.
  - destruct (proj1 submit_without_credentials
                (Samples.world Samples.without_api_key true 200%float
                   Samples.refill_accepted Samples.audit_throws)
                (Samples.refill_form (str "Jane Doe") (str "111") (str "Drug A"))
                initial) as [H1 [_ [H2 _]]].
    + right. left. reflexivity.
    + split; [exact H1 | exact H2].
  - destruct (proj2 submit_without_credentials
                (Samples.world Samples.without_password true 200%float
                   Samples.transfer_accepted Samples.audit_throws)
                Samples.transfer_form initial) as [H1 [_ [H2 _]]].
    + right. left. reflexivity.
    + split; [exact H1 | exact H2].
Defined.

(** C1.  When the primary call succeeds (the server answers with an OK
    status and a body the validator accepts) the submit function resolves
    with that raw body and the hook ends in the success state, whatever
    the Supabase call does: [rpc w] is arbitrary here, it may throw or
    resolve with an error.  The audit write is attempted once, after the
    primary call, and an exception from it only reaches [console.warn]. *)
Theorem audit_failure_keeps_primary_result :
  (forall w data st response parsed,
     missing (BESTRX_USERNAME (env w)) = false ->
     missing (BESTRX_API_KEY (env w)) = false ->
     missing (BESTRX_PHARMACY_NUMBER (env w)) = false ->
     let request :=
       refill_request
         (buildRefillRequestPayload data
            (configured (BESTRX_PHARMACY_NUMBER (env w)))
            (configured (BESTRX_API_KEY (env w)))
            (configured (BESTRX_USERNAME (env w)))) in
     fetch w request = Normal response ->
     ok response = true ->
     json response = Normal parsed ->
     validateRefillResponse (VJson parsed) = true ->
     let run := useRefillFormSubmission.submit w data st in
     fst run = Normal (VJson parsed)
     /\ hook_status (snd run) = StatusSuccess
     /\ hook_error (snd run) = None
     /\ events (snd run)
        = events st
          ++ [ Fetch request; Rpc (useRefillFormSubmission.audit_call data) ]
          ++ match rpc w (useRefillFormSubmission.audit_call data) with
             | Normal _ => []
             | Throw supabaseError =>
                 [ ConsoleWarn
                     (str "Failed to save refill request to database:")
                     supabaseError ]
             end)
  /\ (forall w data st authHeader response parsed,
        missing (BESTRX_USERNAME (env w)) = false ->
        missing (BESTRX_PASSWORD (env w)) = false ->
        missing (BESTRX_PHARMACY_NUMBER (env w)) = false ->
        buildBasicAuthHeader (configured (BESTRX_USERNAME (env w)))
          (configured (BESTRX_PASSWORD (env w))) = Normal authHeader ->
        let request :=
          transfer_request
            (buildTransferRequestPayload (clock w) data
               (configured (BESTRX_PHARMACY_NUMBER (env w))))
            authHeader in
        fetch w request = Normal response ->
        ok response = true ->
        json response = Normal parsed ->
        validateTransferResponse (VJson parsed) = true ->
        let run := useTransferFormSubmission.submit w data st in
        fst run = Normal (VJson parsed)
        /\ hook_status (snd run) = StatusSuccess
        /\ hook_error (snd run) = None
        /\ events (snd run)
           = events st
             ++ [ Fetch request;
                  Rpc (useTransferFormSubmission.audit_call data) ]
             ++ match rpc w (useTransferFormSubmission.audit_call data) with
                | Normal _ => []
                | Throw supabaseError =>
                    [ ConsoleWarn
                        (str "Failed to save transfer request to database:")
                        supabaseError ]
                end).
Proof.
  split.
  - intros w data st response parsed Hu Hk Hp request Hfetch Hok Hjson Hvalid.
    cbv zeta.
    rewrite (refill_submit_primary_success w data st response parsed
               Hu Hk Hp Hfetch Hok Hjson Hvalid).
    repeat split; reflexivity.
  - intros w data st authHeader response parsed Hu Hk Hp Hheader request
      Hfetch Hok Hjson Hvalid.
    cbv zeta.
    rewrite (transfer_submit_primary_success w data st authHeader response
               parsed Hu Hk Hp Hheader Hfetch Hok Hjson Hvalid).
    repeat split; reflexivity.
Qed.

(** The theorem in three worlds: a refill whose audit write throws, a
    refill whose audit write resolves with an error, and a transfer whose
    audit write throws.  Each resolves with the body BestRX returned. *)
Lemma audit_failure_keeps_primary_result_witness :
  fst (useRefillFormSubmission.submit
         (Samples.world Samples.complete true 200%float
            Samples.refill_accepted Samples.audit_throws)
         (Samples.refill_form (str "Jane Doe") (str "111") (str "Drug A"))
         initial)
  = Normal (VJson Samples.refill_accepted)
  /\ fst (useRefillFormSubmission.submit
            (Samples.world Samples.complete true 200%float
               Samples.refill_accepted Samples.audit_errors)
            (Samples.refill_form (str "Jane Doe") (str "111") (str "Drug A"))
            initial)
     = Normal (VJson Samples.refill_accepted)
  /\ fst (useTransferFormSubmission.submit
            (Samples.world Samples.complete true 200%float
               Samples.transfer_accepted Samples.audit_throws)
            Samples.transfer_form initial)
     = Normal (VJson Samples.transfer_accepted).
Proof.
  split; [|split].
  - edestruct (proj1 audit_failure_keeps_primary_result
                 (Samples.world Samples.complete true 200%float
                    Samples.refill_accepted Samples.audit_throws)
                 (Samples.refill_form (str "Jane Doe") (str "111") (str "Drug A"))
                 initial) as [H _];
      [reflexivity | reflexivity | reflexivity | reflexivity | reflexivity
      | reflexivity | reflexivity | exact H].
  - edestruct (proj1 audit_failure_keeps_primary_result
                 (Samples.world Samples.complete true 200%float
                    Samples.refill_accepted Samples.audit_errors)
                 (Samples.refill_form (str "Jane Doe") (str "111") (str "Drug A"))
                 initial) as [H _];
      [reflexivity | reflexivity | reflexivity | reflexivity | reflexivity
      | reflexivity | reflexivity | exact H].
  - edestruct (proj2 audit_failure_keeps_primary_result
                 (Samples.world Samples.complete true 200%float
                    Samples.transfer_accepted Samples.audit_throws)
                 Samples.transfer_form initial) as [H _];
      [reflexivity | reflexivity | reflexivity | reflexivity | reflexivity
      | reflexivity | reflexivity | reflexivity | exact H].
Defined.

(* ================================================================== *)
(** * Part IV.  Further properties of the code                        *)
(* ================================================================== *)

(** ** [split] and [trim] *)

Lemma split_pieces_without_separator :
  forall sep s piece, In piece (split sep s) -> ~ In sep piece.
Proof.
  intros sep s. induction s as [|c s IH]; intros piece Hin.
  - simpl in Hin. destruct Hin as [<- | []]. intros [].
  - simpl in Hin. destruct (c =? sep)%N eqn:E.
    + destruct Hin as [<- | Hin]; [intros [] | exact (IH _ Hin)].
    + destruct (split sep s) as [|first rest] eqn:Es.
      * destruct Hin as [<- | []]. intros [H | []].
        subst. rewrite N.eqb_refl in E. discriminate.
      * destruct Hin as [<- | Hin].
        -- intros [H | H].
           ++ subst. rewrite N.eqb_refl in E. discriminate.
           ++ exact (IH first (or_introl eq_refl) H).
        -- exact (IH piece (or_intror Hin)).
Qed.

Lemma split_length :
  forall sep s,
    List.length (split sep s) = S (Reference.occurrences sep s).
Proof.
  intros sep s. unfold Reference.occurrences.
  induction s as [|c s IH]; [reflexivity|].
  simpl. rewrite (N.eqb_sym sep c). destruct (c =? sep)%N.
  - simpl. rewrite IH. reflexivity.
  - destruct (split sep s) as [|first rest]; [discriminate IH|].
    simpl in *. exact IH.
Qed.

(** Every code unit of the text is a separator or sits in a piece, and
    the pieces hold nothing else. *)
Lemma split_covers :
  forall sep s c,
    In c s <-> (c = sep /\ In sep s)
               \/ exists piece, In piece (split sep s) /\ In c piece.
Proof.
  intros sep s c. induction s as [|x s IH].
  - simpl. split; [intros [] | intros [[_ []] | [piece [[<- | []] []]]]].
  - simpl. destruct (x =? sep)%N eqn:E.
    + apply N.eqb_eq in E. subst x. split.
      * intros [<- | H]; [left; split; [reflexivity | left; reflexivity]|].
        apply IH in H. destruct H as [[-> H] | [piece [Hp Hc]]].
        -- left. split; [reflexivity | left; reflexivity].
        -- right. exists piece. split; [right; exact Hp | exact Hc].
      * intros [[-> _] | [piece [[<- | Hp] Hc]]].
        -- left. reflexivity.
        -- destruct Hc.
        -- right. apply IH. right. exists piece. split; assumption.
    + assert (Hx : x <> sep) by (intro; subst; rewrite N.eqb_refl in E; discriminate).
      destruct (split sep s) as [|first rest] eqn:Es;
        [exfalso; exact (split_not_nil _ _ Es)|].
      split.
      * intros [<- | H].
        -- right. exists (x :: first). split; left; reflexivity.
        -- apply IH in H. destruct H as [[-> H] | [piece [[<- | Hp] Hc]]].
           ++ left. split; [reflexivity | right; exact H].
           ++ right. exists (x :: first). split; [left; reflexivity | right; exact Hc].
           ++ right. exists piece. split; [right; exact Hp | exact Hc].
      * intros [[-> [H | H]] | [piece [[<- | Hp] Hc]]].
        -- contradiction.
        -- right. apply IH. left. split; [reflexivity | exact H].
        -- destruct Hc as [<- | Hc]; [left; reflexivity|].
           right. apply IH. right. exists first. split; [left; reflexivity | exact Hc].
        -- right. apply IH. right. exists piece. split; [right; exact Hp | exact Hc].
Qed.

Lemma drop_while_subset :
  forall p s c, In c (drop_while p s) -> In c s.
Proof.
  intros p s c. induction s as [|x s IH]; [intros []|].
  simpl. destruct (p x); [|exact (fun H => H)].
  intro H. right. exact (IH H).
Qed.

Lemma drop_while_head :
  forall p s c s', drop_while p s = c :: s' -> p c = false.
Proof.
  intros p s. induction s as [|x s IH]; intros c s' H; [discriminate H|].
  simpl in H. destruct (p x) eqn:E; [exact (IH _ _ H)|].
  injection H as -> _. exact E.
Qed.

Lemma drop_while_nil :
  forall p s, drop_while p s = [] <-> forallb p s = true.
Proof.
  intros p s. induction s as [|x s IH]; [split; reflexivity|].
  simpl. destruct (p x); [exact IH|]. split; discriminate.
Qed.

Lemma drop_while_snoc :
  forall p s c,
    drop_while p (s ++ [c])
    = match drop_while p s with
      | [] => if p c then [] else [c]
      | kept => kept ++ [c]
      end.
Proof.
  intros p s c. induction s as [|x s IH]; [reflexivity|].
  simpl. destruct (p x); [exact IH | reflexivity].
Qed.

Lemma drop_trailing_rev :
  forall p s, rev (drop_while p (rev s)) = Reference.drop_trailing p s.
Proof.
  intros p s. induction s as [|c s IH]; [reflexivity|].
  simpl. rewrite drop_while_snoc. rewrite <- IH.
  destruct (drop_while p (rev s)) as [|y kept] eqn:E.
  - simpl. destruct (p c); reflexivity.
  - rewrite rev_app_distr. simpl.
    destruct (rev kept ++ [y]) eqn:E'; [|reflexivity].
    apply app_eq_nil in E'. destruct E' as [_ E']. discriminate E'.
Qed.

Lemma trim_as_drops :
  forall s,
    trim s = Reference.drop_trailing is_white_space
               (drop_while is_white_space s).
Proof. intro s. unfold trim. apply drop_trailing_rev. Qed.

Lemma drop_trailing_head :
  forall p s c s',
    Reference.drop_trailing p s = c :: s' -> exists t, s = c :: t.
Proof.
  intros p s c s' H. destruct s as [|x s]; [discriminate H|].
  simpl in H. destruct (Reference.drop_trailing p s).
  - destruct (p x); [discriminate H|]. injection H as -> _. eexists. reflexivity.
  - injection H as -> _. eexists. reflexivity.
Qed.

Lemma drop_trailing_fixed :
  forall p s,
    Reference.drop_trailing p (Reference.drop_trailing p s)
    = Reference.drop_trailing p s.
Proof.
  intros p s. induction s as [|c s IH]; [reflexivity|].
  simpl. destruct (Reference.drop_trailing p s) as [|y kept] eqn:E.
  - destruct (p c) eqn:Ec; [reflexivity|]. simpl. rewrite Ec. reflexivity.
  - simpl. simpl in IH. rewrite IH. reflexivity.
Qed.

Lemma drop_trailing_subset :
  forall p s c, In c (Reference.drop_trailing p s) -> In c s.
Proof.
  intros p s c. induction s as [|x s IH]; [intros []|].
  simpl. destruct (Reference.drop_trailing p s) as [|y kept].
  - destruct (p x); [intros [] | intros [<- | []]; left; reflexivity].
  - intros [<- | H]; [left; reflexivity | right; exact (IH H)].
Qed.

Lemma drop_trailing_nil :
  forall p s, Reference.drop_trailing p s = [] <-> forallb p s = true.
Proof.
  intros p s. induction s as [|x s IH]; [split; reflexivity|].
  simpl. destruct (Reference.drop_trailing p s) as [|y kept].
  - destruct (p x).
    + split; [intros _; apply IH; reflexivity | reflexivity].
    + split; discriminate.
  - split; [discriminate|]. intro H. apply andb_true_iff in H.
    destruct H as [_ H]. apply IH in H. discriminate H.
Qed.

Lemma trim_subset : forall s c, In c (trim s) -> In c s.
Proof.
  intros s c H. rewrite trim_as_drops in H.
  apply drop_trailing_subset in H. exact (drop_while_subset _ _ _ H).
Qed.

(** Trimming twice is trimming once. *)
Lemma trim_idempotent : forall s, trim (trim s) = trim s.
Proof.
  intro s. rewrite (trim_as_drops (trim s)).
  assert (H : drop_while is_white_space (trim s) = trim s).
  { destruct (trim s) as [|c t] eqn:E; [reflexivity|].
    rewrite trim_as_drops in E.
    destruct (drop_trailing_head _ _ _ _ E) as [u Hu].
    apply drop_while_head in Hu. simpl. rewrite Hu. reflexivity. }
  rewrite H. rewrite trim_as_drops. apply drop_trailing_fixed.
Qed.

(** A text trims to nothing exactly when it is white space throughout. *)
Lemma trim_nil : forall s, trim s = [] <-> forallb is_white_space s = true.
Proof.
  intro s. rewrite trim_as_drops. rewrite drop_trailing_nil. split.
  - intro H. apply forallb_forall. intros c Hc.
    destruct (is_white_space c) eqn:E; [reflexivity|].
    pose proof (drop_while_keeps _ _ _ Hc E) as Hin.
    rewrite forallb_forall in H. rewrite (H _ Hin) in E. discriminate E.
  - intro H. apply drop_while_nil in H. rewrite H. reflexivity.
Qed.

(** ** Payload mapper: what every payload satisfies *)

Lemma comma_tokens_clean :
  forall s token,
    In token (Spec.comma_tokens s) ->
    nonempty token = true /\ ~ In comma token /\ trim token = token.
Proof.
  intros s token H. unfold Spec.comma_tokens in H.
  apply filter_In in H. destruct H as [H Hne].
  apply in_map_iff in H. destruct H as [piece [<- Hpiece]].
  split; [exact Hne|]. split.
  - intro Hc. apply trim_subset in Hc.
    exact (split_pieces_without_separator _ _ _ Hpiece Hc).
  - apply trim_idempotent.
Qed.

Lemma map_indexed_from_in :
  forall (A B : Type) (f : A -> nat -> B) (a : list A) (i : nat) (y : B),
    In y (map_indexed_from f i a) -> exists x k, In x a /\ y = f x k.
Proof.
  intros A B f a. induction a as [|x a IH]; intros i y H; [destruct H|].
  simpl in H. destruct H as [<- | H].
  - exists x, i. split; [left; reflexivity | reflexivity].
  - destruct (IH _ _ H) as [x' [k [Hin Hy]]].
    exists x', k. split; [right; exact Hin | exact Hy].
Qed.

(** X1.  Every entry of [RxInRefillRequest] has a prescription number that
    is not empty, holds no comma and has no white space at either end; its
    medication name holds no comma and has no white space at either end
    (it may be empty). *)
Theorem RxInRefillRequest_entries_clean :
  forall formData pharmacyNumber apiKey username item,
    In item
      (RxInRefillRequest
         (buildRefillRequestPayload formData pharmacyNumber apiKey username)) ->
    nonempty (RxNumber item) = true
    /\ ~ In comma (RxNumber item)
    /\ trim (RxNumber item) = RxNumber item
    /\ ~ In comma (MedicationName item)
    /\ trim (MedicationName item) = MedicationName item.
Proof.
  intros formData pharmacyNumber apiKey username item H.
  unfold buildRefillRequestPayload in H. simpl in H. unfold map_indexed in H.
  apply map_indexed_from_in in H. destruct H as [rx [k [Hrx ->]]]. simpl.
  destruct (comma_tokens_clean (prescriptionNumbers formData) rx Hrx)
    as [H1 [H2 H3]].
  split; [exact H1|]. split; [exact H2|]. split; [exact H3|].
  rewrite or_string_nth_error.
  destruct (nth_in_or_default k
              (filter nonempty
                 (map trim (split comma (medicationNames formData)))) [])
    as [Hin | ->].
  - destruct (comma_tokens_clean (medicationNames formData) _ Hin)
      as [_ [H4 H5]].
    split; assumption.
  - split; [intros [] | reflexivity].
Qed.

(** The theorem at an untidy field: [" 111 ,, 222 "] with [" Drug A "]. *)
Lemma RxInRefillRequest_entries_clean_witness :
  let item := {| RxNumber := str "222"; MedicationName := [] |} in
  nonempty (RxNumber item) = true
  /\ ~ In comma (RxNumber item)
  /\ trim (RxNumber item) = RxNumber item
  /\ ~ In comma (MedicationName item)
  /\ trim (MedicationName item) = MedicationName item.
Proof.
  apply (RxInRefillRequest_entries_clean
           (Samples.refill_form (str "Jane Doe") (str " 111 ,, 222 ")
              (str " Drug A "))
           (str "PH1") (str "key") (str "user")).
  vm_compute. right. left. reflexivity.
Defined.

Lemma filter_nil_iff :
  forall (A : Type) (p : A -> bool) (l : list A),
    filter p l = [] <-> forall x, In x l -> p x = false.
Proof.
  intros A p l. induction l as [|x l IH]; simpl.
  - split; [intros _ y [] | reflexivity].
  - destruct (p x) eqn:E.
    + split; [discriminate|]. intro H. rewrite (H x (or_introl eq_refl)) in E.
      discriminate E.
    + rewrite IH. split.
      * intros H y [<- | Hy]; [exact E | exact (H y Hy)].
      * intros H y Hy. exact (H y (or_intror Hy)).
Qed.

Lemma comma_tokens_nil_iff_blank :
  forall s, Spec.comma_tokens s = [] <-> Reference.blank s.
Proof.
  intro s. unfold Spec.comma_tokens, Reference.blank.
  rewrite filter_nil_iff. rewrite Forall_forall. split.
  - intros H c Hc. apply (split_covers comma) in Hc.
    destruct Hc as [[-> _] | [piece [Hpiece Hc]]]; [left; reflexivity|].
    right. specialize (H (trim piece) (in_map trim _ _ Hpiece)).
    assert (Ht : trim piece = []) by (destruct (trim piece); [reflexivity | discriminate H]).
    apply trim_nil in Ht. rewrite forallb_forall in Ht. exact (Ht c Hc).
  - intros H token Htoken.
    apply in_map_iff in Htoken. destruct Htoken as [piece [<- Hpiece]].
    assert (Ht : trim piece = []).
    { apply trim_nil. apply forallb_forall. intros c Hc.
      assert (Hs : In c s).
      { apply (split_covers comma). right. exists piece. split; assumption. }
      destruct (H c Hs) as [-> | Hw]; [|exact Hw].
      exfalso. exact (split_pieces_without_separator _ _ _ Hpiece Hc). }
    rewrite Ht. reflexivity.
Qed.

(** X2.  The payload carries no prescription at all exactly when
    [prescriptionNumbers] consists of commas and white space only (the
    empty field included); otherwise there is at least one entry. *)
Theorem RxInRefillRequest_empty_iff_blank :
  forall formData pharmacyNumber apiKey username,
    RxInRefillRequest
      (buildRefillRequestPayload formData pharmacyNumber apiKey username) = []
    <-> Reference.blank (prescriptionNumbers formData).
Proof.
  intros formData pharmacyNumber apiKey username.
  rewrite <- comma_tokens_nil_iff_blank.
  unfold buildRefillRequestPayload, Spec.comma_tokens, map_indexed. simpl.
  split.
  - intro H. apply (f_equal (@List.length _)) in H.
    rewrite map_indexed_from_length in H.
    destruct (filter nonempty
                (map trim (split comma (prescriptionNumbers formData))));
      [reflexivity | discriminate H].
  - intros ->. reflexivity.
Qed.

(** X3.  A field with [n] commas gives at most [n + 1] entries. *)
Theorem RxInRefillRequest_length_bound :
  forall formData pharmacyNumber apiKey username,
    List.length
      (RxInRefillRequest
         (buildRefillRequestPayload formData pharmacyNumber apiKey username))
    <= S (Reference.occurrences comma (prescriptionNumbers formData)).
Proof.
  intros formData pharmacyNumber apiKey username.
  unfold buildRefillRequestPayload, map_indexed. simpl.
  rewrite map_indexed_from_length.
  eapply Nat.le_trans; [apply filter_length_le|].
  rewrite length_map, split_length. apply le_n.
Qed.

Lemma pop_split_suffix :
  forall sep s,
    exists before piece,
      pop (split sep s) = Some piece /\ s = before ++ piece
      /\ ~ In sep piece.
Proof.
  intros sep s. induction s as [|c s IH].
  - exists [], []. repeat split. intros [].
  - destruct IH as [before [piece [Hpop [Hs Hsep]]]]. simpl.
    destruct (c =? sep)%N eqn:E.
    + exists (c :: before), piece. split; [|split; [|exact Hsep]].
      * destruct (split sep s) eqn:Es; [discriminate Hpop | exact Hpop].
      * rewrite Hs at 1. reflexivity.
    + destruct (split sep s) as [|first rest] eqn:Es; [discriminate Hpop|].
      destruct rest as [|second rest].
      * simpl in Hpop. injection Hpop as ->.
        exists [], (c :: piece). split; [reflexivity|]. split.
        -- simpl. f_equal.
           assert (H : split sep s = [s]).
           { apply split_without_separator. intro Hin.
             pose proof (split_length sep s) as Hl. rewrite Es in Hl.
             simpl in Hl. injection Hl as Hl. unfold Reference.occurrences in Hl.
             symmetry in Hl. apply length_zero_iff_nil in Hl.
             assert (Hf : In sep (filter (N.eqb sep) s)).
             { apply filter_In. split; [exact Hin | apply N.eqb_refl]. }
             rewrite Hl in Hf. destruct Hf. }
           rewrite Es in H. injection H as ->. reflexivity.
        -- intros [H | H]; [subst; rewrite N.eqb_refl in E; discriminate|].
           exact (Hsep H).
      * exists (c :: before), piece. split; [exact Hpop|].
        split; [rewrite Hs at 1; reflexivity | exact Hsep].
Qed.

(** X4.  [LastName] is always a suffix of [patientName]; it is empty only
    when [patientName] is empty; and it holds a space only in the
    fallback case, where it is the whole name. *)
Theorem LastName_suffix_of_patientName :
  forall formData pharmacyNumber apiKey username,
    let name := patientName formData in
    let lastName :=
      LastName
        (buildRefillRequestPayload formData pharmacyNumber apiKey username) in
    (exists before, name = before ++ lastName)
    /\ (lastName = [] <-> name = [])
    /\ (In space lastName -> lastName = name).
Proof.
  intros formData pharmacyNumber apiKey username. cbv zeta.
  rewrite LastName_unfold.
  destruct (pop_split_suffix space (patientName formData))
    as [before [piece [Hpop [Hname Hspace]]]].
  rewrite Hpop. destruct piece as [|c piece]; simpl.
  - split; [exists []; reflexivity|]. split; [tauto | reflexivity].
  - split; [exists before; exact Hname|]. split.
    + split; [discriminate|]. intro H. rewrite H in Hname.
      destruct before; discriminate Hname.
    + intro H. contradiction.
Qed.

(** ** Transfer payload *)

(** X5.  [TransferDate] is the clock's timestamp up to its first ["T"]
    (for an ISO timestamp, the calendar date), and the whole timestamp if
    it has none; it never depends on the form, whose [rxFillDate] goes to
    [RxFillDate] unchanged. *)
Theorem TransferDate_from_clock :
  forall now formData pharmacyNumber,
    let payload := buildTransferRequestPayload now formData pharmacyNumber in
    (forall date rest,
       now = date ++ letter_T :: rest -> ~ In letter_T date ->
       Transfer.TransferDate payload = date)
    /\ (~ In letter_T now -> Transfer.TransferDate payload = now)
    /\ ~ In letter_T (Transfer.TransferDate payload)
    /\ (forall otherForm otherNumber,
          Transfer.TransferDate
            (buildTransferRequestPayload now otherForm otherNumber)
          = Transfer.TransferDate payload)
    /\ Transfer.RxFillDate payload = Transfer.rxFillDate formData.
Proof.
  intros now formData pharmacyNumber. cbv zeta.
  unfold buildTransferRequestPayload. simpl.
  split; [|split; [|split; [|split; reflexivity]]].
  - intros date rest -> Hdate. rewrite split_at_separator.
    rewrite (split_without_separator _ _ Hdate). reflexivity.
  - intro H. rewrite (split_without_separator _ _ H). reflexivity.
  - destruct (split letter_T now) as [|first rest] eqn:E;
      [exfalso; exact (split_not_nil _ _ E)|].
    simpl. apply (split_pieces_without_separator letter_T now).
    rewrite E. left. reflexivity.
Qed.

(** The theorem at the timestamp ["2025-01-15T10:30:00.000Z"]. *)
Lemma TransferDate_from_clock_witness :
  Transfer.TransferDate
    (buildTransferRequestPayload (str "2025-01-15T10:30:00.000Z")
       Samples.transfer_form (str "PH1"))
  = str "2025-01-15".
Proof.
  apply (proj1 (TransferDate_from_clock (str "2025-01-15T10:30:00.000Z")
                  Samples.transfer_form (str "PH1"))
           (str "2025-01-15") (str "10:30:00.000Z")).
  - reflexivity.
  - vm_compute. intro H. repeat (destruct H as [H | H]; [discriminate H|]).
    exact H.
Defined.

(** ** Basic authentication header *)

Ltac bool_cases :=
  repeat match goal with
         | |- context [if ?b then _ else _] =>
             let E := fresh "E" in destruct b eqn:E
         end;
  repeat match goal with
         | H : (_ && _) = true |- _ => apply andb_true_iff in H; destruct H
         | H : (_ && _) = false |- _ => apply andb_false_iff in H; destruct H
         | H : (_ <=? _)%N = true |- _ => apply N.leb_le in H
         | H : (_ <=? _)%N = false |- _ => apply N.leb_gt in H
         | H : (_ <? _)%N = true |- _ => apply N.ltb_lt in H
         | H : (_ <? _)%N = false |- _ => apply N.ltb_ge in H
         | H : (_ =? _)%N = true |- _ => apply N.eqb_eq in H
         | H : (_ =? _)%N = false |- _ => apply N.eqb_neq in H
         end.

Ltac div_lia := zify; Z.to_euclidean_division_equations; lia.

Lemma base64_value_unit :
  forall n, (n < 64)%N -> Reference.base64_value (base64_unit n) = Some n.
Proof.
  intros n Hn. unfold base64_unit. bool_cases;
    unfold Reference.base64_value; bool_cases; try (f_equal; lia); lia.
Qed.

Lemma base64_unit_value :
  forall c v,
    Reference.base64_value c = Some v -> (v < 64)%N /\ base64_unit v = c.
Proof.
  intros c v H. unfold Reference.base64_value in H.
  repeat match type of H with
         | (if ?b then _ else _) = _ =>
             let E := fresh "E" in destruct b eqn:E
         end;
    try discriminate H; injection H as <-;
    (split; [bool_cases; lia|]); unfold base64_unit; bool_cases; lia.
Qed.

Lemma base64_unit_not_padding : forall n, base64_unit n <> 61%N.
Proof. intro n. unfold base64_unit. bool_cases; lia. Qed.

Lemma list_ind3 :
  forall (A : Type) (P : list A -> Prop),
    P [] -> (forall a, P [a]) -> (forall a b, P [a; b]) ->
    (forall a b c l, P l -> P (a :: b :: c :: l)) ->
    forall l, P l.
Proof.
  intros A P H0 H1 H2 H3.
  assert (H : forall l, P l /\ (forall a, P (a :: l))
                        /\ (forall a b, P (a :: b :: l))).
  { induction l as [|x l [IH0 [IH1 IH2]]].
    - repeat split; assumption.
    - split; [apply IH1|]. split; [intro a; apply IH2|].
      intros a b. apply H3. exact IH0. }
  intro l. exact (proj1 (H l)).
Qed.

Lemma list_ind4 :
  forall (A : Type) (P : list A -> Prop),
    P [] -> (forall a, P [a]) -> (forall a b, P [a; b]) ->
    (forall a b c, P [a; b; c]) ->
    (forall a b c d l, P l -> P (a :: b :: c :: d :: l)) ->
    forall l, P l.
Proof.
  intros A P H0 H1 H2 H3 H4.
  assert (H : forall l, P l /\ (forall a, P (a :: l))
                        /\ (forall a b, P (a :: b :: l))
                        /\ (forall a b c, P (a :: b :: c :: l))).
  { induction l as [|x l [IH0 [IH1 [IH2 IH3]]]].
    - repeat split; assumption.
    - split; [apply IH1|]. split; [intro a; apply IH2|].
      split; [intros a b; apply IH3|].
      intros a b c. apply H4. exact IH0. }
  intro l. exact (proj1 (H l)).
Qed.

Lemma quotients_below_64 :
  forall a b : N,
    (a < 256 -> b < 256 ->
     a / 4 < 64 /\ (a mod 4) * 16 + b / 16 < 64
     /\ (a mod 16) * 4 + b / 64 < 64 /\ a mod 64 < 64
     /\ (a mod 4) * 16 < 64 /\ (a mod 16) * 4 < 64)%N.
Proof. intros a b Ha Hb. repeat split; div_lia. Qed.

Ltac not_padding :=
  match goal with
  | |- context [(base64_unit ?n =? 61)%N] =>
      let E := fresh "E" in
      destruct (base64_unit n =? 61)%N eqn:E;
      [ apply N.eqb_eq in E; exfalso; exact (base64_unit_not_padding _ E) | ]
  end.

Ltac zero_bits :=
  match goal with
  | |- context [(?x mod ?m =? 0)%N] =>
      let E := fresh "E" in
      destruct (x mod m =? 0)%N eqn:E;
      [ | apply N.eqb_neq in E; exfalso; apply E; div_lia ]
  end.

(** Decoding undoes encoding... *)
Lemma base64_decode_encode :
  forall s, Reference.latin1 s -> Reference.base64_decode (base64 s) = Some s.
Proof.
  unfold Reference.latin1.
  induction s as [|a|a b|a b c s IH] using list_ind3; intro H.
  - reflexivity.
  - inversion H as [|? ? Ha _]; subst.
    destruct (quotients_below_64 a a Ha Ha) as [H1 [_ [_ [_ [H5 _]]]]].
    cbn [base64 Reference.base64_decode].
    rewrite !base64_value_unit by assumption.
    cbn [N.eqb Pos.eqb]. zero_bits. f_equal. f_equal. div_lia.
  - inversion H as [|? ? Ha H']; subst. inversion H' as [|? ? Hb _]; subst.
    destruct (quotients_below_64 a b Ha Hb) as [H1 [H2 _]].
    destruct (quotients_below_64 b b Hb Hb) as [_ [_ [_ [_ [_ H6]]]]].
    cbn [base64 Reference.base64_decode].
    rewrite !base64_value_unit by assumption.
    cbn [N.eqb Pos.eqb]. not_padding. zero_bits.
    f_equal. f_equal; [div_lia|]. f_equal. div_lia.
  - inversion H as [|? ? Ha H']; subst. inversion H' as [|? ? Hb H'']; subst.
    inversion H'' as [|? ? Hc Hs]; subst.
    destruct (quotients_below_64 a b Ha Hb) as [H1 [H2 _]].
    destruct (quotients_below_64 b c Hb Hc) as [_ [_ [H3 _]]].
    destruct (quotients_below_64 c c Hc Hc) as [_ [_ [_ [H4 _]]]].
    cbn [base64 app]. cbn [Reference.base64_decode].
    rewrite !base64_value_unit by assumption.
    not_padding. rewrite (IH Hs).
    f_equal. f_equal; [div_lia|]. f_equal; [div_lia|]. f_equal. div_lia.
Qed.

(** ... and encoding undoes decoding: a text that decodes at all is the
    encoding of what it decodes to. *)
Lemma base64_encode_decode :
  forall t s, Reference.base64_decode t = Some s -> base64 s = t.
Proof.
  induction t as [|a|a b|a b c|a b c d t IH] using list_ind4; intros s H;
    try discriminate H.
  - injection H as <-. reflexivity.
  - cbn [Reference.base64_decode] in H.
    destruct (Reference.base64_value a) as [va|] eqn:Ea; [|discriminate H].
    destruct (Reference.base64_value b) as [vb|] eqn:Eb; [|discriminate H].
    destruct (base64_unit_value _ _ Ea) as [Hva <-].
    destruct (base64_unit_value _ _ Eb) as [Hvb <-].
    destruct (d =? 61)%N eqn:Ed.
    + apply N.eqb_eq in Ed. subst d.
      destruct t as [|x t]; [|discriminate H].
      destruct (c =? 61)%N eqn:Ec.
      * apply N.eqb_eq in Ec. subst c.
        destruct (vb mod 16 =? 0)%N eqn:Em; [|discriminate H].
        apply N.eqb_eq in Em. injection H as <-. cbn [base64].
        f_equal; [f_equal; div_lia|]. f_equal. f_equal. div_lia.
      * destruct (Reference.base64_value c) as [vc|] eqn:Evc;
          [|discriminate H].
        destruct (base64_unit_value _ _ Evc) as [Hvc <-].
        destruct (vc mod 4 =? 0)%N eqn:Em; [|discriminate H].
        apply N.eqb_eq in Em. injection H as <-. cbn [base64].
        f_equal; [f_equal; div_lia|]. f_equal; [f_equal; div_lia|].
        f_equal. f_equal. div_lia.
    + destruct (Reference.base64_value c) as [vc|] eqn:Evc; [|discriminate H].
      destruct (Reference.base64_value d) as [vd|] eqn:Evd; [|discriminate H].
      destruct (base64_unit_value _ _ Evc) as [Hvc <-].
      destruct (base64_unit_value _ _ Evd) as [Hvd <-].
      destruct (Reference.base64_decode t) as [rest|] eqn:Et;
        [|discriminate H].
      injection H as <-. cbn [base64 app]. rewrite (IH rest eq_refl).
      f_equal; [f_equal; div_lia|]. f_equal; [f_equal; div_lia|].
      f_equal; [f_equal; div_lia|]. f_equal. f_equal. div_lia.
Qed.

Lemma latin1_forallb :
  forall s, forallb (fun c => (c <? 256)%N) s = true <-> Reference.latin1 s.
Proof.
  intro s. unfold Reference.latin1. rewrite forallb_forall, Forall_forall.
  split; intros H c Hc; [apply N.ltb_lt | apply N.ltb_lt]; exact (H c Hc).
Qed.

Lemma buildBasicAuthHeader_latin1 :
  forall username password,
    Reference.latin1 (username ++ colon :: password) ->
    buildBasicAuthHeader username password
    = Normal (str "Basic " ++ base64 (username ++ colon :: password)).
Proof.
  intros username password H. unfold buildBasicAuthHeader, btoa.
  apply latin1_forallb in H. rewrite H. reflexivity.
Qed.

(** X6.  For credentials whose code units are all below 256 the header is
    ["Basic "] followed by the Base64 text of [username:password]: a text
    the strict decoder accepts and decodes to [username:password], and the
    only such text.  For any other credentials [btoa] refuses the text and
    the function throws an [InvalidCharacterError]. *)
Theorem buildBasicAuthHeader_round_trip :
  forall username password,
    (Reference.latin1 (username ++ colon :: password) ->
     exists encoded,
       buildBasicAuthHeader username password
       = Normal (str "Basic " ++ encoded)
       /\ Reference.base64_decode encoded
          = Some (username ++ colon :: password)
       /\ forall other,
            Reference.base64_decode other
            = Some (username ++ colon :: password) ->
            other = encoded)
    /\ (~ Reference.latin1 (username ++ colon :: password) ->
        buildBasicAuthHeader username password = Throw invalid_character).
Proof.
  intros username password. split.
  - intro H. exists (base64 (username ++ colon :: password)). split.
    + apply buildBasicAuthHeader_latin1. exact H.
    + split; [apply base64_decode_encode; exact H|].
      intros other Hother. symmetry. apply base64_encode_decode. exact Hother.
  - intro H. unfold buildBasicAuthHeader, btoa.
    destruct (forallb (fun c => (c <? 256)%N) (username ++ colon :: password))
      eqn:E; [|reflexivity].
    apply latin1_forallb in E. contradiction.
Qed.

(** The theorem at the credentials [Aladdin] / [open sesame], whose
    header is the one of RFC 7617. *)
Lemma buildBasicAuthHeader_round_trip_witness :
  exists encoded,
    buildBasicAuthHeader (str "Aladdin") (str "open sesame")
    = Normal (str "Basic " ++ encoded)
    /\ Reference.base64_decode encoded = Some (str "Aladdin:open sesame")
    /\ forall other,
         Reference.base64_decode other = Some (str "Aladdin:open sesame") ->
         other = encoded.
Proof.
  apply (proj1 (buildBasicAuthHeader_round_trip (str "Aladdin")
                  (str "open sesame"))).
  apply latin1_forallb. reflexivity.
Defined.

(** X7.  Two pairs of accepted credentials get the same header exactly
    when their [username:password] texts are the same.  In particular the
    header does not record where the user name ends: the part of a user
    name after a colon can be moved to the front of the password. *)
Theorem buildBasicAuthHeader_same_header :
  (forall username password username' password',
     Reference.latin1 (username ++ colon :: password) ->
     Reference.latin1 (username' ++ colon :: password') ->
     (buildBasicAuthHeader username password
      = buildBasicAuthHeader username' password'
      <-> username ++ colon :: password = username' ++ colon :: password'))
  /\ (forall username middle password,
        buildBasicAuthHeader (username ++ colon :: middle) password
        = buildBasicAuthHeader username (middle ++ colon :: password)).
Proof.
  split.
  - intros username password username' password' H H'.
    rewrite (buildBasicAuthHeader_latin1 _ _ H).
    rewrite (buildBasicAuthHeader_latin1 _ _ H').
    split.
    + intro E. injection E as E.
      apply (f_equal Reference.base64_decode) in E.
      rewrite !base64_decode_encode in E by assumption.
      injection E as E. exact E.
    + intros ->. reflexivity.
  - intros username middle password. unfold buildBasicAuthHeader.
    rewrite <- app_assoc. reflexivity.
Qed.

(** The theorem at [a:b] / [c] and [a] / [b:c]. *)
Lemma buildBasicAuthHeader_same_header_witness :
  buildBasicAuthHeader (str "a:b") (str "c")
  = buildBasicAuthHeader (str "a") (str "b:c").
Proof.
  apply (proj2 (proj1 buildBasicAuthHeader_same_header
                  (str "a:b") (str "c") (str "a") (str "b:c")
                  ltac:(apply latin1_forallb; reflexivity)
                  ltac:(apply latin1_forallb; reflexivity))).
  reflexivity.
Defined.

(** ** Primary call: effects and results *)

Lemma network_calls_app :
  forall a b, network_calls (a ++ b) = network_calls a + network_calls b.
Proof.
  intros a b. unfold network_calls. rewrite filter_app, length_app.
  reflexivity.
Qed.

Lemma status_message_truthy :
  forall httpStatus,
    exists text,
      mapBestRXError VUndefined httpStatus = Normal (VStr text)
      /\ nonempty text = true.
Proof.
  intro httpStatus. rewrite mapBestRXError_without_code by reflexivity.
  eexists. split; [reflexivity|].
  destruct (status_is httpStatus 400%float); [reflexivity|].
  destruct (status_is httpStatus 403%float); [reflexivity|].
  destruct (status_is httpStatus 500%float); reflexivity.
Qed.

(** X8.  Whatever the server does, a primary call performs exactly one
    network call, the [fetch] of its request, never a Supabase call; it
    leaves the hook state alone, and the only other effect it can have is
    one [console.error]. *)
Theorem primary_call_single_fetch :
  (forall w payload st,
     let st' := snd (submitRefillToBestRX w payload st) in
     hook_status st' = hook_status st
     /\ hook_error st' = hook_error st
     /\ exists rest,
          events st' = events st ++ Fetch (refill_request payload) :: rest
          /\ (rest = []
              \/ exists caught,
                   rest = [ ConsoleError (str "BestRX Refill Error:") caught ]))
  /\ (forall w payload header st,
        let st' := snd (submitTransferToBestRX w payload header st) in
        hook_status st' = hook_status st
        /\ hook_error st' = hook_error st
        /\ exists rest,
             events st'
             = events st ++ Fetch (transfer_request payload header) :: rest
             /\ (rest = []
                 \/ exists caught,
                      rest
                      = [ ConsoleError (str "BestRX Transfer Error:") caught ])).
Proof.
  split.
  - intros w payload st. cbv zeta. unfold submitRefillToBestRX.
    split_task; run_task; (split; [reflexivity|]); (split; [reflexivity|]);
      first [ exists []; split; [reflexivity | left; reflexivity]
            | eexists; split;
              [ rewrite <- app_assoc; reflexivity
              | right; eexists; reflexivity ] ].
  - intros w payload header st. cbv zeta. unfold submitTransferToBestRX.
    split_task; run_task; (split; [reflexivity|]); (split; [reflexivity|]);
      first [ exists []; split; [reflexivity | left; reflexivity]
            | eexists; split;
              [ rewrite <- app_assoc; reflexivity
              | right; eexists; reflexivity ] ].
Qed.

Lemma mapBestRXError_status :
  forall httpStatus,
    mapBestRXError VUndefined httpStatus
    = Normal (VStr (Reference.status_message httpStatus)).
Proof.
  intro httpStatus. apply mapBestRXError_without_code. reflexivity.
Qed.

Lemma status_message_nonempty :
  forall httpStatus, nonempty (Reference.status_message httpStatus) = true.
Proof.
  intro httpStatus. unfold Reference.status_message.
  destruct (status_is httpStatus 400%float); [reflexivity|].
  destruct (status_is httpStatus 403%float); [reflexivity|].
  destruct (status_is httpStatus 500%float); reflexivity.
Qed.

(** The primary calls, path by path. *)
Lemma submitRefillToBestRX_paths :
  forall w payload st,
    let request := refill_request payload in
    let label := str "BestRX Refill Error:" in
    submitRefillToBestRX w payload st
    = match fetch w request with
      | Throw t =>
          (Normal connection_failure, Reference.caught_in st request label t)
      | Normal response =>
          match json response with
          | Throw t =>
              (Normal connection_failure,
               Reference.caught_in st request label t)
          | Normal parsed =>
              if ok response && validateRefillResponse (VJson parsed) then
                (Normal {| success := true;
                           message :=
                             VStr (str "Refill request submitted successfully");
                           data := VJson parsed |},
                 logged st (Fetch request))
              else
                match extractRefillErrorMessage (VJson parsed) with
                | Throw t =>
                    (Normal connection_failure,
                     Reference.caught_in st request label t)
                | Normal found =>
                    (Normal
                       (Reference.failed
                          (or_value found
                             (VStr
                                (if ok response then
                                   str "Unable to process refill request. Please try again."
                                 else
                                   Reference.status_message
                                     (Some (status response)))))),
                     logged st (Fetch request))
                end
          end
      end.
Proof.
  intros w payload st. cbv zeta.
  unfold submitRefillToBestRX, Reference.caught_in, Reference.failed, or_value.
  run_task.
  destruct (fetch w (refill_request payload)) as [response|t]; run_task;
    [|reflexivity].
  destruct (json response) as [parsed|t]; run_task; [|reflexivity].
  destruct (ok response); run_task.
  - destruct (validateRefillResponse (VJson parsed)); run_task; [reflexivity|].
    destruct (extractRefillErrorMessage (VJson parsed)); reflexivity.
  - destruct (extractRefillErrorMessage (VJson parsed)) as [found|t]; run_task;
      [|reflexivity].
    destruct (truthy found); run_task; [reflexivity|].
    rewrite mapBestRXError_status. reflexivity.
Qed.

Lemma submitTransferToBestRX_paths :
  forall w payload header st,
    let request := transfer_request payload header in
    let label := str "BestRX Transfer Error:" in
    submitTransferToBestRX w payload header st
    = match fetch w request with
      | Throw t =>
          (Normal connection_failure, Reference.caught_in st request label t)
      | Normal response =>
          match json response with
          | Throw t =>
              (Normal connection_failure,
               Reference.caught_in st request label t)
          | Normal parsed =>
              if ok response && validateTransferResponse (VJson parsed) then
                (Normal {| success := true;
                           message :=
                             VStr (str "Transfer request submitted successfully");
                           data := VJson parsed |},
                 logged st (Fetch request))
              else
                match extractTransferErrorMessage (VJson parsed) with
                | Throw t =>
                    (Normal connection_failure,
                     Reference.caught_in st request label t)
                | Normal found =>
                    (Normal
                       (Reference.failed
                          (or_value found
                             (VStr
                                (if ok response then
                                   str "Unable to process transfer request. Please try again."
                                 else
                                   Reference.status_message
                                     (Some (status response)))))),
                     logged st (Fetch request))
                end
          end
      end.
Proof.
  intros w payload header st. cbv zeta.
  unfold submitTransferToBestRX, Reference.caught_in, Reference.failed, or_value.
  run_task.
  destruct (fetch w (transfer_request payload header)) as [response|t];
    run_task; [|reflexivity].
  destruct (json response) as [parsed|t]; run_task; [|reflexivity].
  destruct (ok response); run_task.
  - destruct (validateTransferResponse (VJson parsed)); run_task;
      [reflexivity|].
    destruct (extractTransferErrorMessage (VJson parsed)); reflexivity.
  - destruct (extractTransferErrorMessage (VJson parsed)) as [found|t];
      run_task; [|reflexivity].
    destruct (truthy found); run_task; [reflexivity|].
    rewrite mapBestRXError_status. reflexivity.
Qed.

Lemma or_value_truthy :
  forall a b, truthy b = true -> truthy (or_value a b) = true.
Proof.
  intros a b H. unfold or_value. destruct (truthy a) eqn:E; assumption.
Qed.

Lemma fallback_text_nonempty :
  forall (httpOk : bool) (text : JsString) httpStatus,
    nonempty text = true ->
    truthy
      (VStr (if httpOk then text else Reference.status_message httpStatus))
    = true.
Proof.
  intros httpOk text httpStatus H. destruct httpOk; [exact H|].
  apply status_message_nonempty.
Qed.

(** X9.  A primary call always returns a result, never rejects.  The
    message of the result is never empty or otherwise falsy.  A failure
    result has no [data].  A success result comes only from an answer
    that is [response.ok] with a body the validator accepts, and its
    [data] is that body, as [response.json()] gave it. *)
Theorem primary_call_result_shape :
  (forall w payload st,
     exists result,
       fst (submitRefillToBestRX w payload st) = Normal result
       /\ truthy (message result) = true
       /\ (success result = true ->
           exists response parsed,
             fetch w (refill_request payload) = Normal response
             /\ json response = Normal parsed
             /\ ok response = true
             /\ validateRefillResponse (VJson parsed) = true
             /\ data result = VJson parsed)
       /\ (success result = false -> data result = VUndefined))
  /\ (forall w payload header st,
        exists result,
          fst (submitTransferToBestRX w payload header st) = Normal result
          /\ truthy (message result) = true
          /\ (success result = true ->
              exists response parsed,
                fetch w (transfer_request payload header) = Normal response
                /\ json response = Normal parsed
                /\ ok response = true
                /\ validateTransferResponse (VJson parsed) = true
                /\ data result = VJson parsed)
          /\ (success result = false -> data result = VUndefined)).
Proof.
  split.
  - intros w payload st. rewrite submitRefillToBestRX_paths. cbv zeta.
    destruct (fetch w (refill_request payload)) as [response|t] eqn:Hfetch;
      [|eexists; repeat split; try reflexivity; discriminate].
    destruct (json response) as [parsed|t] eqn:Hjson;
      [|eexists; repeat split; try reflexivity; discriminate].
    destruct (ok response && validateRefillResponse (VJson parsed)) eqn:Hvalid.
    + apply andb_true_iff in Hvalid. destruct Hvalid as [Hok Hvalid].
      eexists. split; [reflexivity|]. split; [reflexivity|].
      split; [|discriminate].
      intros _. exists response, parsed.
      split; [reflexivity|]. split; [exact Hjson|]. split; [exact Hok|].
      split; [exact Hvalid | reflexivity].
    + destruct (extractRefillErrorMessage (VJson parsed)) as [found|t];
        [|eexists; repeat split; try reflexivity; discriminate].
      eexists. split; [reflexivity|]. cbn [fst message success data Reference.failed].
      split; [|split; [discriminate | reflexivity]].
      apply or_value_truthy. apply fallback_text_nonempty. reflexivity.
  - intros w payload header st. rewrite submitTransferToBestRX_paths. cbv zeta.
    destruct (fetch w (transfer_request payload header)) as [response|t]
      eqn:Hfetch;
      [|eexists; repeat split; try reflexivity; discriminate].
    destruct (json response) as [parsed|t] eqn:Hjson;
      [|eexists; repeat split; try reflexivity; discriminate].
    destruct (ok response && validateTransferResponse (VJson parsed))
      eqn:Hvalid.
    + apply andb_true_iff in Hvalid. destruct Hvalid as [Hok Hvalid].
      eexists. split; [reflexivity|]. split; [reflexivity|].
      split; [|discriminate].
      intros _. exists response, parsed.
      split; [reflexivity|]. split; [exact Hjson|]. split; [exact Hok|].
      split; [exact Hvalid | reflexivity].
    + destruct (extractTransferErrorMessage (VJson parsed)) as [found|t];
        [|eexists; repeat split; try reflexivity; discriminate].
      eexists. split; [reflexivity|]. cbn [fst message success data Reference.failed].
      split; [|split; [discriminate | reflexivity]].
      apply or_value_truthy. apply fallback_text_nonempty. reflexivity.
Qed.

(** X10.  Every exception inside a primary call ends in the same result,
    "Unable to connect to pharmacy service. Please try again later.",
    with the exception passed to [console.error]: a [fetch] that rejects,
    a body that is not JSON, and also an exception raised while reading
    the error out of a body that did arrive. *)
Theorem primary_call_exception :
  (forall w payload st thrown,
     fetch w (refill_request payload) = Throw thrown
     \/ (exists response,
           fetch w (refill_request payload) = Normal response
           /\ (json response = Throw thrown
               \/ exists parsed,
                    json response = Normal parsed
                    /\ ok response && validateRefillResponse (VJson parsed)
                       = false
                    /\ extractRefillErrorMessage (VJson parsed)
                       = Throw thrown)) ->
     submitRefillToBestRX w payload st
     = (Normal
          {| success := false;
             message :=
               VStr (str "Unable to connect to pharmacy service. Please try again later.");
             data := VUndefined |},
        {| hook_status := hook_status st;
           hook_error := hook_error st;
           events :=
             events st
             ++ [ Fetch (refill_request payload);
                  ConsoleError (str "BestRX Refill Error:") thrown ] |}))
  /\ (forall w payload header st thrown,
        fetch w (transfer_request payload header) = Throw thrown
        \/ (exists response,
              fetch w (transfer_request payload header) = Normal response
              /\ (json response = Throw thrown
                  \/ exists parsed,
                       json response = Normal parsed
                       /\ ok response && validateTransferResponse (VJson parsed)
                          = false
                       /\ extractTransferErrorMessage (VJson parsed)
                          = Throw thrown)) ->
        submitTransferToBestRX w payload header st
        = (Normal
             {| success := false;
                message :=
                  VStr (str "Unable to connect to pharmacy service. Please try again later.");
                data := VUndefined |},
           {| hook_status := hook_status st;
              hook_error := hook_error st;
              events :=
                events st
                ++ [ Fetch (transfer_request payload header);
                     ConsoleError (str "BestRX Transfer Error:") thrown ] |})).
Proof.
  split.
  - intros w payload st thrown H. rewrite submitRefillToBestRX_paths. cbv zeta.
    destruct H as [-> | [response [-> [-> | [parsed [-> [-> ->]]]]]]];
      unfold Reference.caught_in, logged; cbn [events hook_status hook_error];
      rewrite <- app_assoc; reflexivity.
  - intros w payload header st thrown H. rewrite submitTransferToBestRX_paths.
    cbv zeta.
    destruct H as [-> | [response [-> [-> | [parsed [-> [-> ->]]]]]]];
      unfold Reference.caught_in, logged; cbn [events hook_status hook_error];
      rewrite <- app_assoc; reflexivity.
Qed.

(** The theorem in three worlds: the network is down; the refill answer
    names an error code that cannot be turned into a string; the
    transfer answer does. *)
Lemma primary_call_exception_witness :
  fst (submitRefillToBestRX
         (Scenarios.world_of Samples.complete (Throw Scenarios.network_down)
            Samples.audit_throws)
         (buildRefillRequestPayload
            (Samples.refill_form (str "Jane Doe") (str "111") (str "Drug A"))
            (str "PH1") (str "api-key") (str "elevated"))
         initial)
  = Normal connection_failure
  /\ fst (submitRefillToBestRX
            (Scenarios.world_of Samples.complete
               (Scenarios.answer true 200%float
                  (Scenarios.refill_rejected (JObj [ (str "toString", JNull) ])))
               Samples.audit_throws)
            (buildRefillRequestPayload
               (Samples.refill_form (str "Jane Doe") (str "111") (str "Drug A"))
               (str "PH1") (str "api-key") (str "elevated"))
            initial)
     = Normal connection_failure
  /\ fst (submitTransferToBestRX
            (Scenarios.world_of Samples.complete
               (Scenarios.answer false 400%float
                  (JObj [ (str "ErrorCode", JObj [ (str "toString", JNull) ]) ]))
               Samples.audit_throws)
            (buildTransferRequestPayload (str "2025-01-15T10:30:00.000Z")
               Samples.transfer_form (str "PH1"))
            (str "Basic ZWxldmF0ZWQ6c2VjcmV0")
            initial)
     = Normal connection_failure.
Proof.
  split; [|split].
  - erewrite (proj1 primary_call_exception); [reflexivity|].
    left. reflexivity.
  - erewrite (proj1 primary_call_exception); [reflexivity|].
    right. eexists. split; [reflexivity|]. right. eexists.
    split; [reflexivity|]. split; reflexivity.
  - erewrite (proj2 primary_call_exception); [reflexivity|].
    right. eexists. split; [reflexivity|]. right. eexists.
    split; [reflexivity|]. split; reflexivity.
Defined.

(** ** Refill and transfer hooks: every run *)

Ltac close_run :=
  unfold Reference.caught_in, Reference.failed, logged; run_task;
  rewrite <- ?app_assoc; cbn [app];
  do 4 eexists; split; [reflexivity | econstructor].

Lemma refill_submit_run :
  forall w data st,
    let request :=
      refill_request
        (buildRefillRequestPayload data
           (configured (BESTRX_PHARMACY_NUMBER (env w)))
           (configured (BESTRX_API_KEY (env w)))
           (configured (BESTRX_USERNAME (env w)))) in
    exists outcome s e new,
      useRefillFormSubmission.submit w data st
      = (outcome,
         {| hook_status := s; hook_error := e; events := events st ++ new |})
      /\ Reference.hook_run request (useRefillFormSubmission.audit_call data)
           outcome s e new.
Proof.
  intros w data st. cbv zeta.
  destruct (missing (BESTRX_USERNAME (env w)) || missing (BESTRX_API_KEY (env w))
            || missing (BESTRX_PHARMACY_NUMBER (env w))) eqn:Hm.
  - rewrite (refill_submit_not_configured _ _ _ Hm).
    do 4 eexists. rewrite app_nil_r. split; [reflexivity|].
    apply (Reference.run_refused _ _ (ThrownError (str "Error") not_configured)).
  - apply orb_false_iff in Hm. destruct Hm as [Hm Hp].
    apply orb_false_iff in Hm. destruct Hm as [Hu Hk].
    unfold useRefillFormSubmission.submit. run_task.
    rewrite Hu, Hk, Hp. run_task.
    rewrite submitRefillToBestRX_paths. cbv zeta.
    destruct (fetch w _) as [response|t]; [|close_run].
    destruct (json response) as [parsed|t]; [|close_run].
    destruct (ok response && validateRefillResponse (VJson parsed)).
    + run_task.
      destruct (rpc w (useRefillFormSubmission.audit_call data)); close_run.
    + destruct (extractRefillErrorMessage (VJson parsed)) as [found|t];
        [|close_run].
      unfold Reference.failed. run_task.
      destruct (new_Error _); close_run.
Qed.

Lemma transfer_submit_run :
  forall w data st,
    exists request outcome s e new,
      useTransferFormSubmission.submit w data st
      = (outcome,
         {| hook_status := s; hook_error := e; events := events st ++ new |})
      /\ Reference.hook_run request
           (useTransferFormSubmission.audit_call data) outcome s e new.
Proof.
  intros w data st.
  destruct (missing (BESTRX_USERNAME (env w))
            || missing (BESTRX_PASSWORD (env w))
            || missing (BESTRX_PHARMACY_NUMBER (env w))) eqn:Hm.
  - rewrite (transfer_submit_not_configured _ _ _ Hm).
    exists (transfer_request
              (buildTransferRequestPayload (clock w) data []) []).
    do 4 eexists. rewrite app_nil_r. split; [reflexivity|].
    apply (Reference.run_refused _ _ (ThrownError (str "Error") not_configured)).
  - apply orb_false_iff in Hm. destruct Hm as [Hm Hp].
    apply orb_false_iff in Hm. destruct Hm as [Hu Hk].
    unfold useTransferFormSubmission.submit. run_task.
    rewrite Hu, Hk, Hp. run_task.
    destruct (buildBasicAuthHeader _ _) as [header|t].
    2:{ exists (transfer_request
                  (buildTransferRequestPayload (clock w) data []) []).
        run_task. do 4 eexists. rewrite app_nil_r. split; [reflexivity|].
        apply Reference.run_refused. }
    run_task. eexists.
    rewrite submitTransferToBestRX_paths. cbv zeta.
    destruct (fetch w _) as [response|t]; [|close_run].
    destruct (json response) as [parsed|t]; [|close_run].
    destruct (ok response && validateTransferResponse (VJson parsed)).
    + run_task.
      destruct (rpc w (useTransferFormSubmission.audit_call data)); close_run.
    + destruct (extractTransferErrorMessage (VJson parsed)) as [found|t];
        [|close_run].
      unfold Reference.failed. run_task.
      destruct (new_Error _); close_run.
Qed.

(** X11.  A run of the refill or transfer hook never leaves the state at
    "submitting": it resolves exactly in the runs that end with status
    "success" and no error, and it rejects exactly in the runs that end
    with status "error", the error text being the message of the rejection
    ("Submission failed" when what was thrown is not an [Error]). *)
Theorem hook_outcome_matches_state :
  (forall w data st,
     let run := useRefillFormSubmission.submit w data st in
     match fst run with
     | Normal _ =>
         hook_status (snd run) = StatusSuccess /\ hook_error (snd run) = None
     | Throw t =>
         hook_status (snd run) = StatusError
         /\ hook_error (snd run) = Some (message_of t)
     end)
  /\ (forall w data st,
        let run := useTransferFormSubmission.submit w data st in
        match fst run with
        | Normal _ =>
            hook_status (snd run) = StatusSuccess
            /\ hook_error (snd run) = None
        | Throw t =>
            hook_status (snd run) = StatusError
            /\ hook_error (snd run) = Some (message_of t)
        end).
Proof.
  split; intros w data st; cbv zeta.
  - destruct (refill_submit_run w data st) as [outcome [s [e [new [-> H]]]]].
    inversion H; subst; split; reflexivity.
  - destruct (transfer_submit_run w data st)
      as [request [outcome [s [e [new [-> H]]]]]].
    inversion H; subst; split; reflexivity.
Qed.

(** X12.  A run of the refill or transfer hook only adds to the effect
    log.  It makes at most one [fetch]; it makes the Supabase audit call
    exactly once when it resolves and not at all when it rejects; so it
    never makes more than two network calls. *)
Theorem hook_network_calls :
  (forall w data st,
     let run := useRefillFormSubmission.submit w data st in
     exists new,
       events (snd run) = events st ++ new
       /\ List.length (filter Reference.is_fetch new) <= 1
       /\ List.length (filter Reference.is_rpc new)
          = match fst run with Normal _ => 1 | Throw _ => 0 end
       /\ network_calls new <= 2)
  /\ (forall w data st,
        let run := useTransferFormSubmission.submit w data st in
        exists new,
          events (snd run) = events st ++ new
          /\ List.length (filter Reference.is_fetch new) <= 1
          /\ List.length (filter Reference.is_rpc new)
             = match fst run with Normal _ => 1 | Throw _ => 0 end
          /\ network_calls new <= 2).
Proof.
  split; intros w data st; cbv zeta.
  - destruct (refill_submit_run w data st) as [outcome [s [e [new [-> H]]]]].
    exists new. split; [reflexivity|].
    inversion H; subst; cbn; repeat split; lia.
  - destruct (transfer_submit_run w data st)
      as [request [outcome [s [e [new [-> H]]]]]].
    exists new. split; [reflexivity|].
    inversion H; subst; cbn; repeat split; lia.
Qed.

(** ** Refill and transfer hooks: how a failed primary call surfaces *)

Lemma refill_submit_rejects :
  forall w data st text st2,
    missing (BESTRX_USERNAME (env w)) = false ->
    missing (BESTRX_API_KEY (env w)) = false ->
    missing (BESTRX_PHARMACY_NUMBER (env w)) = false ->
    submitRefillToBestRX w
      (buildRefillRequestPayload data
         (configured (BESTRX_PHARMACY_NUMBER (env w)))
         (configured (BESTRX_API_KEY (env w)))
         (configured (BESTRX_USERNAME (env w))))
      {| hook_status := StatusSubmitting; hook_error := None;
         events := events st |}
    = (Normal (Reference.failed (VStr text)), st2) ->
    useRefillFormSubmission.submit w data st
    = (Throw (ThrownError (str "Error") text),
       {| hook_status := StatusError; hook_error := Some text;
          events := events st2 |}).
Proof.
  intros w data st text st2 Hu Hk Hp H.
  unfold useRefillFormSubmission.submit. run_task.
  rewrite Hu, Hk, Hp. run_task. rewrite H. reflexivity.
Qed.

Lemma transfer_submit_rejects :
  forall w data st header text st2,
    missing (BESTRX_USERNAME (env w)) = false ->
    missing (BESTRX_PASSWORD (env w)) = false ->
    missing (BESTRX_PHARMACY_NUMBER (env w)) = false ->
    buildBasicAuthHeader (configured (BESTRX_USERNAME (env w)))
      (configured (BESTRX_PASSWORD (env w))) = Normal header ->
    submitTransferToBestRX w
      (buildTransferRequestPayload (clock w) data
         (configured (BESTRX_PHARMACY_NUMBER (env w))))
      header
      {| hook_status := StatusSubmitting; hook_error := None;
         events := events st |}
    = (Normal (Reference.failed (VStr text)), st2) ->
    useTransferFormSubmission.submit w data st
    = (Throw (ThrownError (str "Error") text),
       {| hook_status := StatusError; hook_error := Some text;
          events := events st2 |}).
Proof.
  intros w data st header text st2 Hu Hk Hp Hh H.
  unfold useTransferFormSubmission.submit. run_task.
  rewrite Hu, Hk, Hp. run_task. rewrite Hh. run_task. rewrite H. reflexivity.
Qed.

(** X13.  When the network fails (the [fetch] rejects, or the body is not
    JSON) the hook rejects with "Unable to connect to pharmacy service.
    Please try again later.", whatever was thrown; the exception goes to
    [console.error], and the audit write is not attempted. *)
Theorem submit_when_network_fails :
  (forall w data st thrown,
     missing (BESTRX_USERNAME (env w)) = false ->
     missing (BESTRX_API_KEY (env w)) = false ->
     missing (BESTRX_PHARMACY_NUMBER (env w)) = false ->
     let request :=
       refill_request
         (buildRefillRequestPayload data
            (configured (BESTRX_PHARMACY_NUMBER (env w)))
            (configured (BESTRX_API_KEY (env w)))
            (configured (BESTRX_USERNAME (env w)))) in
     fetch w request = Throw thrown
     \/ (exists response,
           fetch w request = Normal response /\ json response = Throw thrown) ->
     useRefillFormSubmission.submit w data st
     = (Throw
          (ThrownError (str "Error")
             (str "Unable to connect to pharmacy service. Please try again later.")),
        {| hook_status := StatusError;
           hook_error :=
             Some (str "Unable to connect to pharmacy service. Please try again later.");
           events :=
             events st
             ++ [ Fetch request;
                  ConsoleError (str "BestRX Refill Error:") thrown ] |}))
  /\ (forall w data st header thrown,
        missing (BESTRX_USERNAME (env w)) = false ->
        missing (BESTRX_PASSWORD (env w)) = false ->
        missing (BESTRX_PHARMACY_NUMBER (env w)) = false ->
        buildBasicAuthHeader (configured (BESTRX_USERNAME (env w)))
          (configured (BESTRX_PASSWORD (env w))) = Normal header ->
        let request :=
          transfer_request
            (buildTransferRequestPayload (clock w) data
               (configured (BESTRX_PHARMACY_NUMBER (env w))))
            header in
        fetch w request = Throw thrown
        \/ (exists response,
              fetch w request = Normal response
              /\ json response = Throw thrown) ->
        useTransferFormSubmission.submit w data st
        = (Throw
             (ThrownError (str "Error")
                (str "Unable to connect to pharmacy service. Please try again later.")),
           {| hook_status := StatusError;
              hook_error :=
                Some (str "Unable to connect to pharmacy service. Please try again later.");
              events :=
                events st
                ++ [ Fetch request;
                     ConsoleError (str "BestRX Transfer Error:") thrown ] |})).
Proof.
  split.
  - intros w data st thrown Hu Hk Hp request H. subst request.
    apply refill_submit_rejects with
      (st2 := {| hook_status := StatusSubmitting; hook_error := None;
                 events :=
                   events st
                   ++ [ Fetch
                          (refill_request
                             (buildRefillRequestPayload data
                                (configured (BESTRX_PHARMACY_NUMBER (env w)))
                                (configured (BESTRX_API_KEY (env w)))
                                (configured (BESTRX_USERNAME (env w)))));
                        ConsoleError (str "BestRX Refill Error:") thrown ] |});
      try assumption.
    rewrite submitRefillToBestRX_paths. cbv zeta.
    destruct H as [-> | [response [-> ->]]];
      unfold Reference.caught_in, logged; cbn [events hook_status hook_error];
      rewrite <- app_assoc; reflexivity.
  - intros w data st header thrown Hu Hk Hp Hh request H. subst request.
    apply transfer_submit_rejects with
      (header := header)
      (st2 := {| hook_status := StatusSubmitting; hook_error := None;
                 events :=
                   events st
                   ++ [ Fetch
                          (transfer_request
                             (buildTransferRequestPayload (clock w) data
                                (configured (BESTRX_PHARMACY_NUMBER (env w))))
                             header);
                        ConsoleError (str "BestRX Transfer Error:") thrown ] |});
      try assumption.
    rewrite submitTransferToBestRX_paths. cbv zeta.
    destruct H as [-> | [response [-> ->]]];
      unfold Reference.caught_in, logged; cbn [events hook_status hook_error];
      rewrite <- app_assoc; reflexivity.
Qed.

(** The theorem with the network down, for a refill and for a
    transfer. *)
Lemma submit_when_network_fails_witness :
  fst (useRefillFormSubmission.submit
         (Scenarios.world_of Samples.complete (Throw Scenarios.network_down)
            (Scenarios.saved (str "42")))
         (Samples.refill_form (str "Jane Doe") (str "111") (str "Drug A"))
         initial)
  = Throw
      (ThrownError (str "Error")
         (str "Unable to connect to pharmacy service. Please try again later."))
  /\ fst (useTransferFormSubmission.submit
            (Scenarios.world_of Samples.complete (Throw Scenarios.network_down)
               (Scenarios.saved (str "42")))
            Samples.transfer_form initial)
     = Throw
         (ThrownError (str "Error")
            (str "Unable to connect to pharmacy service. Please try again later.")).
Proof.
  split.
  - erewrite (proj1 submit_when_network_fails);
      [reflexivity | reflexivity | reflexivity | reflexivity |].
    left. reflexivity.
  - erewrite (proj2 submit_when_network_fails);
      [reflexivity | reflexivity | reflexivity | reflexivity | reflexivity |].
    left. reflexivity.
Defined.

(** ** The refill extractor: which entry speaks *)

Lemma entry_reports_failure : forall rx,
  string_eqb (typeof (VJson rx)) (str "object") && negb (is_null (VJson rx))
  && negb (strict_equals_string (get_field (VJson rx) F_Status) (str "OK"))
  = Reference.reports_failure rx.
Proof.
  intro rx. destruct rx as [|b|x|s|items|entry]; try reflexivity.
  rewrite get_field_plain. change (field_name F_Status) with (str "Status").
  unfold Reference.reports_failure.
  destruct (lookup (str "Status") entry) as [j|]; [|reflexivity].
  destruct j; reflexivity.
Qed.

Lemma find_failing_entry :
  forall before rx after,
    forallb (fun e => negb (Reference.reports_failure e)) before = true ->
    Reference.reports_failure rx = true ->
    find
      (fun rx =>
         string_eqb (typeof rx) (str "object") && negb (is_null rx)
         && negb (strict_equals_string (get_field rx F_Status) (str "OK")))
      (map VJson (before ++ rx :: after))
    = Some (VJson rx).
Proof.
  intros before rx after Hbefore Hrx.
  induction before as [|e before IH]; cbn [app map find].
  - rewrite entry_reports_failure, Hrx. reflexivity.
  - cbn [forallb] in Hbefore. apply andb_true_iff in Hbefore.
    destruct Hbefore as [He Hbefore]. apply negb_true_iff in He.
    rewrite entry_reports_failure, He. apply IH. exact Hbefore.
Qed.

Lemma find_no_failing_entry :
  forall items,
    forallb (fun e => negb (Reference.reports_failure e)) items = true ->
    find
      (fun rx =>
         string_eqb (typeof rx) (str "object") && negb (is_null rx)
         && negb (strict_equals_string (get_field rx F_Status) (str "OK")))
      (map VJson items)
    = None.
Proof.
  intros items H. induction items as [|e items IH]; [reflexivity|].
  cbn [forallb] in H. apply andb_true_iff in H. destruct H as [He H].
  apply negb_true_iff in He. cbn [map find].
  rewrite entry_reports_failure, He. apply IH. exact H.
Qed.

Lemma extractRefillErrorMessage_at :
  forall props before rx after,
    lookup (str "RxInRefillResponse") props
    = Some (JArr (before ++ rx :: after)) ->
    forallb (fun e => negb (Reference.reports_failure e)) before = true ->
    Reference.reports_failure rx = true ->
    extractRefillErrorMessage (VJson (JObj props))
    = let errorCode := get_field (VJson rx) F_ErrorCode in
      let errorMessage := get_field (VJson rx) F_ErrorMessage in
      if truthy errorCode then
        code <- ToString errorCode ;; mapBestRXError (VStr code) None
      else if truthy errorMessage then
        text <- ToString errorMessage ;; Normal (VStr text)
      else Normal VNull.
Proof.
  intros props before rx after Hprops Hbefore Hrx.
  unfold extractRefillErrorMessage.
  rewrite not_an_object_plain, get_field_plain.
  change (field_name F_RxInRefillResponse) with (str "RxInRefillResponse").
  rewrite Hprops. cbn [isArray array_items andb].
  rewrite length_map, length_app. cbn [List.length].
  replace (0 <? List.length before + S (List.length after))%nat with true
    by (symmetry; apply Nat.ltb_lt; lia).
  rewrite (find_failing_entry _ _ _ Hbefore Hrx).
  destruct rx as [|b|x|s|items|entry]; try discriminate Hrx; reflexivity.
Qed.

Lemma extractRefillErrorMessage_nothing :
  forall props,
    (forall items,
       lookup (str "RxInRefillResponse") props = Some (JArr items) ->
       forallb (fun e => negb (Reference.reports_failure e)) items = true) ->
    extractRefillErrorMessage (VJson (JObj props)) = Normal VNull.
Proof.
  intros props H. unfold extractRefillErrorMessage.
  rewrite not_an_object_plain, get_field_plain.
  change (field_name F_RxInRefillResponse) with (str "RxInRefillResponse").
  destruct (lookup (str "RxInRefillResponse") props) as [j|]; [|reflexivity].
  destruct j as [|b|x|s|items|entry]; try reflexivity.
  specialize (H items eq_refl). cbn [isArray array_items andb].
  destruct (0 <? List.length (map VJson items))%nat; [|reflexivity].
  rewrite (find_no_failing_entry _ H). reflexivity.
Qed.

(** X14.  [extractRefillErrorMessage] reads the first entry of
    [RxInRefillResponse] that is an object whose [Status] is not ["OK"],
    and nothing else: what comes before it (entries that went through,
    and entries that are no objects), what comes after it, and the other
    fields of the response make no difference.  With no such entry, or
    with no array under that name, there is nothing to report. *)
Theorem extractRefillErrorMessage_first_failure :
  (forall props before rx after,
     lookup (str "RxInRefillResponse") props
     = Some (JArr (before ++ rx :: after)) ->
     forallb (fun e => negb (Reference.reports_failure e)) before = true ->
     Reference.reports_failure rx = true ->
     extractRefillErrorMessage (VJson (JObj props))
     = extractRefillErrorMessage
         (VJson (JObj [ (str "RxInRefillResponse", JArr [rx]) ])))
  /\ (forall props,
        (forall items,
           lookup (str "RxInRefillResponse") props = Some (JArr items) ->
           forallb (fun e => negb (Reference.reports_failure e)) items = true) ->
        extractRefillErrorMessage (VJson (JObj props)) = Normal VNull).
Proof.
  split.
  - intros props before rx after Hprops Hbefore Hrx.
    rewrite (extractRefillErrorMessage_at props before rx after Hprops Hbefore Hrx).
    rewrite (extractRefillErrorMessage_at
               [ (str "RxInRefillResponse", JArr [rx]) ] [] rx []
               eq_refl eq_refl Hrx).
    reflexivity.
  - exact extractRefillErrorMessage_nothing.
Qed.

(** The theorem at an answer of four entries: one that went through, a
    number, one that failed with [ERROR0027] and one that failed with
    [ERROR0080]. *)
Lemma extractRefillErrorMessage_first_failure_witness :
  extractRefillErrorMessage
    (VJson
       (JObj
          [ (str "RequestId", JStr (str "r-1"));
            (str "RxInRefillResponse",
             JArr
               [ JObj [ (str "RxNumber", JStr (str "111"));
                        (str "Status", JStr (str "OK")) ];
                 JNum 5%float;
                 JObj [ (str "RxNumber", JStr (str "222"));
                        (str "Status", JStr (str "ERROR"));
                        (str "ErrorCode", JStr (str "ERROR0027")) ];
                 JObj [ (str "RxNumber", JStr (str "333"));
                        (str "Status", JStr (str "ERROR"));
                        (str "ErrorCode", JStr (str "ERROR0080")) ] ]) ]))
  = Normal
      (VStr (str "Prescription not found. Please verify the prescription number.")).
Proof.
  rewrite (proj1 extractRefillErrorMessage_first_failure
             [ (str "RequestId", JStr (str "r-1"));
               (str "RxInRefillResponse",
                JArr
                  [ JObj [ (str "RxNumber", JStr (str "111"));
                           (str "Status", JStr (str "OK")) ];
                    JNum 5%float;
                    JObj [ (str "RxNumber", JStr (str "222"));
                           (str "Status", JStr (str "ERROR"));
                           (str "ErrorCode", JStr (str "ERROR0027")) ];
                    JObj [ (str "RxNumber", JStr (str "333"));
                           (str "Status", JStr (str "ERROR"));
                           (str "ErrorCode", JStr (str "ERROR0080")) ] ]) ]
             [ JObj [ (str "RxNumber", JStr (str "111"));
                      (str "Status", JStr (str "OK")) ];
               JNum 5%float ]
             (JObj [ (str "RxNumber", JStr (str "222"));
                     (str "Status", JStr (str "ERROR"));
                     (str "ErrorCode", JStr (str "ERROR0027")) ])
             [ JObj [ (str "RxNumber", JStr (str "333"));
                      (str "Status", JStr (str "ERROR"));
                      (str "ErrorCode", JStr (str "ERROR0080")) ] ]
             eq_refl eq_refl eq_refl).
  reflexivity.
Defined.

(** ** From the answer of the pharmacy system to what the user is told *)

Lemma mapBestRXError_known :
  forall code httpStatus text,
    lookup code BESTRX_ERROR_CODES = Some text ->
    mapBestRXError (VStr code) httpStatus = Normal (VStr text)
    /\ truthy (VStr text) = true.
Proof.
  intros code httpStatus text H.
  destruct (table_entry _ _ H) as [Hcode Htext].
  rewrite (mapBestRXError_of_string _ _ Hcode).
  unfold literal_get. rewrite H. unfold or_value, VStr. cbn [truthy].
  rewrite Htext. split; reflexivity.
Qed.

Lemma extractRefillErrorMessage_known :
  forall props before entry after code text,
    lookup (str "RxInRefillResponse") props
    = Some (JArr (before ++ JObj entry :: after)) ->
    forallb (fun e => negb (Reference.reports_failure e)) before = true ->
    Reference.reports_failure (JObj entry) = true ->
    lookup (str "ErrorCode") entry = Some (JStr code) ->
    lookup code BESTRX_ERROR_CODES = Some text ->
    extractRefillErrorMessage (VJson (JObj props)) = Normal (VStr text).
Proof.
  intros props before entry after code text Hprops Hbefore Hentry Hcode Htext.
  rewrite (extractRefillErrorMessage_at _ _ _ _ Hprops Hbefore Hentry).
  cbv zeta. rewrite !get_field_plain.
  change (field_name F_ErrorCode) with (str "ErrorCode"). rewrite Hcode.
  destruct (table_entry _ _ Htext) as [Hnonempty _].
  cbn [truthy]. rewrite Hnonempty. cbn [ToString json_ToString bind].
  apply (mapBestRXError_known _ None _ Htext).
Qed.

Lemma extractTransferErrorMessage_known :
  forall props code text,
    lookup (str "ErrorCode") props = Some (JStr code) ->
    lookup code BESTRX_ERROR_CODES = Some text ->
    extractTransferErrorMessage (VJson (JObj props)) = Normal (VStr text).
Proof.
  intros props code text Hcode Htext. unfold extractTransferErrorMessage.
  rewrite not_an_object_plain, !get_field_plain.
  change (field_name F_ErrorCode) with (str "ErrorCode"). rewrite Hcode.
  destruct (table_entry _ _ Htext) as [Hnonempty _].
  cbn [truthy]. rewrite Hnonempty.
  apply (mapBestRXError_known _ None _ Htext).
Qed.

(** X15.  An answer that names an error code of the table reaches the
    user as the table's message: the hook rejects with an [Error] of that
    message and keeps it as its error state, after the one [fetch] and
    without an audit write.  For a refill the code is that of the first
    failed entry, and the answer must be a failure as a whole (not
    [response.ok], or no entry that went through); for a transfer it is the
    code of the answer itself. *)
Theorem known_error_code_reaches_user :
  (forall w data st response props before entry after code text,
     missing (BESTRX_USERNAME (env w)) = false ->
     missing (BESTRX_API_KEY (env w)) = false ->
     missing (BESTRX_PHARMACY_NUMBER (env w)) = false ->
     let request :=
       refill_request
         (buildRefillRequestPayload data
            (configured (BESTRX_PHARMACY_NUMBER (env w)))
            (configured (BESTRX_API_KEY (env w)))
            (configured (BESTRX_USERNAME (env w)))) in
     fetch w request = Normal response ->
     json response = Normal (JObj props) ->
     ok response && validateRefillResponse (VJson (JObj props)) = false ->
     lookup (str "RxInRefillResponse") props
     = Some (JArr (before ++ JObj entry :: after)) ->
     forallb (fun e => negb (Reference.reports_failure e)) before = true ->
     Reference.reports_failure (JObj entry) = true ->
     lookup (str "ErrorCode") entry = Some (JStr code) ->
     lookup code BESTRX_ERROR_CODES = Some text ->
     useRefillFormSubmission.submit w data st
     = (Throw (ThrownError (str "Error") text),
        {| hook_status := StatusError;
           hook_error := Some text;
           events := events st ++ [ Fetch request ] |}))
  /\ (forall w data st header response props code text,
        missing (BESTRX_USERNAME (env w)) = false ->
        missing (BESTRX_PASSWORD (env w)) = false ->
        missing (BESTRX_PHARMACY_NUMBER (env w)) = false ->
        buildBasicAuthHeader (configured (BESTRX_USERNAME (env w)))
          (configured (BESTRX_PASSWORD (env w))) = Normal header ->
        let request :=
          transfer_request
            (buildTransferRequestPayload (clock w) data
               (configured (BESTRX_PHARMACY_NUMBER (env w))))
            header in
        fetch w request = Normal response ->
        json response = Normal (JObj props) ->
        ok response && validateTransferResponse (VJson (JObj props)) = false ->
        lookup (str "ErrorCode") props = Some (JStr code) ->
        lookup code BESTRX_ERROR_CODES = Some text ->
        useTransferFormSubmission.submit w data st
        = (Throw (ThrownError (str "Error") text),
           {| hook_status := StatusError;
              hook_error := Some text;
              events := events st ++ [ Fetch request ] |})).
Proof.
  split.
  - intros w data st response props before entry after code text Hu Hk Hp
      request Hfetch Hjson Hfailed Hprops Hbefore Hentry Hcode Htext.
    subst request.
    apply refill_submit_rejects with
      (st2 := logged {| hook_status := StatusSubmitting; hook_error := None;
                        events := events st |}
                (Fetch
                   (refill_request
                      (buildRefillRequestPayload data
                         (configured (BESTRX_PHARMACY_NUMBER (env w)))
                         (configured (BESTRX_API_KEY (env w)))
                         (configured (BESTRX_USERNAME (env w)))))));
      try assumption.
    rewrite submitRefillToBestRX_paths. cbv zeta.
    rewrite Hfetch, Hjson, Hfailed.
    rewrite (extractRefillErrorMessage_known _ _ _ _ _ _
               Hprops Hbefore Hentry Hcode Htext).
    unfold or_value.
    rewrite (proj2 (mapBestRXError_known _ None _ Htext)). reflexivity.
  - intros w data st header response props code text Hu Hk Hp Hheader
      request Hfetch Hjson Hfailed Hcode Htext.
    subst request.
    apply transfer_submit_rejects with
      (header := header)
      (st2 := logged {| hook_status := StatusSubmitting; hook_error := None;
                        events := events st |}
                (Fetch
                   (transfer_request
                      (buildTransferRequestPayload (clock w) data
                         (configured (BESTRX_PHARMACY_NUMBER (env w))))
                      header)));
      try assumption.
    rewrite submitTransferToBestRX_paths. cbv zeta.
    rewrite Hfetch, Hjson, Hfailed.
    rewrite (extractTransferErrorMessage_known _ _ _ Hcode Htext).
    unfold or_value.
    rewrite (proj2 (mapBestRXError_known _ None _ Htext)). reflexivity.
Qed.

(** The theorem at a refill answered with [ERROR0027] and a transfer
    answered with [ERROR0069], both with status 400. *)
Lemma known_error_code_reaches_user_witness :
  fst (useRefillFormSubmission.submit
         (Scenarios.world_of Samples.complete
            (Scenarios.answer false 400%float
               (Scenarios.refill_rejected (JStr (str "ERROR0027"))))
            (Scenarios.saved (str "42")))
         (Samples.refill_form (str "Jane Doe") (str "111") (str "Drug A"))
         initial)
  = Throw
      (ThrownError (str "Error")
         (str "Prescription not found. Please verify the prescription number."))
  /\ fst (useTransferFormSubmission.submit
            (Scenarios.world_of Samples.complete
               (Scenarios.answer false 400%float
                  (Scenarios.transfer_rejected (str "ERROR0069")))
               (Scenarios.saved (str "42")))
            Samples.transfer_form initial)
     = Throw
         (ThrownError (str "Error")
            (str "Prescription cannot be transferred. Please contact the pharmacy.")).
Proof.
  split.
  - erewrite (proj1 known_error_code_reaches_user) with
      (before := []) (after := []) (code := str "ERROR0027");
      reflexivity.
  - erewrite (proj2 known_error_code_reaches_user) with
      (code := str "ERROR0069");
      reflexivity.
Defined.

(** X16.  When a refill answer is a failure and carries nothing to report
    (the extractor returns [null] or an empty string), the user is told:
    for an answer that is [response.ok], "Unable to process refill
    request. Please try again."; otherwise the message of the HTTP status,
    400, 403 or 500, and the generic message for any other status. *)
Theorem refill_failure_without_report :
  forall w data st response parsed found,
    missing (BESTRX_USERNAME (env w)) = false ->
    missing (BESTRX_API_KEY (env w)) = false ->
    missing (BESTRX_PHARMACY_NUMBER (env w)) = false ->
    let request :=
      refill_request
        (buildRefillRequestPayload data
           (configured (BESTRX_PHARMACY_NUMBER (env w)))
           (configured (BESTRX_API_KEY (env w)))
           (configured (BESTRX_USERNAME (env w)))) in
    let text :=
      if ok response then
        str "Unable to process refill request. Please try again."
      else if number_equals (status response) 400%float then
        str "Invalid request. Please check your information and try again."
      else if number_equals (status response) 403%float then
        str "Authentication failed. Please contact support."
      else if number_equals (status response) 500%float then
        str "Service temporarily unavailable. Please try again later."
      else str "An error occurred while processing your request. Please try again." in
    fetch w request = Normal response ->
    json response = Normal parsed ->
    ok response && validateRefillResponse (VJson parsed) = false ->
    extractRefillErrorMessage (VJson parsed) = Normal found ->
    truthy found = false ->
    useRefillFormSubmission.submit w data st
    = (Throw (ThrownError (str "Error") text),
       {| hook_status := StatusError;
          hook_error := Some text;
          events := events st ++ [ Fetch request ] |}).
Proof.
  intros w data st response parsed found Hu Hk Hp request text
    Hfetch Hjson Hfailed Hfound Hfalsy.
  subst request text.
  apply refill_submit_rejects with
    (st2 := logged {| hook_status := StatusSubmitting; hook_error := None;
                      events := events st |}
              (Fetch
                 (refill_request
                    (buildRefillRequestPayload data
                       (configured (BESTRX_PHARMACY_NUMBER (env w)))
                       (configured (BESTRX_API_KEY (env w)))
                       (configured (BESTRX_USERNAME (env w)))))));
    try assumption.
  rewrite submitRefillToBestRX_paths. cbv zeta.
  rewrite Hfetch, Hjson, Hfailed, Hfound. unfold or_value. rewrite Hfalsy.
  reflexivity.
Qed.

(** The theorem at the answer [{}] with status 403, and at an answer with
    status 200 whose only entry failed and says nothing. *)
Lemma refill_failure_without_report_witness :
  fst (useRefillFormSubmission.submit
         (Scenarios.world_of Samples.complete
            (Scenarios.answer false 403%float (JObj []))
            (Scenarios.saved (str "42")))
         (Samples.refill_form (str "Jane Doe") (str "111") (str "Drug A"))
         initial)
  = Throw
      (ThrownError (str "Error")
         (str "Authentication failed. Please contact support."))
  /\ fst (useRefillFormSubmission.submit
            (Scenarios.world_of Samples.complete
               (Scenarios.answer true 200%float
                  (Scenarios.refill_rejected JNull))
               (Scenarios.saved (str "42")))
            (Samples.refill_form (str "Jane Doe") (str "111") (str "Drug A"))
            initial)
     = Throw
         (ThrownError (str "Error")
            (str "Unable to process refill request. Please try again.")).
Proof.
  split.
  - rewrite refill_failure_without_report with
      (response := {| ok := false; status := 403%float;
                      json := Normal (JObj []) |})
      (parsed := JObj []) (found := VNull);
      reflexivity.
  - rewrite refill_failure_without_report with
      (response := {| ok := true; status := 200%float;
                      json := Normal (Scenarios.refill_rejected JNull) |})
      (parsed := Scenarios.refill_rejected JNull) (found := VNull);
      reflexivity.
Defined.

(** X17.  A transfer with credentials that [btoa] cannot encode (a code
    unit above 255 in the user name or the password) is rejected with the
    exception of [btoa], before any network call: nothing is fetched and
    nothing is written to the audit table. *)
Theorem transfer_with_unencodable_credentials :
  forall w data st,
    missing (BESTRX_USERNAME (env w)) = false ->
    missing (BESTRX_PASSWORD (env w)) = false ->
    missing (BESTRX_PHARMACY_NUMBER (env w)) = false ->
    ~ Reference.latin1
        (configured (BESTRX_USERNAME (env w))
         ++ colon :: configured (BESTRX_PASSWORD (env w))) ->
    exists thrown,
      buildBasicAuthHeader (configured (BESTRX_USERNAME (env w)))
        (configured (BESTRX_PASSWORD (env w))) = Throw thrown
      /\ useTransferFormSubmission.submit w data st
         = (Throw thrown,
            {| hook_status := StatusError;
               hook_error := Some (message_of thrown);
               events := events st |}).
Proof.
  intros w data st Hu Hk Hp Hlatin.
  assert (Hheader :
            buildBasicAuthHeader (configured (BESTRX_USERNAME (env w)))
              (configured (BESTRX_PASSWORD (env w)))
            = Throw invalid_character).
  { unfold buildBasicAuthHeader, btoa.
    destruct (forallb (fun c => (c <? 256)%N)
                (configured (BESTRX_USERNAME (env w))
                 ++ colon :: configured (BESTRX_PASSWORD (env w)))) eqn:E;
      [|reflexivity].
    apply latin1_forallb in E. contradiction. }
  exists invalid_character. split; [exact Hheader|].
  unfold useTransferFormSubmission.submit. run_task.
  rewrite Hu, Hk, Hp. run_task. rewrite Hheader. reflexivity.
Qed.

(** The theorem at a password that holds the euro sign. *)
Lemma transfer_with_unencodable_credentials_witness :
  exists thrown,
    buildBasicAuthHeader (str "elevated") (str "secret" ++ [8364%N])
    = Throw thrown
    /\ useTransferFormSubmission.submit
         (Scenarios.world_of Scenarios.euro_password
            (Scenarios.answer true 200%float Samples.transfer_accepted)
            (Scenarios.saved (str "42")))
         Samples.transfer_form initial
       = (Throw thrown,
          {| hook_status := StatusError;
             hook_error := Some (message_of thrown);
             events := [] |}).
Proof.
  apply (transfer_with_unencodable_credentials
           (Scenarios.world_of Scenarios.euro_password
              (Scenarios.answer true 200%float Samples.transfer_accepted)
              (Scenarios.saved (str "42")))
           Samples.transfer_form initial);
    try reflexivity.
  intro H. apply latin1_forallb in H. discriminate H.
Defined.

(** ** Contact, waitlist and sign-up hooks *)

Ltac form_run w data :=
  run_task;
  match goal with
  | |- context [rpc w ?call] =>
      destruct (rpc w call) as [result|t]; run_task; [|reflexivity];
      destruct (truthy (rpc_error result)); run_task; [|reflexivity];
      destruct (new_Error (FormHooks.error_message (rpc_error result)));
      reflexivity
  end.

Lemma contact_submit_run :
  forall w data st,
    let call := FormHooks.useContactFormSubmission.call data in
    let rejected t :=
      (Throw t,
       {| hook_status := StatusError; hook_error := Some (message_of t);
          events := events st ++ [ Rpc call ] |}) in
    FormHooks.useContactFormSubmission.submit w data st
    = match rpc w call with
      | Throw t => rejected t
      | Normal result =>
          if truthy (rpc_error result) then
            match new_Error (FormHooks.error_message (rpc_error result)) with
            | Normal err => rejected err
            | Throw t => rejected t
            end
          else
            (Normal (rpc_data result),
             {| hook_status := StatusSuccess; hook_error := None;
                events := events st ++ [ Rpc call ] |})
      end.
Proof.
  intros w data st. cbv zeta.
  unfold FormHooks.useContactFormSubmission.submit. form_run w data.
Qed.

Lemma waitlist_submit_run :
  forall w data st,
    let call := FormHooks.useWaitlistFormSubmission.call data in
    let rejected t :=
      (Throw t,
       {| hook_status := StatusError; hook_error := Some (message_of t);
          events := events st ++ [ Rpc call ] |}) in
    FormHooks.useWaitlistFormSubmission.submit w data st
    = match rpc w call with
      | Throw t => rejected t
      | Normal result =>
          if truthy (rpc_error result) then
            match new_Error (FormHooks.error_message (rpc_error result)) with
            | Normal err => rejected err
            | Throw t => rejected t
            end
          else
            (Normal (rpc_data result),
             {| hook_status := StatusSuccess; hook_error := None;
                events := events st ++ [ Rpc call ] |})
      end.
Proof.
  intros w data st. cbv zeta.
  unfold FormHooks.useWaitlistFormSubmission.submit. form_run w data.
Qed.

Lemma splash_submit_run :
  forall w data st,
    let call := FormHooks.useSplashModalFormSubmission.call data in
    let rejected t :=
      (Throw t,
       {| hook_status := StatusError; hook_error := Some (message_of t);
          events := events st ++ [ Rpc call ] |}) in
    FormHooks.useSplashModalFormSubmission.submit w data st
    = match rpc w call with
      | Throw t => rejected t
      | Normal result =>
          if truthy (rpc_error result) then
            match new_Error (FormHooks.error_message (rpc_error result)) with
            | Normal err => rejected err
            | Throw t => rejected t
            end
          else
            (Normal (rpc_data result),
             {| hook_status := StatusSuccess; hook_error := None;
                events := events st ++ [ Rpc call ] |})
      end.
Proof.
  intros w data st. cbv zeta.
  unfold FormHooks.useSplashModalFormSubmission.submit. form_run w data.
Qed.

Ltac form_outcome :=
  match goal with
  | |- context [rpc ?w ?call] =>
      destruct (rpc w call) as [result|t] eqn:Hrpc;
      [ destruct (truthy (rpc_error result)) eqn:Herror;
        [ destruct (new_Error (FormHooks.error_message (rpc_error result)));
          (cbn [fst snd hook_status hook_error events];
           (split; [reflexivity|]); (split; [reflexivity|]);
           (split; [reflexivity|]);
           right; exists result; (split; [reflexivity | exact Herror]))
        | cbn [fst snd hook_status hook_error events];
          (split; [reflexivity|]); (split; [reflexivity|]);
          (split; [reflexivity|]);
          exists result; (split; [reflexivity|]);
          (split; [reflexivity | exact Herror]) ]
      | cbn [fst snd hook_status hook_error events];
        (split; [reflexivity|]); (split; [reflexivity|]);
        (split; [reflexivity|]); left; reflexivity ]
  end.

(** X18.  The contact, waitlist and sign-up hooks make exactly one
    network call in every run, the Supabase call of their form.  A run
    resolves exactly when that call settles with a falsy [error]; it then
    yields the [data] of the call and ends with status "success" and no
    error.  In every other run (the call throws, or settles with an error)
    the hook rejects, ends with status "error", and keeps the message of
    the rejection as its error. *)
Theorem form_hook_outcome :
  (forall w data st,
     let run := FormHooks.useContactFormSubmission.submit w data st in
     let call := FormHooks.useContactFormSubmission.call data in
     events (snd run) = events st ++ [ Rpc call ]
     /\ match fst run with
        | Normal v =>
            hook_status (snd run) = StatusSuccess
            /\ hook_error (snd run) = None
            /\ exists result,
                 rpc w call = Normal result
                 /\ v = rpc_data result
                 /\ truthy (rpc_error result) = false
        | Throw t =>
            hook_status (snd run) = StatusError
            /\ hook_error (snd run) = Some (message_of t)
            /\ (rpc w call = Throw t
                \/ exists result,
                     rpc w call = Normal result
                     /\ truthy (rpc_error result) = true)
        end)
  /\ (forall w data st,
        let run := FormHooks.useWaitlistFormSubmission.submit w data st in
        let call := FormHooks.useWaitlistFormSubmission.call data in
        events (snd run) = events st ++ [ Rpc call ]
        /\ match fst run with
           | Normal v =>
               hook_status (snd run) = StatusSuccess
               /\ hook_error (snd run) = None
               /\ exists result,
                    rpc w call = Normal result
                    /\ v = rpc_data result
                    /\ truthy (rpc_error result) = false
           | Throw t =>
               hook_status (snd run) = StatusError
               /\ hook_error (snd run) = Some (message_of t)
               /\ (rpc w call = Throw t
                   \/ exists result,
                        rpc w call = Normal result
                        /\ truthy (rpc_error result) = true)
           end)
  /\ (forall w data st,
        let run := FormHooks.useSplashModalFormSubmission.submit w data st in
        let call := FormHooks.useSplashModalFormSubmission.call data in
        events (snd run) = events st ++ [ Rpc call ]
        /\ match fst run with
           | Normal v =>
               hook_status (snd run) = StatusSuccess
               /\ hook_error (snd run) = None
               /\ exists result,
                    rpc w call = Normal result
                    /\ v = rpc_data result
                    /\ truthy (rpc_error result) = false
           | Throw t =>
               hook_status (snd run) = StatusError
               /\ hook_error (snd run) = Some (message_of t)
               /\ (rpc w call = Throw t
                   \/ exists result,
                        rpc w call = Normal result
                        /\ truthy (rpc_error result) = true)
           end).
Proof.
  split; [|split]; intros w data st; cbv zeta.
  - rewrite contact_submit_run. cbv zeta. form_outcome.
  - rewrite waitlist_submit_run. cbv zeta. form_outcome.
  - rewrite splash_submit_run. cbv zeta. form_outcome.
Qed.

Lemma new_Error_of_database_error :
  forall props text,
    lookup (str "message") props = Some (JStr text)
    \/ (lookup (str "message") props = None /\ text = []) ->
    truthy (VJson (JObj props)) = true
    /\ new_Error (FormHooks.error_message (VJson (JObj props)))
       = Normal (ThrownError (str "Error") text).
Proof.
  intros props text H. split; [reflexivity|].
  unfold FormHooks.error_message.
  destruct H as [-> | [-> ->]]; reflexivity.
Qed.

(** X19.  When the Supabase call of the contact, waitlist or sign-up form
    settles with an error object, the hook rejects with an [Error] that
    carries the [message] of that object, and keeps the same text as its
    error state; whatever [data] came with the error is dropped.  An
    error object without a [message] gives an [Error] with the empty
    message, and the empty string as error state. *)
Theorem form_hook_database_error :
  (forall w data st result props text,
     rpc w (FormHooks.useContactFormSubmission.call data) = Normal result ->
     rpc_error result = VJson (JObj props) ->
     lookup (str "message") props = Some (JStr text)
     \/ (lookup (str "message") props = None /\ text = []) ->
     FormHooks.useContactFormSubmission.submit w data st
     = (Throw (ThrownError (str "Error") text),
        {| hook_status := StatusError;
           hook_error := Some text;
           events :=
             events st
             ++ [ Rpc (FormHooks.useContactFormSubmission.call data) ] |}))
  /\ (forall w data st result props text,
        rpc w (FormHooks.useWaitlistFormSubmission.call data) = Normal result ->
        rpc_error result = VJson (JObj props) ->
        lookup (str "message") props = Some (JStr text)
        \/ (lookup (str "message") props = None /\ text = []) ->
        FormHooks.useWaitlistFormSubmission.submit w data st
        = (Throw (ThrownError (str "Error") text),
           {| hook_status := StatusError;
              hook_error := Some text;
              events :=
                events st
                ++ [ Rpc (FormHooks.useWaitlistFormSubmission.call data) ] |}))
  /\ (forall w data st result props text,
        rpc w (FormHooks.useSplashModalFormSubmission.call data)
        = Normal result ->
        rpc_error result = VJson (JObj props) ->
        lookup (str "message") props = Some (JStr text)
        \/ (lookup (str "message") props = None /\ text = []) ->
        FormHooks.useSplashModalFormSubmission.submit w data st
        = (Throw (ThrownError (str "Error") text),
           {| hook_status := StatusError;
              hook_error := Some text;
              events :=
                events st
                ++ [ Rpc (FormHooks.useSplashModalFormSubmission.call data) ] |})).
Proof.
  split; [|split]; intros w data st result props text Hrpc Herror Hmessage;
    destruct (new_Error_of_database_error props text Hmessage)
      as [Htruthy Hnew].
  - rewrite contact_submit_run. cbv zeta.
    rewrite Hrpc, Herror, Htruthy, Hnew. reflexivity.
  - rewrite waitlist_submit_run. cbv zeta.
    rewrite Hrpc, Herror, Htruthy, Hnew. reflexivity.
  - rewrite splash_submit_run. cbv zeta.
    rewrite Hrpc, Herror, Htruthy, Hnew. reflexivity.
Qed.

(** The theorem at a contact form refused by the database with a
    message, and at a sign-up refused with an error object that has
    none. *)
Lemma form_hook_database_error_witness :
  fst (FormHooks.useContactFormSubmission.submit
         (Scenarios.world_of Samples.complete (Throw Scenarios.network_down)
            (Scenarios.refused (str "permission denied")))
         {| FormHooks.useContactFormSubmission.name := str "Jane Doe";
            FormHooks.useContactFormSubmission.phone := str "555-0100";
            FormHooks.useContactFormSubmission.email := str "jane@example.org";
            FormHooks.useContactFormSubmission.reason := str "general";
            FormHooks.useContactFormSubmission.message := str "Hello";
            FormHooks.useContactFormSubmission.consent := true |}
         initial)
  = Throw (ThrownError (str "Error") (str "permission denied"))
  /\ snd (FormHooks.useSplashModalFormSubmission.submit
            (Scenarios.world_of Samples.complete (Throw Scenarios.network_down)
               (Normal {| rpc_data := VStr (str "7");
                          rpc_error :=
                            VJson (JObj [ (str "code", JStr (str "23505")) ]) |}))
            {| FormHooks.useSplashModalFormSubmission.email :=
                 str "jane@example.org" |}
            initial)
     = {| hook_status := StatusError;
          hook_error := Some [];
          events :=
            [ Rpc {| rpc_function := str "submit_splash_modal_signup";
                     rpc_arguments :=
                       [ (str "p_email", VStr (str "jane@example.org")) ] |} ] |}.
Proof.
  split.
  - rewrite (proj1 form_hook_database_error) with
      (result := {| rpc_data := VNull;
                    rpc_error :=
                      VJson (JObj [ (str "message",
                                     JStr (str "permission denied")) ]) |})
      (props := [ (str "message", JStr (str "permission denied")) ])
      (text := str "permission denied");
      [reflexivity | reflexivity | reflexivity | left; reflexivity].
  - rewrite (proj2 (proj2 form_hook_database_error)) with
      (result := {| rpc_data := VStr (str "7");
                    rpc_error :=
                      VJson (JObj [ (str "code", JStr (str "23505")) ]) |})
      (props := [ (str "code", JStr (str "23505")) ])
      (text := []);
      [reflexivity | reflexivity | reflexivity
      | right; split; reflexivity].
Defined.

(** ** A refill that went through in part *)

Lemma validateRefillResponse_one_entry :
  forall props items entry,
    lookup (str "RxInRefillResponse") props = Some (JArr items) ->
    In (JObj entry) items ->
    lookup (str "Status") entry = Some (JStr (str "OK")) ->
    validateRefillResponse (VJson (JObj props)) = true.
Proof.
  intros props items entry Hprops Hin Hstatus.
  unfold validateRefillResponse.
  rewrite not_an_object_plain, get_field_plain.
  change (field_name F_RxInRefillResponse) with (str "RxInRefillResponse").
  rewrite Hprops. cbn [isArray negb array_items].
  apply existsb_exists. exists (VJson (JObj entry)). split.
  - apply in_map. exact Hin.
  - apply entry_ok_iff. exists entry. split; [reflexivity | exact Hstatus].
Qed.

(** X20.  A refill is a success as soon as the answer is [response.ok]
    and one entry of [RxInRefillResponse] has [Status] ["OK"], wherever
    that entry stands and whatever the other entries say: the hook
    resolves with the whole answer, ends with status "success" and no
    error, and writes the audit record.  The entries that failed are not
    reported. *)
Theorem refill_accepted_in_part :
  forall w data st response props items entry,
    missing (BESTRX_USERNAME (env w)) = false ->
    missing (BESTRX_API_KEY (env w)) = false ->
    missing (BESTRX_PHARMACY_NUMBER (env w)) = false ->
    let request :=
      refill_request
        (buildRefillRequestPayload data
           (configured (BESTRX_PHARMACY_NUMBER (env w)))
           (configured (BESTRX_API_KEY (env w)))
           (configured (BESTRX_USERNAME (env w)))) in
    fetch w request = Normal response ->
    ok response = true ->
    json response = Normal (JObj props) ->
    lookup (str "RxInRefillResponse") props = Some (JArr items) ->
    In (JObj entry) items ->
    lookup (str "Status") entry = Some (JStr (str "OK")) ->
    let run := useRefillFormSubmission.submit w data st in
    fst run = Normal (VJson (JObj props))
    /\ hook_status (snd run) = StatusSuccess
    /\ hook_error (snd run) = None
    /\ exists warnings,
         events (snd run)
         = events st
           ++ Fetch request :: Rpc (useRefillFormSubmission.audit_call data)
              :: warnings.
Proof.
  intros w data st response props items entry Hu Hk Hp request
    Hfetch Hok Hjson Hprops Hin Hstatus run.
  subst run request.
  rewrite (refill_submit_primary_success w data st response (JObj props)
             Hu Hk Hp Hfetch Hok Hjson
             (validateRefillResponse_one_entry _ _ _ Hprops Hin Hstatus)).
  cbn [fst snd hook_status hook_error events].
  repeat (split; [reflexivity|]).
  eexists. cbn [app]. reflexivity.
Qed.

(** The theorem at an answer whose first entry failed with [ERROR0027]
    and whose second entry went through; the extractor, asked about the
    same answer, has the message of the first entry. *)
Lemma refill_accepted_in_part_witness :
  fst (useRefillFormSubmission.submit
         (Scenarios.world_of Samples.complete
            (Scenarios.answer true 200%float
               (Scenarios.refill_accepted_in_part (str "ERROR0027")))
            (Scenarios.saved (str "42")))
         (Samples.refill_form (str "Jane Doe") (str "111, 222")
            (str "Drug A, Drug B"))
         initial)
  = Normal (VJson (Scenarios.refill_accepted_in_part (str "ERROR0027")))
  /\ extractRefillErrorMessage
       (VJson (Scenarios.refill_accepted_in_part (str "ERROR0027")))
     = Normal
         (VStr (str "Prescription not found. Please verify the prescription number.")).
Proof.
  split; [|reflexivity].
  apply (refill_accepted_in_part
           (Scenarios.world_of Samples.complete
              (Scenarios.answer true 200%float
                 (Scenarios.refill_accepted_in_part (str "ERROR0027")))
              (Scenarios.saved (str "42")))
           (Samples.refill_form (str "Jane Doe") (str "111, 222")
              (str "Drug A, Drug B"))
           initial
           {| ok := true; status := 200%float;
              json :=
                Normal (Scenarios.refill_accepted_in_part (str "ERROR0027")) |}
           _ _ [ (str "RxNumber", JStr (str "222"));
                 (str "Status", JStr (str "OK")) ]
           eq_refl eq_refl eq_refl eq_refl eq_refl eq_refl eq_refl
           (or_intror (or_introl eq_refl)) eq_refl).
Defined.
